(** * RunAsUser: a shallow embedding of the two platform programs

    [src/macos/main.c] drops from root to the console user with the POSIX
    credential calls and exec's the command; [src/windows/main.c] obtains the
    session user's token and creates the process from a single command-line
    string.  Each C function is embedded as a Rocq function of the same name.

    Conventions.
    - A C [int], [uid_t], [DWORD] is a [Z]; casts are written out.
    - A narrow C string is a [string]; a wide C string is the list of its
      16-bit code units before the terminating zero ([wstring]).
    - The operating system is a record of answers ([OS]); every call the
      program makes is appended to a trace.  The credential calls, whose
      answer may change while the program runs, take the trace so far as an
      argument and are recorded with their result.
    - Diagnostics written to stderr do not influence control flow and are not
      recorded; neither are the releases of memory in the macOS program. *)

From stdpp Require Import base list strings gmap pretty.
From Stdlib Require Import ZArith Lia.

(* ===================================================================== *)
(** * Part I: definitions                                                  *)
(* ===================================================================== *)

(** ** Wide strings *)

Definition WCHAR := Z.
Abbreviation wstring := (list WCHAR).

Definition BACKSLASH : WCHAR := 92%Z.
Definition DQUOTE : WCHAR := 34%Z.
Definition SPACE : WCHAR := 32%Z.
Definition TAB : WCHAR := 9%Z.

(** The wide literal of an ASCII string. *)
Definition L (s : string) : wstring :=
  (fun a => Z.of_N (Ascii.N_of_ascii a)) <$> String.list_ascii_of_string s.

(** [wcslen]. *)
Definition wcslen (s : wstring) : nat := length s.

Module Codec.

(** The test of the inner scanning loop:
    the character is a space, a tab or a double quote. *)
Definition is_special (c : WCHAR) : bool :=
  (c =? SPACE)%Z || (c =? TAB)%Z || (c =? DQUOTE)%Z.

(** The [needsQuoting] computation, identical in both passes:
    an empty argument is quoted, otherwise the argument is scanned for the
    first space, tab or double quote. *)
Definition needsQuoting (arg : wstring) : bool :=
  match arg with
  | [] => true
  | _ => existsb is_special arg
  end.

(** First pass, quoted branch: the loop over [p] with its counter
    [numBackslashes]; the result is what is added to [totalLen] by the loop
    and by the statement after it. *)
Fixpoint quoted_len (arg : wstring) (numBackslashes : nat) : nat :=
  match arg with
  | [] => numBackslashes
  | c :: p =>
      if (c =? BACKSLASH)%Z then 1 + quoted_len p (S numBackslashes)
      else if (c =? DQUOTE)%Z then (numBackslashes + 1) + 1 + quoted_len p 0
      else 1 + quoted_len p 0
  end.

(** First pass, one argument. *)
Definition arg_len (arg : wstring) : nat :=
  if needsQuoting arg then 2 + quoted_len arg 0 else wcslen arg.

(** First pass, the loop over [i]; a separator is counted when
    [i < argc - 1]. *)
Fixpoint args_len (argv : list wstring) : nat :=
  match argv with
  | [] => 0
  | arg :: rest =>
      arg_len arg + (match rest with [] => 0 | _ => 1 end) + args_len rest
  end.

(** [totalLen] after the first pass, terminator included. *)
Definition totalLen (argv : list wstring) : nat := args_len argv + 1.

(** Second pass, quoted branch after the opening quote: the loop over [p],
    then the doubling of the trailing backslashes and the closing quote. *)
Fixpoint emit_quoted (arg : wstring) (numBackslashes : nat) : wstring :=
  match arg with
  | [] => replicate numBackslashes BACKSLASH ++ [DQUOTE]
  | c :: p =>
      if (c =? BACKSLASH)%Z then BACKSLASH :: emit_quoted p (S numBackslashes)
      else if (c =? DQUOTE)%Z then
        replicate numBackslashes BACKSLASH ++
        BACKSLASH :: DQUOTE :: emit_quoted p 0
      else c :: emit_quoted p 0
  end.

(** Second pass, one argument. *)
Definition emit_arg (arg : wstring) : wstring :=
  if needsQuoting arg then DQUOTE :: emit_quoted arg 0 else arg.

(** Second pass, the loop over [i]. *)
Fixpoint emit_args (argv : list wstring) : wstring :=
  match argv with
  | [] => []
  | arg :: rest =>
      emit_arg arg ++ (match rest with [] => [] | _ => [SPACE] end) ++
      emit_args rest
  end.

(** [build_command_line]: [malloc_ok] answers the single [malloc] call, which
    is made for [totalLen * sizeof(WCHAR)] bytes; [None] is the NULL result. *)
Definition build_command_line (malloc_ok : nat -> bool) (argv : list wstring)
  : option wstring :=
  if malloc_ok (totalLen argv * 2) then Some (emit_args argv) else None.

(** Modelled from the spec: the operating system's argument splitter (the
    consumer of the command line, [CommandLineToArgvW]) is not part of the
    repository.  This is the splitting algorithm the specification calls the
    OS's standard one, with the rules the comment above [build_command_line]
    lists for it: outside quotes a space or a tab ends the argument; [2n]
    backslashes before a double quote give [n] backslashes and the quote
    opens or closes the quoted part; [2n+1] backslashes before a double quote
    give [n] backslashes and a literal double quote; backslashes not followed
    by a double quote are literal; an empty quoted pair is an empty argument.

    [cur] is the argument being built, [inarg] tells whether one has been
    started, [inq] whether the scan is inside quotes and [bs] counts the
    backslashes seen and not yet emitted. *)
Fixpoint split_go (s : wstring) (cur : wstring) (inarg inq : bool) (bs : nat)
  : list wstring :=
  match s with
  | [] => if inarg then [cur ++ replicate bs BACKSLASH] else []
  | c :: s' =>
      if (c =? BACKSLASH)%Z then split_go s' cur true inq (S bs)
      else if (c =? DQUOTE)%Z then
        if Nat.even bs
        then split_go s' (cur ++ replicate (Nat.div2 bs) BACKSLASH)
                      true (negb inq) 0
        else split_go s' (cur ++ replicate (Nat.div2 bs) BACKSLASH ++ [DQUOTE])
                      true inq 0
      else if ((c =? SPACE)%Z || (c =? TAB)%Z) && negb inq then
        if inarg
        then (cur ++ replicate bs BACKSLASH) :: split_go s' [] false false 0
        else split_go s' [] false false 0
      else split_go s' (cur ++ replicate bs BACKSLASH ++ [c]) true inq 0
  end.

Definition split (s : wstring) : list wstring := split_go s [] false false 0.

End Codec.

(** ** A state monad for programs that call the operating system *)

Definition M (S A : Type) : Type := S -> A * S.

Definition ret {S A} (a : A) : M S A := fun s => (a, s).

Definition bind {S A B} (m : M S A) (f : A -> M S B) : M S B :=
  fun s => let (a, s') := m s in f a s'.

Notation "x <- m ;; k" := (bind m (fun x => k))
  (at level 100, m at next level, right associativity).
Notation "m ;;; k" := (bind m (fun _ => k))
  (at level 100, right associativity).

(** ** 32-bit conversions *)

(** The cast to [DWORD] / [unsigned long] (32 bits on this platform). *)
Definition to_DWORD (z : Z) : Z := (z mod 2 ^ 32)%Z.

(** The cast to a 32-bit [int]. *)
Definition to_int (z : Z) : Z := ((z + 2 ^ 31) mod 2 ^ 32 - 2 ^ 31)%Z.

(* --------------------------------------------------------------------- *)
(** ** src/windows/main.c                                                  *)
(* --------------------------------------------------------------------- *)

Module Windows.
Local Open Scope Z_scope.

Definition EXIT_SUCCESS_CODE : Z := 0.
Definition EXIT_GENERAL_FAILURE : Z := 1.
Definition EXIT_NO_SESSION : Z := 2.
Definition EXIT_TOKEN_FAILURE : Z := 3.
Definition EXIT_PROCESS_FAILURE : Z := 4.
Definition EXIT_USAGE_ERROR : Z := 5.

(** Constants of the platform headers the program names; the program only
    compares against them. *)
Definition ERROR_NO_TOKEN : Z := 1008.
Definition ERROR_PRIVILEGE_NOT_HELD : Z := 1314.
Definition ULONG_MAX : Z := 4294967295.

Definition HANDLE := Z.

Inductive WTS_CONNECTSTATE_CLASS :=
| WTSActive | WTSConnected | WTSConnectQuery | WTSShadow | WTSDisconnected
| WTSIdle | WTSListen | WTSReset | WTSDown | WTSInit.

Definition is_WTSActive (c : WTS_CONNECTSTATE_CLASS) : bool :=
  match c with WTSActive => true | _ => false end.

Record WTS_SESSION_INFOW := {
  SessionId : Z;
  State : WTS_CONNECTSTATE_CLASS
}.

Record PROCESS_INFORMATION := {
  hProcess : HANDLE;
  hThread : HANDLE;
  dwProcessId : Z
}.

(** The answers of the operating system.  A call that fails answers with the
    value [GetLastError] then returns ([inr]), or with [None] where the
    program does not look at the error. *)
Record OS := {
  WTSGetActiveConsoleSessionId : Z;
  WTSEnumerateSessionsW : option (list WTS_SESSION_INFOW);
  WTSQuerySessionInformationW : Z -> option wstring;
  WTSQueryUserToken : Z -> HANDLE + Z;
  DuplicateTokenEx : HANDLE -> HANDLE + Z;
  CreateEnvironmentBlock : HANDLE -> Z + Z;
  GetUserProfileDirectoryW : HANDLE -> option wstring;
  malloc : nat -> bool;
  CreateProcessAsUserW :
    HANDLE -> wstring -> Z -> option wstring -> PROCESS_INFORMATION + Z;
  GetExitCodeProcess : HANDLE -> option Z
}.

(** The calls the program makes, in the order it makes them. *)
Inductive event :=
| CallGetActiveConsoleSessionId
| CallEnumerateSessions
| CallQuerySessionInformation (sessionId : Z)
| CallQueryUserToken (sessionId : Z)
| CallDuplicateTokenEx (hToken : HANDLE)
| CallCreateEnvironmentBlock (hToken : HANDLE)
| CallGetUserProfileDirectory (hToken : HANDLE)
| CallMalloc (bytes : nat)
| CallCreateProcessAsUser
    (hToken : HANDLE) (cmdLine : wstring) (env : Z) (cwd : option wstring)
| CallWaitForSingleObject (h : HANDLE)
| CallGetExitCodeProcess (h : HANDLE)
| CallCloseHandle (h : HANDLE)
| CallFree
| CallDestroyEnvironmentBlock (env : Z)
| CallWTSFreeMemory.

Definition trace := list event.

Definition call (e : event) : M trace unit := fun t => (tt, t ++ [e]).

(** The body of the loop of [find_active_session]: the first session whose
    state is [WTSActive]. *)
Fixpoint first_active (sessions : list WTS_SESSION_INFOW) : option Z :=
  match sessions with
  | [] => None
  | s :: rest =>
      if is_WTSActive (State s) then Some (SessionId s) else first_active rest
  end.

(** [find_active_session]: [Some id] is the result TRUE with [*pSessionId]
    set to [id]. *)
Definition find_active_session (os : OS) : M trace (option Z) :=
  call CallGetActiveConsoleSessionId ;;;
  let sessionId := WTSGetActiveConsoleSessionId os in
  if negb (sessionId =? 4294967295) then ret (Some sessionId)
  else
    call CallEnumerateSessions ;;;
    match WTSEnumerateSessionsW os with
    | None => ret None
    | Some pSessions =>
        let found := first_active pSessions in
        call CallWTSFreeMemory ;;;
        ret found
    end.

Definition get_session_username (os : OS) (sessionId : Z)
  : M trace (option wstring) :=
  call (CallQuerySessionInformation sessionId) ;;;
  ret (WTSQuerySessionInformationW os sessionId).

(** [build_command_line] with its [malloc] call recorded. *)
Definition build_command_line (os : OS) (argv : list wstring)
  : M trace (option wstring) :=
  call (CallMalloc (Codec.totalLen argv * 2)) ;;;
  ret (Codec.build_command_line (malloc os) argv).

(** *** The session argument *)

(** Modelled from the spec: [iswspace] belongs to the C library, not to the
    repository; this is the white-space class of the C locale. *)
Definition iswspace (c : WCHAR) : bool :=
  ((9 <=? c) && (c <=? 13)) || (c =? 32).

(** Modelled from the spec: the C library's class of decimal digits. *)
Definition iswdigit (c : WCHAR) : bool := (48 <=? c) && (c <=? 57).

Definition MINUS : WCHAR := 45.
Definition PLUS : WCHAR := 43.

Fixpoint skip_space (s : wstring) : nat :=
  match s with
  | c :: s' => if iswspace c then S (skip_space s') else O
  | [] => O
  end.

Definition skip_sign (s : wstring) : bool * nat :=
  match s with
  | c :: _ =>
      if c =? MINUS then (true, 1%nat)
      else if c =? PLUS then (false, 1%nat)
      else (false, O)
  | [] => (false, O)
  end.

Fixpoint scan_digits (s : wstring) (acc : Z) (n : nat) : Z * nat :=
  match s with
  | c :: s' =>
      if iswdigit c then scan_digits s' (acc * 10 + (c - 48)) (S n)
      else (acc, n)
  | [] => (acc, n)
  end.

(** Modelled from the spec: [wcstoul] belongs to the C library, not to the
    repository.  For base 10 and a 32-bit [unsigned long] it skips leading
    white space, accepts one optional sign, reads the longest run of decimal
    digits, negates modulo [2^32] after a minus sign, and answers [ULONG_MAX]
    when the digits denote a value above [ULONG_MAX].  The second component
    is the offset of [endPtr] from the start of the string; it is [0] when
    no digit could be read. *)
Definition wcstoul (nptr : wstring) : Z * nat :=
  let i := skip_space nptr in
  let '(negative, j) := skip_sign (drop i nptr) in
  let '(v, k) := scan_digits (drop (i + j) nptr) 0 O in
  match k with
  | O => (0, O)
  | _ =>
      (if ULONG_MAX <? v then ULONG_MAX
       else if negative then to_DWORD (- v) else v,
       (i + j + k)%nat)
  end.

(** The code unit [*endPtr]: the terminator when [endPtr] is the end. *)
Definition deref (s : wstring) (endPtr : nat) : WCHAR := nth endPtr s 0.

(** The block of [wmain] that reads the argument of the session flag:
    [None] is the return with the usage-error code, [Some id] assigns
    [targetSessionId]. *)
Definition session_arg (arg : wstring) : option Z :=
  let '(val, endPtr) := wcstoul arg in
  if Nat.eqb endPtr O || negb (deref arg endPtr =? 0) then None
  else Some (to_DWORD val).

(** The strings the session argument is read from: white space, one
    optional sign, then decimal digits up to the end of the string. *)
Definition decimal_value (digits : wstring) : Z :=
  fold_left (fun acc c => acc * 10 + (c - 48)) digits 0.

Definition session_syntax (s : wstring) (negative : bool) (digits : wstring)
  : Prop :=
  exists ws sign,
    s = ws ++ sign ++ digits
    /\ Forall (fun c => iswspace c = true) ws
    /\ ((sign = [] /\ negative = false)
        \/ (sign = [PLUS] /\ negative = false)
        \/ (sign = [MINUS] /\ negative = true))
    /\ digits <> []
    /\ Forall (fun c => iswdigit c = true) digits.

(** The identifier such a string denotes: saturated at [ULONG_MAX], and
    negated modulo [2^32] after a minus sign. *)
Definition session_value (negative : bool) (digits : wstring) : Z :=
  let v := decimal_value digits in
  if ULONG_MAX <? v then ULONG_MAX
  else if negative then to_DWORD (- v) else v.

(** *** The flag loop of [wmain] and the test that follows it *)

Inductive parsed :=
| PReturn (code : Z)
| PCommand (waitForChild sessionSpecified : bool) (targetSessionId : Z)
           (cmd : list wstring).

Fixpoint parse_flags (args : list wstring)
    (waitForChild sessionSpecified : bool) (targetSessionId : Z) : parsed :=
  match args with
  | [] => PReturn EXIT_USAGE_ERROR
  | a :: rest =>
      if decide (a = L "--wait") then
        parse_flags rest true sessionSpecified targetSessionId
      else if decide (a = L "--session") then
        match rest with
        | [] => PReturn EXIT_USAGE_ERROR
        | id :: rest' =>
            match session_arg id with
            | None => PReturn EXIT_USAGE_ERROR
            | Some val => parse_flags rest' waitForChild true val
            end
        end
      else if decide (a = L "--help") then PReturn EXIT_SUCCESS_CODE
      else if decide (a = L "-h") then PReturn EXIT_SUCCESS_CODE
      else PCommand waitForChild sessionSpecified targetSessionId args
  end.

(** *** [wmain] *)

(** The [cleanup] label: every handle that is not NULL is released, then
    [exitCode] is returned. *)
Definition cleanup (pi : PROCESS_INFORMATION) (cmdLine : option wstring)
    (lpEnvironment : Z) (hDupToken hToken : HANDLE)
    (sessionUser : option wstring) (exitCode : Z) : M trace Z :=
  (if hThread pi =? 0 then ret tt else call (CallCloseHandle (hThread pi))) ;;;
  (if hProcess pi =? 0 then ret tt else call (CallCloseHandle (hProcess pi))) ;;;
  (match cmdLine with None => ret tt | Some _ => call CallFree end) ;;;
  (if lpEnvironment =? 0 then ret tt
   else call (CallDestroyEnvironmentBlock lpEnvironment)) ;;;
  (if hDupToken =? 0 then ret tt else call (CallCloseHandle hDupToken)) ;;;
  (if hToken =? 0 then ret tt else call (CallCloseHandle hToken)) ;;;
  (match sessionUser with None => ret tt | Some _ => call CallWTSFreeMemory end) ;;;
  ret exitCode.

(** [ZeroMemory(&pi, sizeof(pi))]. *)
Definition pi_zero : PROCESS_INFORMATION :=
  {| hProcess := 0; hThread := 0; dwProcessId := 0 |}.

(** Steps 2 to 8, from the token query to the optional wait. *)
Definition launch (os : OS) (waitForChild : bool) (targetSessionId : Z)
    (sessionUser : option wstring) (cmd : list wstring) : M trace Z :=
  call (CallQueryUserToken targetSessionId) ;;;
  match WTSQueryUserToken os targetSessionId with
  | inr _ => cleanup pi_zero None 0 0 0 sessionUser EXIT_TOKEN_FAILURE
  | inl hToken =>
  call (CallDuplicateTokenEx hToken) ;;;
  match DuplicateTokenEx os hToken with
  | inr _ => cleanup pi_zero None 0 0 hToken sessionUser EXIT_TOKEN_FAILURE
  | inl hDupToken =>
  call (CallCreateEnvironmentBlock hDupToken) ;;;
  match CreateEnvironmentBlock os hDupToken with
  | inr _ =>
      cleanup pi_zero None 0 hDupToken hToken sessionUser EXIT_GENERAL_FAILURE
  | inl lpEnvironment =>
  call (CallGetUserProfileDirectory hDupToken) ;;;
  let profileDir :=
    match GetUserProfileDirectoryW os hDupToken with
    | Some dir => dir
    | None => []
    end in
  cmdLine <- build_command_line os cmd ;;
  match cmdLine with
  | None =>
      cleanup pi_zero None lpEnvironment hDupToken hToken sessionUser
              EXIT_GENERAL_FAILURE
  | Some line =>
  let cwd := match profileDir with [] => None | _ => Some profileDir end in
  call (CallCreateProcessAsUser hDupToken line lpEnvironment cwd) ;;;
  match CreateProcessAsUserW os hDupToken line lpEnvironment cwd with
  | inr _ =>
      cleanup pi_zero cmdLine lpEnvironment hDupToken hToken sessionUser
              EXIT_PROCESS_FAILURE
  | inl pi =>
  if waitForChild then
    call (CallWaitForSingleObject (hProcess pi)) ;;;
    call (CallGetExitCodeProcess (hProcess pi)) ;;;
    match GetExitCodeProcess os (hProcess pi) with
    | Some childExitCode =>
        cleanup pi cmdLine lpEnvironment hDupToken hToken sessionUser
                (to_int childExitCode)
    | None =>
        cleanup pi cmdLine lpEnvironment hDupToken hToken sessionUser
                EXIT_GENERAL_FAILURE
    end
  else
    cleanup pi cmdLine lpEnvironment hDupToken hToken sessionUser
            EXIT_SUCCESS_CODE
  end end end end end.

(** Step 1: the session given on the command line, or else the one
    [find_active_session] finds. *)
Definition resolve_target (os : OS) (sessionSpecified : bool)
    (targetSessionId : Z) : M trace (option Z) :=
  if sessionSpecified then ret (Some targetSessionId)
  else find_active_session os.

Definition wmain (os : OS) (argv : list wstring) : M trace Z :=
  match parse_flags (tail argv) false false 0 with
  | PReturn code => ret code
  | PCommand waitForChild sessionSpecified targetSessionId cmd =>
      found <- resolve_target os sessionSpecified targetSessionId ;;
      match found with
      | None => cleanup pi_zero None 0 0 0 None EXIT_NO_SESSION
      | Some target =>
          sessionUser <- get_session_username os target ;;
          launch os waitForChild target sessionUser cmd
      end
  end.

(** The program run from an empty trace: its exit code and its calls. *)
Definition run (os : OS) (argv : list wstring) : Z * trace := wmain os argv [].

(** *** What a trace shows *)

(** A call of the session discovery. *)
Definition is_discovery (e : event) : bool :=
  match e with
  | CallGetActiveConsoleSessionId | CallEnumerateSessions => true
  | _ => false
  end.

(** A call that acquires the user's identity for the new process, beyond
    the token query itself. *)
Definition is_transition (e : event) : bool :=
  match e with
  | CallDuplicateTokenEx _ | CallCreateEnvironmentBlock _ => true
  | _ => false
  end.

Definition is_token_query (e : event) : bool :=
  match e with CallQueryUserToken _ => true | _ => false end.

(** The call that creates the process. *)
Definition is_creation (e : event) : bool :=
  match e with CallCreateProcessAsUser _ _ _ _ => true | _ => false end.

(** A call that observes the created process. *)
Definition is_observation (e : event) : bool :=
  match e with
  | CallWaitForSingleObject _ | CallGetExitCodeProcess _ => true
  | _ => false
  end.

(** A call that releases a handle or a buffer. *)
Definition is_release (e : event) : bool :=
  match e with
  | CallCloseHandle _ | CallFree | CallDestroyEnvironmentBlock _
  | CallWTSFreeMemory => true
  | _ => false
  end.

(** The calls of the [cleanup] label for given locals. *)
Definition cleanup_calls (pi : PROCESS_INFORMATION) (cmdLine : option wstring)
    (lpEnvironment : Z) (hDupToken hToken : HANDLE)
    (sessionUser : option wstring) : trace :=
  snd (cleanup pi cmdLine lpEnvironment hDupToken hToken sessionUser 0 []).

(** Steps 2 to 6 succeed for the session [target]: the token is obtained and
    duplicated, the environment block is created and the command line is
    allocated. *)
Definition prepared (os : OS) (target : Z) (cmd : list wstring)
    (hToken hDupToken : HANDLE) (lpEnvironment : Z) : Prop :=
  WTSQueryUserToken os target = inl hToken
  /\ DuplicateTokenEx os hToken = inl hDupToken
  /\ CreateEnvironmentBlock os hDupToken = inl lpEnvironment
  /\ malloc os (Codec.totalLen cmd * 2) = true.

(** The [lpCurrentDirectory] argument: the profile directory, or NULL when
    it could not be read or is empty. *)
Definition current_directory (os : OS) (hDupToken : HANDLE) : option wstring :=
  match GetUserProfileDirectoryW os hDupToken with
  | Some (c :: dir) => Some (c :: dir)
  | _ => None
  end.

(** The calls of steps 2 to 7 when they are all made. *)
Definition launch_calls (os : OS) (target : Z) (cmd : list wstring)
    (hToken hDupToken : HANDLE) (lpEnvironment : Z) : trace :=
  [CallQueryUserToken target; CallDuplicateTokenEx hToken;
   CallCreateEnvironmentBlock hDupToken;
   CallGetUserProfileDirectory hDupToken;
   CallMalloc (Codec.totalLen cmd * 2);
   CallCreateProcessAsUser hDupToken (Codec.emit_args cmd) lpEnvironment
     (current_directory os hDupToken)].

(** *** A sample system

    The console session is [console]; the token query for a session answers
    [token]; every later step succeeds and the created process ends with
    [code]. *)
Definition sample_os (console : Z) (token : Z -> HANDLE + Z)
    (created : bool) (code : Z) : OS :=
  {| WTSGetActiveConsoleSessionId := console;
     WTSEnumerateSessionsW := Some [];
     WTSQuerySessionInformationW := fun _ => None;
     WTSQueryUserToken := token;
     DuplicateTokenEx := fun h => inl (h + 1);
     CreateEnvironmentBlock := fun _ => inl 4096;
     GetUserProfileDirectoryW := fun _ => Some (L "C:\Users\alice");
     malloc := fun _ => true;
     CreateProcessAsUserW := fun _ _ _ _ =>
       if created
       then inl {| hProcess := 200; hThread := 204; dwProcessId := 4242 |}
       else inr 2;
     GetExitCodeProcess := fun _ => Some code |}.

(** *** The message clean-up of [print_error]

    The loop that strips the line ends at the end of the system message:
    while [len > 0] and the unit before position [len] is a line feed or a
    carriage return, [len] is decremented and a terminator written there.
    [strip_len] is the final value of [len]. *)
Definition is_line_end (c : WCHAR) : bool := (c =? 10) || (c =? 13).

Fixpoint strip_len (sysMsg : wstring) (len : nat) : nat :=
  match len with
  | O => O
  | S n => if is_line_end (nth n sysMsg 0) then strip_len sysMsg n else S n
  end.

(** The message as it is printed: the units before the terminator the loop
    wrote last. *)
Definition strip_line_ends (sysMsg : wstring) : wstring :=
  take (strip_len sysMsg (wcslen sysMsg)) sysMsg.

(** *** More of what a trace shows *)

(** A word the flag loop of [wmain] takes for one of its own. *)
Definition is_option (a : wstring) : bool :=
  bool_decide (a = L "--wait") || bool_decide (a = L "--session")
  || bool_decide (a = L "--help") || bool_decide (a = L "-h").

(** The number of calls of a kind on a trace. *)
Definition count_calls (kind : event -> bool) (t : trace) : nat :=
  length (List.filter kind t).

(** *** The flags before the command *)

(** One flag as the loop of [wmain] reads it: the wait flag, or the session
    flag together with the word after it. *)
Inductive flag :=
| FWait
| FSession (id : wstring).

(** The words of a flag, and of a list of flags, on the command line. *)
Definition flag_words (f : flag) : list wstring :=
  match f with
  | FWait => [L "--wait"]
  | FSession id => [L "--session"; id]
  end.

Definition flags_words (flags : list flag) : list wstring :=
  concat (map flag_words flags).

Definition is_FWait (f : flag) : bool :=
  match f with FWait => true | FSession _ => false end.

Definition is_FSession (f : flag) : bool :=
  match f with FWait => false | FSession _ => true end.

(** A flag the loop goes past: the word after a session flag is a session
    identifier. *)
Definition flag_ok (f : flag) : bool :=
  match f with
  | FWait => true
  | FSession id => bool_decide (is_Some (session_arg id))
  end.

(** The identifiers given with the session flags, in their order. *)
Definition session_ids (flags : list flag) : list Z :=
  omap (fun f => match f with
                 | FWait => None
                 | FSession id => session_arg id
                 end) flags.

End Windows.

(* --------------------------------------------------------------------- *)
(** ** src/macos/main.c                                                    *)
(* --------------------------------------------------------------------- *)

Module MacOS.
Local Open Scope Z_scope.

Definition EXIT_GENERAL : Z := 1.
Definition EXIT_NO_SESSION : Z := 2.
Definition EXIT_PRIV_DROP : Z := 3.
Definition EXIT_EXEC_FAIL : Z := 4.
Definition EXIT_USAGE : Z := 5.

Definition DEFAULT_PATH : string :=
  "/usr/local/bin:/usr/bin:/bin:/usr/sbin:/sbin".

(** [errno] value of an interrupted call, from the platform's errno.h. *)
Definition EINTR : Z := 4.

(** The fields of [struct passwd] the program reads. *)
Record passwd := {
  pw_name : string;
  pw_uid : Z;
  pw_gid : Z;
  pw_dir : string;
  pw_shell : string
}.

(** Modelled from the spec: the wait-status macros come from the system
    header sys/wait.h, which is not part of the repository.  They decode the
    two outcomes the specification names, a normal exit with its code and a
    death by signal with its signal number, from the status word as that
    header lays it out: the low seven bits hold the signal (zero for a
    normal exit, all ones for a stopped child) and the next byte the exit
    code.  [WSTATUS] is the low seven bits. *)
Definition WSTATUS (x : Z) : Z := Z.land x 127.

(** Modelled from the spec: the header's test for a normal exit. *)
Definition WIFEXITED (x : Z) : bool := WSTATUS x =? 0.

(** Modelled from the spec: the header's exit code of a normal exit. *)
Definition WEXITSTATUS (x : Z) : Z := Z.land (Z.shiftr x 8) 255.

(** Modelled from the spec: the header's test for a death by signal. *)
Definition WIFSIGNALED (x : Z) : bool :=
  negb (WSTATUS x =? 127) && negb (WSTATUS x =? 0).

(** Modelled from the spec: the header's signal number of a death by
    signal. *)
Definition WTERMSIG (x : Z) : Z := WSTATUS x.

(** Modelled from the spec: the header's status word of a child that exited
    with [ret] ([sig] zero) or was killed by [sig]. *)
Definition W_EXITCODE (ret sig : Z) : Z := Z.lor (Z.shiftl ret 8) sig.

(** Modelled from the spec: the header's bit that marks a core dump. *)
Definition WCOREFLAG : Z := 128.

(** The calls the program makes.  The credential calls carry their result. *)
Inductive event :=
| CallGetuid
| CallCopyConsoleUser
| CallCFStringGetCString
| CallGetpwuid (uid : Z)
| CallInitgroups (name : string) (gid : Z) (result : Z)
| CallSetgid (gid : Z) (result : Z)
| CallSetuid (uid : Z) (result : Z)
| CallSetenv (name value : string)
| CallNSGetExecutablePath
| CallMalloc
| CallRealpath (path : string)
| CallCalloc (nargs : nat)
| CallFork
| CallExecvp (file : string) (argv : list string)
| CallWaitpid (pid : Z).

(** One answer of [waitpid]: a status, or [-1] with [errno]. *)
Inductive wait_answer :=
| WaitReturns (status : Z)
| WaitFails (errno : Z).

(** The answers of the operating system.  [None] is a NULL or false result;
    [execvp] answers [true] when the image is replaced and [false] when the
    call returns; [waitpid] lists the answers to the successive calls for a
    process, and the call after the last one never returns. *)
Record OS := {
  getuid : Z;
  SCDynamicStoreCopyConsoleUser : option (Z * Z);
  CFStringGetCString : option string;
  getpwuid : Z -> option passwd;
  initgroups : list event -> string -> Z -> Z;
  setgid : list event -> Z -> Z;
  setuid : list event -> Z -> Z;
  NSGetExecutablePath : option string;
  malloc : bool;
  realpath : string -> option string;
  calloc : bool;
  fork : Z;
  execvp : string -> list string -> bool;
  waitpid : Z -> list wait_answer
}.

(** The process state the program changes: the calls made so far and the
    environment ([environ]) that [execvp] hands to the new image. *)
Record state := {
  st_trace : list event;
  st_env : gmap string string
}.

Definition call (e : event) : M state unit :=
  fun st => (tt, {| st_trace := st_trace st ++ [e]; st_env := st_env st |}).

(** How the process ends: it returns from [main] or calls [_exit]; or its
    image is replaced by [execvp], which passes on the environment; or it
    stays in a [waitpid] that never returns. *)
Inductive outcome :=
| Exit (code : Z)
| Exec (file : string) (argv : list string) (env : gmap string string)
| Blocked.

Definition sys_initgroups (os : OS) (name : string) (gid : Z) : M state Z :=
  fun st =>
    let r := initgroups os (st_trace st) name gid in
    (r, snd (call (CallInitgroups name gid r) st)).

Definition sys_setgid (os : OS) (gid : Z) : M state Z :=
  fun st =>
    let r := setgid os (st_trace st) gid in
    (r, snd (call (CallSetgid gid r) st)).

Definition sys_setuid (os : OS) (uid : Z) : M state Z :=
  fun st =>
    let r := setuid os (st_trace st) uid in
    (r, snd (call (CallSetuid uid r) st)).

(** [setenv(name, value, 1)]: the variable is set, replacing an old value. *)
Definition setenv (name value : string) : M state unit :=
  fun st =>
    (tt, {| st_trace := st_trace st ++ [CallSetenv name value];
            st_env := <[name := value]> (st_env st) |}).

(** [execvp(file, argv)] followed by [otherwise] when the call returns. *)
Definition sys_execvp (os : OS) (file : string) (argv : list string)
    (otherwise : outcome) : M state outcome :=
  fun st =>
    let st' := snd (call (CallExecvp file argv) st) in
    if execvp os file argv then (Exec file argv (st_env st'), st')
    else (otherwise, st').

(** [get_self_path]. *)
Definition get_self_path (os : OS) : M state (option string) :=
  call CallNSGetExecutablePath ;;;
  call CallMalloc ;;;
  if negb (malloc os) then ret None
  else
    call CallNSGetExecutablePath ;;;
    match NSGetExecutablePath os with
    | None => ret None
    | Some buf => call (CallRealpath buf) ;;; ret (realpath os buf)
    end.

(** The loop [while (waitpid(pid, &status, 0) == -1)]: an interrupted call
    is repeated, another error leaves the loop with the general failure
    code. *)
Inductive waited :=
| Status (status : Z)
| WaitError
| NeverReturns.

Fixpoint wait_loop (pid : Z) (answers : list wait_answer) : M state waited :=
  match answers with
  | [] => call (CallWaitpid pid) ;;; ret NeverReturns
  | a :: rest =>
      call (CallWaitpid pid) ;;;
      match a with
      | WaitReturns status => ret (Status status)
      | WaitFails errno =>
          if negb (errno =? EINTR) then ret WaitError else wait_loop pid rest
      end
  end.

(** The statements after the loop, the same in [handle_session] and in
    [main]. *)
Definition status_code (status : Z) : Z :=
  if WIFEXITED status then WEXITSTATUS status
  else if WIFSIGNALED status then 128 + WTERMSIG status
  else EXIT_GENERAL.

Definition wait_for (os : OS) (pid : Z) : M state outcome :=
  w <- wait_loop pid (waitpid os pid) ;;
  match w with
  | Status status => ret (Exit (status_code status))
  | WaitError => ret (Exit EXIT_GENERAL)
  | NeverReturns => ret Blocked
  end.

(** The argument vector [handle_session] fills in; the unsigned conversion of
    [uid] is printed in decimal. *)
Definition session_args (uid : Z) (self_path : string) (flag_wait : bool)
    (cmd_argv : list string) : list string :=
  ["launchctl"; "asuser"; pretty (Z.to_N (to_DWORD uid)); self_path]
  ++ (if flag_wait then ["--wait"] else []) ++ cmd_argv.

(** [handle_session]. *)
Definition handle_session (os : OS) (uid : Z) (flag_wait : bool)
    (cmd_argv : list string) : M state outcome :=
  self_path <- get_self_path os ;;
  match self_path with
  | None => ret (Exit EXIT_GENERAL)
  | Some self =>
      let nargs :=
        (4 + (if flag_wait then 1 else 0) + length cmd_argv + 1)%nat in
      call (CallCalloc nargs) ;;;
      if negb (calloc os) then ret (Exit EXIT_GENERAL)
      else
        let args := session_args uid self flag_wait cmd_argv in
        call CallFork ;;;
        let pid := fork os in
        if pid <? 0 then ret (Exit EXIT_EXEC_FAIL)
        else if pid =? 0 then
          sys_execvp os "launchctl" args (Exit EXIT_EXEC_FAIL)
        else wait_for os pid
  end.

(** [drop_privileges]. *)
Definition drop_privileges (os : OS) (pw : passwd) : M state Z :=
  r <- sys_initgroups os (pw_name pw) (pw_gid pw) ;;
  if negb (r =? 0) then ret (-1)
  else
    r <- sys_setgid os (pw_gid pw) ;;
    if negb (r =? 0) then ret (-1)
    else
      r <- sys_setuid os (pw_uid pw) ;;
      if negb (r =? 0) then ret (-1)
      else
        r <- sys_setuid os 0 ;;
        if r =? 0 then ret (-1) else ret 0.

(** [setup_environment]. *)
Definition setup_environment (pw : passwd) : M state unit :=
  setenv "HOME" (pw_dir pw) ;;;
  setenv "USER" (pw_name pw) ;;;
  setenv "LOGNAME" (pw_name pw) ;;;
  setenv "SHELL" (pw_shell pw) ;;;
  setenv "PATH" DEFAULT_PATH.

(** The flag loop of [main] and the test that follows it. *)
Inductive parsed :=
| PReturn (code : Z)
| PCommand (flag_wait flag_session : bool) (cmd_argv : list string).

Fixpoint parse_flags (args : list string) (flag_wait flag_session : bool)
  : parsed :=
  match args with
  | [] => PReturn EXIT_USAGE
  | a :: rest =>
      if String.eqb a "--wait" then parse_flags rest true flag_session
      else if String.eqb a "--session" then parse_flags rest flag_wait true
      else if String.eqb a "--help" || String.eqb a "-h" then PReturn 0
      else PCommand flag_wait flag_session args
  end.

(** The last part of [main]: the command is executed, with or without a
    wait. *)
Definition execute (os : OS) (flag_wait : bool) (cmd_argv : list string)
  : M state outcome :=
  let file := hd EmptyString cmd_argv in
  if flag_wait then
    call CallFork ;;;
    let pid := fork os in
    if pid <? 0 then ret (Exit EXIT_EXEC_FAIL)
    else if pid =? 0 then sys_execvp os file cmd_argv (Exit EXIT_EXEC_FAIL)
    else wait_for os pid
  else sys_execvp os file cmd_argv (Exit EXIT_EXEC_FAIL).

(** [main]. *)
Definition main (os : OS) (argv : list string) : M state outcome :=
  match parse_flags (tail argv) false false with
  | PReturn code => ret (Exit code)
  | PCommand flag_wait flag_session cmd_argv =>
  call CallGetuid ;;;
  if negb (getuid os =? 0) then ret (Exit EXIT_GENERAL)
  else
  call CallCopyConsoleUser ;;;
  match SCDynamicStoreCopyConsoleUser os with
  | None => ret (Exit EXIT_NO_SESSION)
  | Some (uid, gid) =>
  call CallCFStringGetCString ;;;
  match CFStringGetCString os with
  | None => ret (Exit EXIT_NO_SESSION)
  | Some username_buf =>
  if String.eqb username_buf "loginwindow" then ret (Exit EXIT_NO_SESSION)
  else if flag_session then handle_session os uid flag_wait cmd_argv
  else
  call (CallGetpwuid uid) ;;;
  match getpwuid os uid with
  | None => ret (Exit EXIT_GENERAL)
  | Some pw =>
  r <- drop_privileges os pw ;;
  if negb (r =? 0) then ret (Exit EXIT_PRIV_DROP)
  else
  setup_environment pw ;;;
  execute os flag_wait cmd_argv
  end end end end.

(** The program started with the environment [env]: how it ends, and the
    calls it made. *)
Definition run (os : OS) (argv : list string) (env : gmap string string)
  : outcome * list event :=
  let (o, st) := main os argv {| st_trace := []; st_env := env |} in
  (o, st_trace st).

(** *** What a trace shows *)

(** A call that changes the identity of the process. *)
Definition is_transition (e : event) : bool :=
  match e with
  | CallInitgroups _ _ _ | CallSetgid _ _ | CallSetuid _ _ => true
  | _ => false
  end.

(** A call that creates a process or replaces the image. *)
Definition is_creation (e : event) : bool :=
  match e with
  | CallFork | CallExecvp _ _ => true
  | _ => false
  end.

(** The invocation names a command, runs as root, and the console user is a
    logged-in user with identity [uid]: [main] gets past the session
    checks. *)
Definition resolved (os : OS) (argv : list string)
    (flag_wait flag_session : bool) (cmd_argv : list string) (uid : Z)
  : Prop :=
  parse_flags (tail argv) false false = PCommand flag_wait flag_session cmd_argv
  /\ getuid os = 0
  /\ (exists gid, SCDynamicStoreCopyConsoleUser os = Some (uid, gid))
  /\ (exists name, CFStringGetCString os = Some name
                   /\ String.eqb name "loginwindow" = false).

(** The state of the process when the session checks are passed, and when
    the password entry has been read. *)
Definition st_resolved (env : gmap string string) : state :=
  {| st_trace := [CallGetuid; CallCopyConsoleUser; CallCFStringGetCString];
     st_env := env |}.

Definition st_entry (uid : Z) (env : gmap string string) : state :=
  {| st_trace := [CallGetuid; CallCopyConsoleUser; CallCFStringGetCString;
                  CallGetpwuid uid];
     st_env := env |}.

(** The value of a variable in the environment the new image receives. *)
Definition child_var (o : outcome) (name : string) : option string :=
  match o with
  | Exec _ _ env => env !! name
  | _ => None
  end.

(** The variables [setup_environment] sets. *)
Definition reset_vars : list string :=
  ["HOME"; "USER"; "LOGNAME"; "SHELL"; "PATH"].

(** The environment after [setup_environment]. *)
Definition reset_env (pw : passwd) (env : gmap string string)
  : gmap string string :=
  <["PATH" := DEFAULT_PATH]> (<["SHELL" := pw_shell pw]>
    (<["LOGNAME" := pw_name pw]> (<["USER" := pw_name pw]>
      (<["HOME" := pw_dir pw]> env)))).

(** An interrupted [waitpid]. *)
Definition interrupted (a : wait_answer) : Prop := a = WaitFails EINTR.

(** *** A sample system

    Root runs the program, [alice] owns the console, and the credential
    calls answer 0 except [setuid(0)], which answers [regain].  The other
    answers are parameters. *)
Definition alice : passwd :=
  {| pw_name := "alice"; pw_uid := 501; pw_gid := 20;
     pw_dir := "/Users/alice"; pw_shell := "/bin/zsh" |}.

Definition sample_os (caller regain pid : Z) (exec_ok : bool)
    (answers : list wait_answer) : OS :=
  {| getuid := caller;
     SCDynamicStoreCopyConsoleUser := Some (501, 20);
     CFStringGetCString := Some "alice";
     getpwuid := fun uid => if uid =? 501 then Some alice else None;
     initgroups := fun _ _ _ => 0;
     setgid := fun _ _ => 0;
     setuid := fun _ uid => if uid =? 0 then regain else 0;
     NSGetExecutablePath := Some "/usr/local/bin/runasuser";
     malloc := true;
     realpath := fun path => Some path;
     calloc := true;
     fork := pid;
     execvp := fun _ _ => exec_ok;
     waitpid := fun _ => answers |}.

(** *** More of what a trace shows *)

(** A word the flag loop of [main] takes for a flag of its own. *)
Definition is_own_flag (a : string) : bool :=
  String.eqb a "--wait" || String.eqb a "--session".

(** A word the flag loop of [main] does not take for the command. *)
Definition is_option (a : string) : bool :=
  is_own_flag a || String.eqb a "--help" || String.eqb a "-h".

(** A call that changes the environment. *)
Definition is_setenv (e : event) : bool :=
  match e with CallSetenv _ _ => true | _ => false end.

(** A call of [waitpid]. *)
Definition is_waitpid (e : event) : bool :=
  match e with CallWaitpid _ => true | _ => false end.

(** The calls of a successful privilege drop to [pw], the last one failing
    with [v], followed by the calls of [setup_environment]. *)
Definition transition_calls (pw : passwd) (v : Z) : list event :=
  [CallInitgroups (pw_name pw) (pw_gid pw) 0;
   CallSetgid (pw_gid pw) 0;
   CallSetuid (pw_uid pw) 0;
   CallSetuid 0 v;
   CallSetenv "HOME" (pw_dir pw); CallSetenv "USER" (pw_name pw);
   CallSetenv "LOGNAME" (pw_name pw); CallSetenv "SHELL" (pw_shell pw);
   CallSetenv "PATH" DEFAULT_PATH].

End MacOS.

(* ===================================================================== *)
(** * Part II: theorems                                                    *)
(* ===================================================================== *)

Module CodecFacts.
Import Codec.

Example emit_plain : emit_args [L "cmd"; L "/c"; L "echo"] = L "cmd /c echo".
Proof. reflexivity. Qed.

Example emit_space : emit_args [L "a b"; []] = [34; 97; 32; 98; 34; 32; 34; 34]%Z.
Proof. reflexivity. Qed.

(** A quoted argument that ends in a backslash: the backslash is doubled. *)
Example emit_trailing :
  emit_args [[67; 58; 92; 112; 32; 113; 92]%Z]
  = [34; 67; 58; 92; 112; 32; 113; 92; 92; 34]%Z.
Proof. reflexivity. Qed.

Example split_sample :
  split (emit_args [L "a b"; []; [92; 34; 92]%Z; L "x"])
  = [L "a b"; []; [92; 34; 92]%Z; L "x"].
Proof. reflexivity. Qed.

(** *** The decoder on runs of backslashes *)

Lemma split_go_backslashes n s cur inarg inq bs :
  split_go (replicate (S n) BACKSLASH ++ s) cur inarg inq bs
  = split_go s cur true inq (S n + bs).
Proof.
  revert inarg bs. induction n as [|n IH]; intros inarg bs.
  - reflexivity.
  - change (replicate (S (S n)) BACKSLASH ++ s)
      with (BACKSLASH :: (replicate (S n) BACKSLASH ++ s)).
    cbn [split_go]. change (BACKSLASH =? BACKSLASH)%Z with true. cbv iota.
    rewrite IH. f_equal. lia.
Qed.

Lemma split_go_backslashes' n s cur inq bs :
  split_go (replicate n BACKSLASH ++ s) cur true inq bs
  = split_go s cur true inq (n + bs).
Proof. destruct n; [reflexivity | apply split_go_backslashes]. Qed.

Lemma even_double n : Nat.even (n + n) = true.
Proof.
  replace (n + n) with (2 * n) by lia. rewrite Nat.even_mul. reflexivity.
Qed.

Lemma div2_double n : Nat.div2 (n + n) = n.
Proof. replace (n + n) with (2 * n) by lia. apply Nat.div2_double. Qed.

Lemma even_succ_double n : Nat.even (S (n + n)) = false.
Proof.
  rewrite Nat.even_succ. replace (n + n) with (2 * n) by lia.
  rewrite Nat.odd_mul. reflexivity.
Qed.

Lemma div2_succ_double n : Nat.div2 (S (n + n)) = n.
Proof. replace (n + n) with (2 * n) by lia. apply Nat.div2_succ_double. Qed.

(** *** Decoding one quoted argument

    After the opening quote the decoder is inside quotes; while the encoder
    has consumed a prefix of the argument with [nb] pending backslashes, the
    decoder holds the same prefix, split into [cur] and [nb] backslashes. *)
Lemma split_go_emit_quoted arg : forall nb cur rest,
  split_go (emit_quoted arg nb ++ rest) cur true true nb
  = split_go rest (cur ++ replicate nb BACKSLASH ++ arg) true false 0.
Proof.
  induction arg as [|c p IH]; intros nb cur rest.
  - cbn [emit_quoted]. rewrite <- app_assoc.
    rewrite split_go_backslashes'. cbn [app split_go].
    change (DQUOTE =? BACKSLASH)%Z with false.
    change (DQUOTE =? DQUOTE)%Z with true. cbv iota.
    rewrite even_double, div2_double, app_nil_r. reflexivity.
  - cbn [emit_quoted].
    destruct (c =? BACKSLASH)%Z eqn:Hb.
    + apply Z.eqb_eq in Hb. subst c.
      cbn [app split_go]. change (BACKSLASH =? BACKSLASH)%Z with true.
      cbv iota. rewrite IH. do 2 f_equal.
      rewrite replicate_S_end, <- app_assoc. reflexivity.
    + destruct (c =? DQUOTE)%Z eqn:Hq.
      * apply Z.eqb_eq in Hq. subst c.
        rewrite <- app_assoc. rewrite split_go_backslashes'.
        cbn [app split_go]. change (BACKSLASH =? BACKSLASH)%Z with true.
        cbv iota. change (DQUOTE =? BACKSLASH)%Z with false.
        change (DQUOTE =? DQUOTE)%Z with true. cbv iota.
        rewrite even_succ_double, div2_succ_double.
        rewrite (IH 0 _ rest). cbn [replicate app].
        rewrite <- !app_assoc. reflexivity.
      * cbn [app split_go]. rewrite Hb, Hq. rewrite andb_false_r.
        rewrite (IH 0 _ rest). cbn [replicate app].
        rewrite <- !app_assoc. reflexivity.
Qed.

(** *** Decoding one argument emitted verbatim *)

Lemma split_go_plain arg : forall cur inarg bs more,
  existsb is_special arg = false ->
  (inarg = true \/ arg <> []) ->
  split_go (arg ++ SPACE :: more) cur inarg false bs
  = (cur ++ replicate bs BACKSLASH ++ arg) :: split_go more [] false false 0.
Proof.
  induction arg as [|c p IH]; intros cur inarg bs more Hs Hin.
  - destruct Hin as [-> | []]; [|done].
    cbn [app split_go]. change (SPACE =? BACKSLASH)%Z with false.
    change (SPACE =? DQUOTE)%Z with false.
    change (SPACE =? SPACE)%Z with true. cbn. rewrite app_nil_r. reflexivity.
  - cbn [existsb] in Hs. apply orb_false_elim in Hs as [Hc Hp].
    unfold is_special in Hc.
    apply orb_false_elim in Hc as [Hc Hq].
    apply orb_false_elim in Hc as [Hsp Htab].
    cbn [app split_go].
    destruct (c =? BACKSLASH)%Z eqn:Hb.
    + apply Z.eqb_eq in Hb. subst c.
      rewrite IH by (auto). rewrite replicate_S_end, <- !app_assoc. reflexivity.
    + rewrite Hq, Hsp, Htab. cbn [orb andb].
      rewrite IH by auto. cbn [replicate app]. rewrite <- !app_assoc.
      reflexivity.
Qed.

Lemma split_go_plain_end arg : forall cur inarg bs,
  existsb is_special arg = false ->
  (inarg = true \/ arg <> []) ->
  split_go arg cur inarg false bs = [cur ++ replicate bs BACKSLASH ++ arg].
Proof.
  induction arg as [|c p IH]; intros cur inarg bs Hs Hin.
  - destruct Hin as [-> | []]; [|done].
    cbn. rewrite app_nil_r. reflexivity.
  - cbn [existsb] in Hs. apply orb_false_elim in Hs as [Hc Hp].
    unfold is_special in Hc.
    apply orb_false_elim in Hc as [Hc Hq].
    apply orb_false_elim in Hc as [Hsp Htab].
    cbn [split_go].
    destruct (c =? BACKSLASH)%Z eqn:Hb.
    + apply Z.eqb_eq in Hb. subst c.
      rewrite IH by auto. rewrite replicate_S_end, <- !app_assoc. reflexivity.
    + rewrite Hq, Hsp, Htab. cbn [orb andb].
      rewrite IH by auto. cbn [replicate app]. rewrite <- !app_assoc.
      reflexivity.
Qed.

(** *** Decoding one encoded argument, followed by a separator or the end *)

Lemma split_go_emit_arg_sep arg more :
  split_go (emit_arg arg ++ SPACE :: more) [] false false 0
  = arg :: split_go more [] false false 0.
Proof.
  unfold emit_arg. destruct (needsQuoting arg) eqn:Hq.
  - cbn [app split_go]. change (DQUOTE =? BACKSLASH)%Z with false.
    change (DQUOTE =? DQUOTE)%Z with true. cbn [Nat.even Nat.div2 replicate negb].
    cbv iota. rewrite split_go_emit_quoted.
    cbn [replicate app split_go]. change (SPACE =? BACKSLASH)%Z with false.
    change (SPACE =? DQUOTE)%Z with false. change (SPACE =? SPACE)%Z with true.
    cbn. rewrite app_nil_r. reflexivity.
  - destruct arg as [|c p]; [discriminate|].
    unfold needsQuoting in Hq.
    rewrite split_go_plain by (auto; right; discriminate). reflexivity.
Qed.

Lemma split_go_emit_arg_end arg :
  split_go (emit_arg arg) [] false false 0 = [arg].
Proof.
  unfold emit_arg. destruct (needsQuoting arg) eqn:Hq.
  - rewrite <- (app_nil_r (emit_quoted arg 0)).
    cbn [app split_go]. change (DQUOTE =? BACKSLASH)%Z with false.
    change (DQUOTE =? DQUOTE)%Z with true. cbn [Nat.even Nat.div2 replicate negb].
    cbv iota. rewrite split_go_emit_quoted.
    cbn. rewrite app_nil_r. reflexivity.
  - destruct arg as [|c p]; [discriminate|].
    unfold needsQuoting in Hq.
    rewrite split_go_plain_end by (auto; right; discriminate). reflexivity.
Qed.

Lemma split_emit_args argv : split (emit_args argv) = argv.
Proof.
  unfold split. induction argv as [|arg rest IH]; [reflexivity|].
  cbn [emit_args]. destruct rest as [|arg' rest'].
  - cbn [app]. rewrite app_nil_r. apply split_go_emit_arg_end.
  - change ([SPACE] ++ emit_args (arg' :: rest'))
      with (SPACE :: emit_args (arg' :: rest')).
    rewrite split_go_emit_arg_sep, IH. reflexivity.
Qed.


(** *** The two passes agree: the buffer is exactly filled *)




(** *** The rules for one argument *)




End CodecFacts.

(* --------------------------------------------------------------------- *)
(** ** The credential-syscall program                                      *)
(* --------------------------------------------------------------------- *)

Module MacOSFacts.
Import MacOS.
Local Open Scope Z_scope.

Ltac unfold_m :=
  unfold bind, ret, call, sys_initgroups, sys_setgid, sys_setuid, setenv,
    sys_execvp in *; cbn [fst snd st_trace st_env] in *.

(** [main] up to the point where the session checks are passed. *)
Lemma main_resolved os argv w s cmd uid env :
  resolved os argv w s cmd uid ->
  main os argv {| st_trace := []; st_env := env |}
  = (if s then handle_session os uid w cmd
     else
       (call (CallGetpwuid uid) ;;;
        match getpwuid os uid with
        | None => ret (Exit EXIT_GENERAL)
        | Some pw =>
            r <- drop_privileges os pw ;;
            if negb (r =? 0) then ret (Exit EXIT_PRIV_DROP)
            else setup_environment pw ;;; execute os w cmd
        end)) (st_resolved env).
Proof.
  intros (Hp & Hu & [gid Hc] & [name [Hn Hl]]).
  unfold main. rewrite Hp. unfold_m. rewrite Hu. cbn.
  rewrite Hc, Hn, Hl. reflexivity.
Qed.

Lemma drop_privileges_cases os pw st :
  let t := st_trace st in
  let e1 := CallInitgroups (pw_name pw) (pw_gid pw)
              (initgroups os t (pw_name pw) (pw_gid pw)) in
  let e2 := CallSetgid (pw_gid pw) (setgid os (t ++ [e1]) (pw_gid pw)) in
  let e3 := CallSetuid (pw_uid pw) (setuid os ((t ++ [e1]) ++ [e2]) (pw_uid pw)) in
  let e4 := CallSetuid 0 (setuid os (((t ++ [e1]) ++ [e2]) ++ [e3]) 0) in
  drop_privileges os pw st =
    if negb (initgroups os t (pw_name pw) (pw_gid pw) =? 0)
    then (-1, {| st_trace := t ++ [e1]; st_env := st_env st |})
    else if negb (setgid os (t ++ [e1]) (pw_gid pw) =? 0)
    then (-1, {| st_trace := (t ++ [e1]) ++ [e2]; st_env := st_env st |})
    else if negb (setuid os ((t ++ [e1]) ++ [e2]) (pw_uid pw) =? 0)
    then (-1, {| st_trace := ((t ++ [e1]) ++ [e2]) ++ [e3];
                 st_env := st_env st |})
    else if setuid os (((t ++ [e1]) ++ [e2]) ++ [e3]) 0 =? 0
    then (-1, {| st_trace := (((t ++ [e1]) ++ [e2]) ++ [e3]) ++ [e4];
                 st_env := st_env st |})
    else (0, {| st_trace := (((t ++ [e1]) ++ [e2]) ++ [e3]) ++ [e4];
                st_env := st_env st |}).
Proof.
  cbv zeta. unfold drop_privileges. unfold_m.
  destruct (initgroups os _ _ _ =? 0); [|reflexivity]. cbn.
  destruct (setgid os _ _ =? 0); [|reflexivity]. cbn.
  destruct (setuid os _ (pw_uid pw) =? 0); [|reflexivity]. cbn.
  destruct (setuid os _ 0 =? 0); reflexivity.
Qed.

(** The five ways [drop_privileges] can go, read off its trace. *)
Lemma drop_privileges_inv os pw st :
  let r := fst (drop_privileges os pw st) in
  let st' := snd (drop_privileges os pw st) in
  let n := pw_name pw in
  let g := pw_gid pw in
  let u := pw_uid pw in
  st_env st' = st_env st /\
  ((exists v, v <> 0 /\ r = -1 /\
      st_trace st' = st_trace st ++ [CallInitgroups n g v])
   \/ (exists v, v <> 0 /\ r = -1 /\
      st_trace st' = st_trace st ++ [CallInitgroups n g 0; CallSetgid g v])
   \/ (exists v, v <> 0 /\ r = -1 /\
      st_trace st' = st_trace st ++
        [CallInitgroups n g 0; CallSetgid g 0; CallSetuid u v])
   \/ (r = -1 /\
      st_trace st' = st_trace st ++
        [CallInitgroups n g 0; CallSetgid g 0; CallSetuid u 0; CallSetuid 0 0])
   \/ (exists v, v <> 0 /\ r = 0 /\
      st_trace st' = st_trace st ++
        [CallInitgroups n g 0; CallSetgid g 0; CallSetuid u 0; CallSetuid 0 v])).
Proof.
  cbv zeta. rewrite drop_privileges_cases. cbv zeta.
  set (t := st_trace st). split.
  { repeat match goal with
           | |- context [if ?b then _ else _] => destruct b
           end; reflexivity. }
  destruct (initgroups os t (pw_name pw) (pw_gid pw) =? 0) eqn:H1;
    cbn [negb fst snd st_trace st_env].
  2:{ left. eexists. split; [apply Z.eqb_neq; exact H1|auto]. }
  apply Z.eqb_eq in H1. rewrite H1.
  destruct (setgid os _ (pw_gid pw) =? 0) eqn:H2;
    cbn [negb fst snd st_trace st_env].
  2:{ right; left. eexists. split; [apply Z.eqb_neq; exact H2|].
      rewrite <- !app_assoc. auto. }
  apply Z.eqb_eq in H2. rewrite H2.
  destruct (setuid os _ (pw_uid pw) =? 0) eqn:H3;
    cbn [negb fst snd st_trace st_env].
  2:{ right; right; left. eexists. split; [apply Z.eqb_neq; exact H3|].
      rewrite <- !app_assoc. auto. }
  apply Z.eqb_eq in H3. rewrite H3.
  destruct (setuid os _ 0 =? 0) eqn:H4; cbn [negb fst snd st_trace st_env].
  - apply Z.eqb_eq in H4. rewrite H4.
    right; right; right; left. rewrite <- !app_assoc. auto.
  - right; right; right; right. eexists.
    split; [apply Z.eqb_neq; exact H4|]. rewrite <- !app_assoc. auto.
Qed.

(** When the privilege drop fails, [main] ends there with code 3. *)
Lemma main_priv_drop_failed os argv w cmd uid pw env :
  resolved os argv w false cmd uid ->
  getpwuid os uid = Some pw ->
  fst (drop_privileges os pw (st_entry uid env)) <> 0 ->
  run os argv env
  = (Exit EXIT_PRIV_DROP,
     st_trace (snd (drop_privileges os pw (st_entry uid env)))).
Proof.
  intros Hres Hpw Hr. unfold run. rewrite (main_resolved _ _ _ _ _ _ _ Hres).
  unfold bind at 1. unfold call at 1.
  cbn [st_resolved st_trace st_env app]. rewrite Hpw. unfold bind at 1.
  fold (st_entry uid env).
  destruct (drop_privileges os pw (st_entry uid env)) as [r st'].
  cbn [fst snd] in *. apply Z.eqb_neq in Hr. rewrite Hr. reflexivity.
Qed.

Lemma sample_resolved regain pid exec_ok answers argv w s cmd :
  parse_flags (tail argv) false false = PCommand w s cmd ->
  resolved (sample_os 0 regain pid exec_ok answers) argv w s cmd 501.
Proof.
  intros Hp. split; [exact Hp|]. split; [reflexivity|]. split.
  - exists 20. reflexivity.
  - exists "alice"%string. split; reflexivity.
Qed.

(** *** The wait loop and the exit code *)

Lemma wait_loop_returns pid intr status more st :
  Forall interrupted intr ->
  wait_loop pid (intr ++ WaitReturns status :: more) st
  = (Status status,
     {| st_trace := st_trace st ++ replicate (S (length intr)) (CallWaitpid pid);
        st_env := st_env st |}).
Proof.
  intros Hi. revert st. induction Hi as [|a intr Ha _ IH]; intros st.
  - reflexivity.
  - rewrite Ha. cbn [app wait_loop]. unfold bind at 1. unfold call at 1.
    change (negb (EINTR =? EINTR)) with false. cbv iota.
    rewrite IH. cbn [st_trace st_env length]. f_equal. f_equal.
    rewrite <- app_assoc. reflexivity.
Qed.

Lemma wait_for_returns os pid intr status more st :
  waitpid os pid = intr ++ WaitReturns status :: more ->
  Forall interrupted intr ->
  wait_for os pid st
  = (Exit (status_code status),
     {| st_trace := st_trace st ++ replicate (S (length intr)) (CallWaitpid pid);
        st_env := st_env st |}).
Proof.
  intros Hw Hi. unfold wait_for, bind. rewrite Hw.
  rewrite (wait_loop_returns _ _ _ _ _ Hi). reflexivity.
Qed.

Lemma WSTATUS_mod x : WSTATUS x = x mod 128.
Proof. unfold WSTATUS. apply (Z.land_ones x 7). lia. Qed.

Lemma WSTATUS_range x : 0 <= WSTATUS x <= 127.
Proof. rewrite WSTATUS_mod. pose proof (Z.mod_pos_bound x 128). lia. Qed.

Lemma W_EXITCODE_exit K : W_EXITCODE K 0 = K * 256.
Proof. unfold W_EXITCODE. rewrite Z.lor_0_r, Z.shiftl_mul_pow2 by lia. reflexivity. Qed.

(** A normal exit with code [K]: the code is passed on as it is. *)
Lemma status_code_exited K :
  0 <= K <= 255 -> status_code (W_EXITCODE K 0) = K.
Proof.
  intros HK. unfold status_code, WIFEXITED, WEXITSTATUS.
  rewrite WSTATUS_mod, W_EXITCODE_exit.
  replace (K * 256) with ((K * 2) * 128) by lia.
  rewrite Z.mod_mul by lia. cbn [Z.eqb].
  replace (K * 2 * 128) with (K * 2 ^ 8) by lia.
  rewrite Z.shiftr_div_pow2 by lia.
  rewrite Z.div_mul by lia.
  change 255 with (Z.ones 8). rewrite Z.land_ones by lia.
  apply Z.mod_small. lia.
Qed.

(** A death by signal: 128 plus the signal number, between 129 and 254. *)
Lemma status_code_signaled status :
  WIFSIGNALED status = true ->
  status_code status = 128 + WTERMSIG status
  /\ 1 <= WTERMSIG status <= 126.
Proof.
  unfold WIFSIGNALED, status_code, WIFEXITED, WTERMSIG. intros H.
  apply andb_prop in H as [H1 H2].
  apply negb_true_iff in H1, H2. rewrite H2.
  unfold WIFSIGNALED. rewrite H1, H2. cbn [negb andb].
  apply Z.eqb_neq in H1, H2. pose proof (WSTATUS_range status). lia.
Qed.

(** A death by signal 11 with a core dump. *)
Example status_code_core : status_code (Z.lor 11 WCOREFLAG) = 139.
Proof. reflexivity. Qed.

(** *** [main] after a successful privilege drop *)

Lemma main_dropped os argv w cmd uid pw env :
  resolved os argv w false cmd uid ->
  getpwuid os uid = Some pw ->
  fst (drop_privileges os pw (st_entry uid env)) = 0 ->
  main os argv {| st_trace := []; st_env := env |}
  = (setup_environment pw ;;; execute os w cmd)
      (snd (drop_privileges os pw (st_entry uid env))).
Proof.
  intros Hres Hpw Hr. rewrite (main_resolved _ _ _ _ _ _ _ Hres).
  unfold bind at 1. unfold call at 1.
  cbn [st_resolved st_trace st_env app]. rewrite Hpw. unfold bind at 1.
  fold (st_entry uid env).
  destruct (drop_privileges os pw (st_entry uid env)) as [r st'].
  cbn [fst snd] in *. subst r. reflexivity.
Qed.

Lemma setup_environment_env pw st :
  st_env (snd (setup_environment pw st)) = reset_env pw (st_env st)
  /\ st_trace (snd (setup_environment pw st))
     = st_trace st ++
       [CallSetenv "HOME" (pw_dir pw); CallSetenv "USER" (pw_name pw);
        CallSetenv "LOGNAME" (pw_name pw); CallSetenv "SHELL" (pw_shell pw);
        CallSetenv "PATH" DEFAULT_PATH].
Proof.
  unfold setup_environment, reset_env. unfold_m.
  rewrite <- !app_assoc. split; reflexivity.
Qed.

Lemma reset_env_lookup pw env :
  reset_env pw env !! "HOME" = Some (pw_dir pw)
  /\ reset_env pw env !! "USER" = Some (pw_name pw)
  /\ reset_env pw env !! "LOGNAME" = Some (pw_name pw)
  /\ reset_env pw env !! "SHELL" = Some (pw_shell pw)
  /\ reset_env pw env !! "PATH" = Some DEFAULT_PATH.
Proof. unfold reset_env. repeat split; by simplify_map_eq. Qed.

Lemma reset_env_other pw env name :
  name ∉ reset_vars -> reset_env pw env !! name = env !! name.
Proof.
  unfold reset_vars, reset_env. intros Hn.
  rewrite !lookup_insert_ne; [reflexivity|..]; intros <-; apply Hn; set_solver.
Qed.

Lemma run_fst os argv env :
  fst (run os argv env) = fst (main os argv {| st_trace := []; st_env := env |}).
Proof. unfold run. destruct (main os argv _). reflexivity. Qed.

Lemma run_snd os argv env :
  snd (run os argv env)
  = st_trace (snd (main os argv {| st_trace := []; st_env := env |})).
Proof. unfold run. destruct (main os argv _). reflexivity. Qed.

(** A successful drop leaves the four credential calls on the trace. *)
Lemma drop_privileges_ok os pw st :
  fst (drop_privileges os pw st) = 0 ->
  exists v, v <> 0
    /\ snd (drop_privileges os pw st)
       = {| st_trace := st_trace st ++
              [CallInitgroups (pw_name pw) (pw_gid pw) 0;
               CallSetgid (pw_gid pw) 0;
               CallSetuid (pw_uid pw) 0;
               CallSetuid 0 v];
            st_env := st_env st |}.
Proof.
  intros Hr. destruct (drop_privileges_inv os pw st) as [He Hc].
  cbv zeta in *.
  destruct Hc as
    [(v & Hv & Hr' & Ht) | [(v & Hv & Hr' & Ht) | [(v & Hv & Hr' & Ht)
     | [(Hr' & Ht) | (v & Hv & Hr' & Ht)]]]]; try congruence.
  exists v. split; [exact Hv|].
  destruct (snd (drop_privileges os pw st)) as [t e]. cbn in *. congruence.
Qed.

(** The result of the drop depends on the calls made so far only. *)
Lemma drop_privileges_env os pw t env env' :
  fst (drop_privileges os pw {| st_trace := t; st_env := env |})
  = fst (drop_privileges os pw {| st_trace := t; st_env := env' |}).
Proof.
  rewrite !drop_privileges_cases. cbv zeta. cbn [st_trace st_env].
  repeat match goal with
         | |- context [if ?b then _ else _] => destruct b
         end; reflexivity.
Qed.

(** The whole run without a wait, after a successful drop: the five
    variables are set and the command is exec'd, nothing else. *)
Lemma run_exec_nowait os argv cmd uid pw env :
  resolved os argv false false cmd uid ->
  getpwuid os uid = Some pw ->
  fst (drop_privileges os pw (st_entry uid env)) = 0 ->
  let file := hd EmptyString cmd in
  exists v, v <> 0 /\
  run os argv env
  = (if execvp os file cmd then Exec file cmd (reset_env pw env)
     else Exit EXIT_EXEC_FAIL,
     [CallGetuid; CallCopyConsoleUser; CallCFStringGetCString;
      CallGetpwuid uid;
      CallInitgroups (pw_name pw) (pw_gid pw) 0;
      CallSetgid (pw_gid pw) 0;
      CallSetuid (pw_uid pw) 0;
      CallSetuid 0 v;
      CallSetenv "HOME" (pw_dir pw); CallSetenv "USER" (pw_name pw);
      CallSetenv "LOGNAME" (pw_name pw); CallSetenv "SHELL" (pw_shell pw);
      CallSetenv "PATH" DEFAULT_PATH;
      CallExecvp file cmd]).
Proof.
  intros Hres Hpw Hr. cbv zeta.
  destruct (drop_privileges_ok _ _ _ Hr) as (v & Hv & Hst).
  exists v. split; [exact Hv|].
  unfold run. rewrite (main_dropped _ _ _ _ _ _ _ Hres Hpw Hr), Hst.
  unfold setup_environment, execute. unfold_m.
  fold (reset_env pw env).
  destruct (execvp os (hd EmptyString cmd) cmd); reflexivity.
Qed.

(** The run with a wait, after a successful drop, up to the fork. *)
Lemma run_fork_wait os argv cmd uid pw env :
  resolved os argv true false cmd uid ->
  getpwuid os uid = Some pw ->
  fst (drop_privileges os pw (st_entry uid env)) = 0 ->
  let file := hd EmptyString cmd in
  exists v, v <> 0 /\
  main os argv {| st_trace := []; st_env := env |}
  = (if fork os <? 0 then ret (Exit EXIT_EXEC_FAIL)
     else if fork os =? 0 then sys_execvp os file cmd (Exit EXIT_EXEC_FAIL)
     else wait_for os (fork os))
      {| st_trace :=
           [CallGetuid; CallCopyConsoleUser; CallCFStringGetCString;
            CallGetpwuid uid;
            CallInitgroups (pw_name pw) (pw_gid pw) 0;
            CallSetgid (pw_gid pw) 0;
            CallSetuid (pw_uid pw) 0;
            CallSetuid 0 v;
            CallSetenv "HOME" (pw_dir pw); CallSetenv "USER" (pw_name pw);
            CallSetenv "LOGNAME" (pw_name pw); CallSetenv "SHELL" (pw_shell pw);
            CallSetenv "PATH" DEFAULT_PATH;
            CallFork];
         st_env := reset_env pw env |}.
Proof.
  intros Hres Hpw Hr. cbv zeta.
  destruct (drop_privileges_ok _ _ _ Hr) as (v & Hv & Hst).
  exists v. split; [exact Hv|].
  rewrite (main_dropped _ _ _ _ _ _ _ Hres Hpw Hr), Hst.
  unfold setup_environment, execute.
  unfold bind, call, setenv. cbn [fst snd st_trace st_env app].
  rewrite <- !app_assoc. reflexivity.
Qed.

(** *** The environment of the command *)

(** The outcome in the process that exec's the command: the program itself
    without a wait, the forked child with one. *)
Lemma run_child_outcome os argv w cmd uid pw env :
  resolved os argv w false cmd uid ->
  getpwuid os uid = Some pw ->
  fst (drop_privileges os pw (st_entry uid env)) = 0 ->
  w = false \/ fork os = 0 ->
  execvp os (hd EmptyString cmd) cmd = true ->
  fst (run os argv env) = Exec (hd EmptyString cmd) cmd (reset_env pw env).
Proof.
  intros Hres Hpw Hr Hw Hx. destruct w.
  - destruct Hw as [Hw | Hf]; [discriminate|].
    destruct (run_fork_wait _ _ _ _ _ _ Hres Hpw Hr) as (v & _ & Hm).
    rewrite run_fst, Hm, Hf. cbn [Z.ltb Z.eqb Z.compare].
    unfold sys_execvp. rewrite Hx. reflexivity.
  - destruct (run_exec_nowait _ _ _ _ _ _ Hres Hpw Hr) as (v & _ & Hm).
    rewrite Hm, Hx. reflexivity.
Qed.

Lemma sample_drop_ok pid exec_ok answers env :
  fst (drop_privileges (sample_os 0 (-1) pid exec_ok answers) alice
         (st_entry 501 env)) = 0.
Proof. reflexivity. Qed.

(** C6.  The environment of the elevated caller reaches the command,
    against the comment above [setup_environment], which announces a clean
    environment for the target user.  [setup_environment] assigns HOME,
    USER, LOGNAME, SHELL and PATH and nothing in [main] clears the
    environment, so in the process that exec's the command every other
    variable has the value it had in the caller's environment.  On the
    sample system, started by root with DYLD_INSERT_LIBRARIES set, the
    command [id] is exec'd with the five variables reset and with the
    caller's DYLD_INSERT_LIBRARIES; started with an empty environment it is
    exec'd without that variable: two invocations that differ only in the
    caller's environment hand the command different environments. *)
Theorem C6_environment_leak :
  let os := sample_os 0 (-1) 0 true [] in
  let argv := ["runasuser"; "id"]%string in
  let caller : gmap string string :=
    {["DYLD_INSERT_LIBRARIES" := "/tmp/hook.dylib"]} in
  let o1 := fst (run os argv ∅) in
  let o2 := fst (run os argv caller) in
  o1 = Exec "id" ["id"]%string (reset_env alice ∅)
  /\ o2 = Exec "id" ["id"]%string (reset_env alice caller)
  /\ child_var o2 "HOME" = Some "/Users/alice"
  /\ child_var o2 "PATH" = Some DEFAULT_PATH
  /\ child_var o1 "DYLD_INSERT_LIBRARIES" = None
  /\ child_var o2 "DYLD_INSERT_LIBRARIES" = Some "/tmp/hook.dylib"
  /\ o1 <> o2
  /\ (forall os argv w cmd uid pw env name,
        resolved os argv w false cmd uid ->
        getpwuid os uid = Some pw ->
        fst (drop_privileges os pw (st_entry uid env)) = 0 ->
        w = false \/ fork os = 0 ->
        execvp os (hd EmptyString cmd) cmd = true ->
        name ∉ reset_vars ->
        child_var (fst (run os argv env)) name = env !! name).
Proof.
  cbv zeta.
  assert (Hrun : forall env,
             fst (run (sample_os 0 (-1) 0 true []) ["runasuser"; "id"]%string env)
             = Exec "id" ["id"]%string (reset_env alice env)).
  { intros env.
    apply (run_child_outcome (sample_os 0 (-1) 0 true [])
             ["runasuser"; "id"]%string false ["id"]%string 501 alice env).
    - apply sample_resolved. reflexivity.
    - reflexivity.
    - apply sample_drop_ok.
    - left. reflexivity.
    - reflexivity. }
  assert (Hleak : forall env : gmap string string,
             reset_env alice env !! "DYLD_INSERT_LIBRARIES"%string
             = env !! "DYLD_INSERT_LIBRARIES"%string).
  { intros env. apply reset_env_other. unfold reset_vars.
    rewrite !elem_of_cons, elem_of_nil.
    intros [H | [H | [H | [H | [H | []]]]]]; discriminate H. }
  rewrite !Hrun. cbn [child_var].
  destruct (reset_env_lookup alice
              {["DYLD_INSERT_LIBRARIES"%string := "/tmp/hook.dylib"%string]})
    as (H1 & _ & _ & _ & H5).
  split; [reflexivity|]. split; [reflexivity|].
  split; [exact H1|]. split; [exact H5|].
  rewrite !Hleak. split; [apply lookup_empty|].
  split; [apply lookup_singleton_eq|]. split.
  - intros Heq.
    apply (f_equal (fun o => child_var o "DYLD_INSERT_LIBRARIES")) in Heq.
    cbn [child_var] in Heq.
    rewrite !Hleak, lookup_empty, lookup_singleton_eq in Heq. discriminate Heq.
  - intros os argv w cmd uid pw env name Hres Hpw Hr Hw Hx Hn.
    rewrite (run_child_outcome _ _ _ _ _ _ _ Hres Hpw Hr Hw Hx).
    cbn [child_var]. apply reset_env_other, Hn.
Qed.

(** *** Namespace indirection *)

(** [handle_session] once its own path is known and the vector allocated. *)
Lemma handle_session_forks os uid w cmd buf self st :
  malloc os = true ->
  NSGetExecutablePath os = Some buf ->
  realpath os buf = Some self ->
  calloc os = true ->
  handle_session os uid w cmd st
  = (if fork os <? 0 then ret (Exit EXIT_EXEC_FAIL)
     else if fork os =? 0 then
       sys_execvp os "launchctl" (session_args uid self w cmd)
                  (Exit EXIT_EXEC_FAIL)
     else wait_for os (fork os))
      {| st_trace := st_trace st ++
           [CallNSGetExecutablePath; CallMalloc; CallNSGetExecutablePath;
            CallRealpath buf;
            CallCalloc (4 + (if w then 1 else 0) + length cmd + 1);
            CallFork];
         st_env := st_env st |}.
Proof.
  intros Hm Hp Hr Hc. unfold handle_session, get_self_path.
  unfold bind, call, ret. cbn [fst snd st_trace st_env].
  rewrite Hm. cbn [negb]. rewrite Hp. cbn [fst snd st_trace st_env].
  rewrite Hr, Hc. cbn [negb fst snd st_trace st_env].
  rewrite <- !app_assoc. reflexivity.
Qed.

(** Every wait starts with a call of [waitpid]. *)
Lemma wait_loop_calls pid answers : forall st,
  exists l, st_trace (snd (wait_loop pid answers st))
            = st_trace st ++ CallWaitpid pid :: l.
Proof.
  induction answers as [|a rest IH]; intros st.
  - exists []. reflexivity.
  - cbn [wait_loop]. unfold bind at 1. unfold call at 1.
    destruct a as [status | errno].
    + exists []. reflexivity.
    + destruct (negb (errno =? EINTR)); [exists []; reflexivity|].
      destruct (IH {| st_trace := st_trace st ++ [CallWaitpid pid];
                      st_env := st_env st |}) as [l Hl].
      exists (CallWaitpid pid :: l). rewrite Hl. cbn [st_trace].
      rewrite <- app_assoc. reflexivity.
Qed.

Lemma wait_for_calls os pid st :
  exists l, st_trace (snd (wait_for os pid st))
            = st_trace st ++ CallWaitpid pid :: l.
Proof.
  destruct (wait_loop_calls pid (waitpid os pid) st) as [l Hl].
  exists l. unfold wait_for, bind.
  destruct (wait_loop pid (waitpid os pid) st) as [[status| |] st'];
    exact Hl.
Qed.

(** The command found by the flag loop does not start with a flag, so the
    loop finds it again whatever the flags seen so far. *)
Lemma parse_flags_command args w0 s0 w s cmd :
  parse_flags args w0 s0 = PCommand w s cmd ->
  forall w' s', parse_flags cmd w' s' = PCommand w' s' cmd.
Proof.
  revert w0 s0. induction args as [|a rest IH]; intros w0 s0 Hp w' s'.
  - discriminate.
  - cbn [parse_flags] in Hp.
    destruct (String.eqb a "--wait") eqn:E1; [eauto|].
    destruct (String.eqb a "--session") eqn:E2; [eauto|].
    destruct (String.eqb a "--help" || String.eqb a "-h") eqn:E3;
      [discriminate|].
    injection Hp as <- <- <-.
    cbn [parse_flags]. rewrite E1, E2, E3. reflexivity.
Qed.

(** C7.  With the session flag, once the program's own path is resolved to
    [self], the vector is launchctl, asuser, the console user's identity in
    decimal, [self], the wait flag if it was given, and the command; the
    bridged invocation reads from it the same wait flag, no session flag
    and the same command.  The forked child exec's launchctl with this
    vector; the parent calls [waitpid] whatever the wait flag, and when the
    helper has exited with code [K] it exits with [K], when the helper was
    killed by a signal it exits with 128 plus the signal number. *)
Theorem C7_namespace_indirection os argv w cmd uid buf self env :
  resolved os argv w true cmd uid ->
  malloc os = true ->
  NSGetExecutablePath os = Some buf ->
  realpath os buf = Some self ->
  calloc os = true ->
  let args :=
    ["launchctl"; "asuser"; pretty (Z.to_N (to_DWORD uid)); self]%string
    ++ (if w then ["--wait"%string] else []) ++ cmd in
  parse_flags (tail (drop 3 args)) false false = PCommand w false cmd
  /\ (fork os = 0 ->
      fst (run os argv env)
      = if execvp os "launchctl" args then Exec "launchctl" args env
        else Exit EXIT_EXEC_FAIL)
  /\ (0 < fork os ->
      In CallFork (snd (run os argv env))
      /\ In (CallWaitpid (fork os)) (snd (run os argv env))
      /\ forall intr status more,
           waitpid os (fork os) = intr ++ WaitReturns status :: more ->
           Forall interrupted intr ->
           fst (run os argv env) = Exit (status_code status)
           /\ (forall K, 0 <= K <= 255 -> status = W_EXITCODE K 0 ->
                 fst (run os argv env) = Exit K)
           /\ (WIFSIGNALED status = true ->
                 fst (run os argv env) = Exit (128 + WTERMSIG status))).
Proof.
  intros Hres Hm Hp Hr Hc. cbv zeta.
  pose proof (main_resolved _ _ _ _ _ _ env Hres) as Hmain. cbv iota in Hmain.
  rewrite (handle_session_forks _ _ _ _ _ _ _ Hm Hp Hr Hc) in Hmain.
  fold (session_args uid self w cmd).
  split; [|split].
  - destruct Hres as (Hparse & _).
    unfold session_args. cbn [app drop tail].
    destruct w; cbn [app parse_flags String.eqb Ascii.eqb Bool.eqb];
      apply (parse_flags_command _ _ _ _ _ _ Hparse).
  - intros Hf. rewrite run_fst, Hmain, Hf. cbn [Z.ltb Z.eqb Z.compare].
    unfold sys_execvp.
    destruct (execvp os "launchctl" (session_args uid self w cmd)); reflexivity.
  - intros Hf.
    assert (Hlt : (fork os <? 0) = false) by (apply Z.ltb_ge; lia).
    assert (Hne : (fork os =? 0) = false) by (apply Z.eqb_neq; lia).
    rewrite Hlt, Hne in Hmain. rewrite run_fst, run_snd, Hmain.
    destruct (wait_for_calls os (fork os)
                {| st_trace := st_trace (st_resolved env) ++
                     [CallNSGetExecutablePath; CallMalloc;
                      CallNSGetExecutablePath; CallRealpath buf;
                      CallCalloc (4 + (if w then 1 else 0) + length cmd + 1);
                      CallFork];
                   st_env := st_env (st_resolved env) |}) as [l Hl].
    rewrite Hl. cbn [st_trace st_resolved]. split; [|split].
    + apply in_or_app. left. cbn. tauto.
    + apply in_or_app. right. left. reflexivity.
    + intros intr status more Hw Hi.
      rewrite (wait_for_returns _ _ _ _ _ _ Hw Hi). cbn [fst].
      split; [reflexivity|]. split.
      * intros K HK ->. rewrite status_code_exited by exact HK. reflexivity.
      * intros Hs. destruct (status_code_signaled _ Hs) as [-> _].
        reflexivity.
Qed.

(** The forked child on the sample system: what launchctl is given. *)
Example session_child_vector :
  fst (run (sample_os 0 (-1) 0 true [])
           ["runasuser"; "--wait"; "--session"; "open"; "-a"; "Safari"]%string
           ∅)
  = Exec "launchctl"
         ["launchctl"; "asuser"; "501"; "/usr/local/bin/runasuser"; "--wait";
          "open"; "-a"; "Safari"]%string ∅.
Proof. vm_compute. reflexivity. Qed.

(** C7 for the parent on the sample system, without the wait flag: the
    helper's wait is interrupted once, then the helper has exited with 7. *)
Lemma C7_witness :
  let os := sample_os 0 (-1) 77 true [WaitFails EINTR; WaitReturns (W_EXITCODE 7 0)] in
  let argv := ["runasuser"; "--session"; "open"; "-a"; "Safari"]%string in
  fst (run os argv ∅) = Exit 7
  /\ In (CallWaitpid 77) (snd (run os argv ∅)).
Proof.
  cbv zeta.
  destruct (C7_namespace_indirection
              (sample_os 0 (-1) 77 true
                 [WaitFails EINTR; WaitReturns (W_EXITCODE 7 0)])
              ["runasuser"; "--session"; "open"; "-a"; "Safari"]%string
              false ["open"; "-a"; "Safari"]%string 501
              "/usr/local/bin/runasuser" "/usr/local/bin/runasuser" ∅)
    as (_ & _ & H).
  - apply sample_resolved. reflexivity.
  - reflexivity.
  - reflexivity.
  - reflexivity.
  - reflexivity.
  - destruct H as (_ & Hw & Hx); [reflexivity|].
    split; [|exact Hw].
    destruct (Hx [WaitFails EINTR] (W_EXITCODE 7 0) []) as (_ & HK & _).
    + reflexivity.
    + repeat constructor.
    + apply HK; [lia | reflexivity].
Defined.

(** *** The checks before the session is resolved *)

Lemma run_not_root os argv env w s cmd :
  parse_flags (tail argv) false false = PCommand w s cmd ->
  getuid os <> 0 ->
  run os argv env = (Exit EXIT_GENERAL, [CallGetuid]).
Proof.
  intros Hp Hu. unfold run, main. rewrite Hp. unfold_m.
  apply Z.eqb_neq in Hu. rewrite Hu. reflexivity.
Qed.

Lemma run_no_console_user os argv env w s cmd :
  parse_flags (tail argv) false false = PCommand w s cmd ->
  getuid os = 0 ->
  SCDynamicStoreCopyConsoleUser os = None
  \/ CFStringGetCString os = None
  \/ CFStringGetCString os = Some "loginwindow"%string ->
  fst (run os argv env) = Exit EXIT_NO_SESSION
  /\ (snd (run os argv env) = [CallGetuid; CallCopyConsoleUser]
      \/ snd (run os argv env)
         = [CallGetuid; CallCopyConsoleUser; CallCFStringGetCString]).
Proof.
  intros Hp Hu Hc. unfold run, main. rewrite Hp. unfold_m. rewrite Hu.
  cbn [Z.eqb negb].
  destruct (SCDynamicStoreCopyConsoleUser os) as [[uid gid]|] eqn:Hs.
  - destruct Hc as [Hc | [Hc | Hc]]; [discriminate|..]; rewrite Hc;
      cbn; auto.
  - cbn. auto.
Qed.

(** *** The privilege drop, from the answers of the system *)

(** Executing the command starts with a [fork] or an [execvp]. *)
Lemma execute_launches os w cmd st :
  exists rest,
    st_trace (snd (execute os w cmd st)) = st_trace st ++ rest
    /\ existsb is_creation rest = true.
Proof.
  unfold execute. destruct w.
  - unfold bind at 1. unfold call at 1.
    destruct (fork os <? 0).
    + exists [CallFork]. split; reflexivity.
    + destruct (fork os =? 0).
      * exists [CallFork; CallExecvp (hd EmptyString cmd) cmd].
        unfold sys_execvp, call. cbn [fst snd st_trace].
        destruct (execvp os _ _); cbn [snd st_trace];
          rewrite <- app_assoc; split; reflexivity.
      * match goal with
        | |- context [wait_for os (fork os) ?s0] =>
            destruct (wait_for_calls os (fork os) s0) as [l Hl]
        end.
        exists (CallFork :: CallWaitpid (fork os) :: l).
        rewrite Hl. cbn [st_trace]. rewrite <- app_assoc.
        split; reflexivity.
  - exists [CallExecvp (hd EmptyString cmd) cmd].
    unfold sys_execvp, call. cbn [fst snd st_trace].
    destruct (execvp os _ _); split; reflexivity.
Qed.

(** After a successful drop [main] goes on to launch the command: what
    follows the credential calls holds a [fork] or an [execvp]. *)
Lemma run_dropped_launches os argv w cmd uid pw env :
  resolved os argv w false cmd uid ->
  getpwuid os uid = Some pw ->
  fst (drop_privileges os pw (st_entry uid env)) = 0 ->
  exists rest,
    snd (run os argv env)
    = st_trace (snd (drop_privileges os pw (st_entry uid env))) ++ rest
    /\ existsb is_creation rest = true.
Proof.
  intros Hres Hpw Hr.
  rewrite run_snd, (main_dropped _ _ _ _ _ _ _ Hres Hpw Hr).
  set (st' := snd (drop_privileges os pw (st_entry uid env))).
  unfold bind at 1.
  destruct (setup_environment_env pw st') as [_ Ht].
  destruct (setup_environment pw st') as [[] st''].
  cbn [snd] in Ht.
  destruct (execute_launches os w cmd st'') as (rest & Hl & Hc).
  eexists. rewrite Hl, Ht, <- app_assoc. split; [reflexivity|].
  rewrite existsb_app, Hc. apply orb_true_r.
Qed.

(** C1.  [drop_privileges] asks the system, in this order, to install the
    target's supplementary groups ([initgroups]), to set the group identity
    ([setgid]) and to set the user identity ([setuid]), each step only when
    the one before answered 0, and then tries to regain root ([setuid(0)]).
    It reports success (returns 0) exactly when the system answers 0 to the
    three steps and does not answer 0 to the attempt to regain root; in every
    other case it returns -1, having stopped at the first step that failed.
    When it returns -1, [main] exits with code 3 having neither forked nor
    exec'd; when it returns 0, [main] goes on to launch the command. *)
Theorem C1_drop_privileges_order_and_verification os pw st :
  let r := fst (drop_privileges os pw st) in
  let t := st_trace (snd (drop_privileges os pw st)) in
  let t0 := st_trace st in
  let n := pw_name pw in
  let g := pw_gid pw in
  let u := pw_uid pw in
  let a1 := initgroups os t0 n g in
  let a2 := setgid os (t0 ++ [CallInitgroups n g 0]) g in
  let a3 := setuid os (t0 ++ [CallInitgroups n g 0; CallSetgid g 0]) u in
  let a4 :=
    setuid os (t0 ++ [CallInitgroups n g 0; CallSetgid g 0; CallSetuid u 0])
           0 in
  (r = 0 \/ r = -1)
  /\ (r = 0 <-> a1 = 0 /\ a2 = 0 /\ a3 = 0 /\ a4 <> 0)
  /\ (a1 <> 0 -> t = t0 ++ [CallInitgroups n g a1])
  /\ (a1 = 0 -> a2 <> 0 ->
      t = t0 ++ [CallInitgroups n g 0; CallSetgid g a2])
  /\ (a1 = 0 -> a2 = 0 -> a3 <> 0 ->
      t = t0 ++ [CallInitgroups n g 0; CallSetgid g 0; CallSetuid u a3])
  /\ (a1 = 0 -> a2 = 0 -> a3 = 0 ->
      t = t0 ++ [CallInitgroups n g 0; CallSetgid g 0; CallSetuid u 0;
                 CallSetuid 0 a4])
  /\ (r = 0 <->
      exists v, v <> 0 /\
        t = t0 ++ [CallInitgroups n g 0; CallSetgid g 0; CallSetuid u 0;
                   CallSetuid 0 v])
  /\ (forall argv w cmd uid env,
        resolved os argv w false cmd uid ->
        getpwuid os uid = Some pw ->
        st = st_entry uid env ->
        (r <> 0 ->
         run os argv env = (Exit EXIT_PRIV_DROP, t)
         /\ existsb is_creation t = false)
        /\ (r = 0 ->
            exists rest,
              snd (run os argv env) = t ++ rest
              /\ existsb is_creation rest = true)).
Proof.
  cbv zeta.
  assert (Hmain : forall argv w cmd uid env,
             resolved os argv w false cmd uid ->
             getpwuid os uid = Some pw ->
             st = st_entry uid env ->
             (fst (drop_privileges os pw st) <> 0 ->
              run os argv env
              = (Exit EXIT_PRIV_DROP, st_trace (snd (drop_privileges os pw st))))
             /\ (fst (drop_privileges os pw st) = 0 ->
                 exists rest,
                   snd (run os argv env)
                   = st_trace (snd (drop_privileges os pw st)) ++ rest
                   /\ existsb is_creation rest = true)).
  { intros argv w cmd uid env Hres Hpw ->. split; intros Hr.
    - apply (main_priv_drop_failed _ _ _ _ _ _ _ Hres Hpw Hr).
    - apply (run_dropped_launches _ _ _ _ _ _ _ Hres Hpw Hr). }
  pose proof (drop_privileges_cases os pw st) as Hc. cbv zeta in Hc.
  rewrite <- !app_assoc in Hc. cbn [app] in Hc.
  set (t0 := st_trace st) in *.
  destruct (Z.eqb_spec (initgroups os t0 (pw_name pw) (pw_gid pw)) 0)
    as [E1 | E1]; cbn [negb] in Hc.
  2:{ rewrite Hc in *. cbn [fst snd st_trace] in *.
      split; [auto|]. split; [split; [discriminate | tauto]|].
      split; [reflexivity|]. do 3 (split; [tauto|]). split.
      - split; [discriminate|]. intros (v & _ & Heq).
        apply app_inv_head in Heq. congruence.
      - intros argv w cmd uid env Hres Hpw Hst.
        destruct (Hmain argv w cmd uid env Hres Hpw Hst) as [Hf _].
        split; [|discriminate]. intros Hne. split; [exact (Hf Hne)|].
        subst st. unfold t0. rewrite existsb_app. reflexivity. }
  rewrite E1 in *.
  destruct (Z.eqb_spec
              (setgid os (t0 ++ [CallInitgroups (pw_name pw) (pw_gid pw) 0])
                 (pw_gid pw)) 0) as [E2 | E2]; cbn [negb] in Hc.
  2:{ rewrite Hc in *. cbn [fst snd st_trace] in *.
      split; [auto|]. split; [split; [discriminate | tauto]|].
      split; [tauto|]. split; [reflexivity|]. do 2 (split; [tauto|]). split.
      - split; [discriminate|]. intros (v & _ & Heq).
        apply app_inv_head in Heq. congruence.
      - intros argv w cmd uid env Hres Hpw Hst.
        destruct (Hmain argv w cmd uid env Hres Hpw Hst) as [Hf _].
        split; [|discriminate]. intros Hne. split; [exact (Hf Hne)|].
        subst st. unfold t0. rewrite existsb_app. reflexivity. }
  rewrite E2 in *.
  destruct (Z.eqb_spec
              (setuid os (t0 ++ [CallInitgroups (pw_name pw) (pw_gid pw) 0;
                                 CallSetgid (pw_gid pw) 0]) (pw_uid pw)) 0)
    as [E3 | E3]; cbn [negb] in Hc.
  2:{ rewrite Hc in *. cbn [fst snd st_trace] in *.
      split; [auto|]. split; [split; [discriminate | tauto]|].
      do 2 (split; [tauto|]). split; [reflexivity|]. split; [tauto|]. split.
      - split; [discriminate|]. intros (v & _ & Heq).
        apply app_inv_head in Heq. congruence.
      - intros argv w cmd uid env Hres Hpw Hst.
        destruct (Hmain argv w cmd uid env Hres Hpw Hst) as [Hf _].
        split; [|discriminate]. intros Hne. split; [exact (Hf Hne)|].
        subst st. unfold t0. rewrite existsb_app. reflexivity. }
  rewrite E3 in *.
  destruct (Z.eqb_spec
              (setuid os (t0 ++ [CallInitgroups (pw_name pw) (pw_gid pw) 0;
                                 CallSetgid (pw_gid pw) 0;
                                 CallSetuid (pw_uid pw) 0]) 0) 0)
    as [E4 | E4].
  - rewrite Hc in *. cbn [fst snd st_trace] in *.
    split; [auto|]. split; [split; [discriminate | tauto]|].
    do 3 (split; [tauto|]). split; [reflexivity|]. split.
    + split; [discriminate|]. intros (v & Hv & Heq).
      apply app_inv_head in Heq. congruence.
    + intros argv w cmd uid env Hres Hpw Hst.
      destruct (Hmain argv w cmd uid env Hres Hpw Hst) as [Hf _].
      split; [|discriminate]. intros Hne. split; [exact (Hf Hne)|].
      subst st. unfold t0. rewrite existsb_app. reflexivity.
  - rewrite Hc in *. cbn [fst snd st_trace] in *.
    split; [auto|]. split; [tauto|].
    do 3 (split; [tauto|]). split; [reflexivity|]. split.
    + split; [|reflexivity]. intros _. eexists. split; [exact E4 | reflexivity].
    + intros argv w cmd uid env Hres Hpw Hst.
      destruct (Hmain argv w cmd uid env Hres Hpw Hst) as [_ Hs].
      split; [congruence|]. intros _. apply Hs. reflexivity.
Qed.

(** C1 on the sample system.  When the attempt to regain root fails the
    drop is reported as done and the command is launched; when it answers 0
    the drop is reported as failed and the program exits with 3. *)
Lemma C1_witness :
  let good := sample_os 0 (-1) 0 true [] in
  let bad := sample_os 0 0 0 true [] in
  let d := drop_privileges bad alice (st_entry 501 ∅) in
  fst (drop_privileges good alice (st_entry 501 ∅)) = 0
  /\ fst d = -1
  /\ run bad ["runasuser"; "id"]%string ∅ = (Exit EXIT_PRIV_DROP, st_trace (snd d))
  /\ existsb is_creation (st_trace (snd d)) = false.
Proof.
  cbv zeta.
  pose proof (C1_drop_privileges_order_and_verification
                (sample_os 0 (-1) 0 true []) alice (st_entry 501 ∅)) as G.
  pose proof (C1_drop_privileges_order_and_verification
                (sample_os 0 0 0 true []) alice (st_entry 501 ∅)) as B.
  cbv zeta in G, B.
  destruct G as (_ & [_ G] & _).
  destruct B as ([B0 | B0] & [B1 _] & _ & _ & _ & _ & _ & B).
  - destruct (B1 B0) as (_ & _ & _ & Hne). exfalso. apply Hne. reflexivity.
  - split; [apply G; repeat split; discriminate|].
    split; [exact B0|].
    apply (B ["runasuser"; "id"]%string false ["id"]%string 501 ∅).
    + apply sample_resolved. reflexivity.
    + reflexivity.
    + reflexivity.
    + rewrite B0. discriminate.
Defined.

End MacOSFacts.

(* --------------------------------------------------------------------- *)
(** ** The token-based program                                             *)
(* --------------------------------------------------------------------- *)

Module WindowsFacts.
Import Windows.
Local Open Scope Z_scope.

(** *** The cleanup label *)

Lemma cleanup_spec pi cmdLine env hDup hTok user code tr :
  cleanup pi cmdLine env hDup hTok user code tr
  = (code, tr ++ cleanup_calls pi cmdLine env hDup hTok user).
Proof.
  unfold cleanup_calls, cleanup, bind, ret, call.
  destruct (hThread pi =? 0), (hProcess pi =? 0), cmdLine, (env =? 0),
    (hDup =? 0), (hTok =? 0), user;
    cbn [fst snd app]; rewrite ?app_nil_r, <- ?app_assoc; reflexivity.
Qed.

Lemma cleanup_calls_release pi cmdLine env hDup hTok user :
  forallb is_release (cleanup_calls pi cmdLine env hDup hTok user) = true.
Proof.
  unfold cleanup_calls, cleanup, bind, ret, call.
  destruct (hThread pi =? 0), (hProcess pi =? 0), cmdLine, (env =? 0),
    (hDup =? 0), (hTok =? 0), user; reflexivity.
Qed.

(** A release is none of the other kinds of call. *)
Lemma release_only l :
  forallb is_release l = true ->
  existsb is_discovery l = false
  /\ existsb is_transition l = false
  /\ existsb is_token_query l = false
  /\ existsb is_creation l = false
  /\ existsb is_observation l = false.
Proof.
  induction l as [|e l IH]; [auto|].
  cbn [forallb existsb]. intros H. apply andb_prop in H as [He Hl].
  destruct (IH Hl) as (H1 & H2 & H3 & H4 & H5).
  rewrite H1, H2, H3, H4, H5. destruct e; try discriminate; auto.
Qed.

(** *** [wmain] step by step *)

Lemma wmain_parsed os argv w ss sid cmd tr :
  parse_flags (tail argv) false false 0 = PCommand w ss sid cmd ->
  wmain os argv tr
  = (let (found, t0) := resolve_target os ss sid tr in
     match found with
     | None => cleanup pi_zero None 0 0 0 None EXIT_NO_SESSION t0
     | Some target =>
         launch os w target (WTSQuerySessionInformationW os target) cmd
                (t0 ++ [CallQuerySessionInformation target])
     end).
Proof.
  intros Hp. unfold wmain. rewrite Hp. unfold bind at 1.
  destruct (resolve_target os ss sid tr) as [[target|] t0]; [|reflexivity].
  reflexivity.
Qed.

Lemma launch_token_failure os w target user cmd err tr :
  WTSQueryUserToken os target = inr err ->
  launch os w target user cmd tr
  = (EXIT_TOKEN_FAILURE,
     tr ++ [CallQueryUserToken target]
        ++ cleanup_calls pi_zero None 0 0 0 user).
Proof.
  intros Ht. unfold launch. unfold bind at 1. unfold call at 1.
  rewrite Ht, cleanup_spec, <- app_assoc. reflexivity.
Qed.

Lemma launch_prepared os w target user cmd hTok hDup env tr :
  prepared os target cmd hTok hDup env ->
  let line := Codec.emit_args cmd in
  let calls := launch_calls os target cmd hTok hDup env in
  launch os w target user cmd tr
  = match CreateProcessAsUserW os hDup line env (current_directory os hDup) with
    | inr _ =>
        (EXIT_PROCESS_FAILURE,
         tr ++ calls ++ cleanup_calls pi_zero (Some line) env hDup hTok user)
    | inl pi =>
        if w then
          (match GetExitCodeProcess os (hProcess pi) with
           | Some childExitCode => to_int childExitCode
           | None => EXIT_GENERAL_FAILURE
           end,
           tr ++ calls
              ++ [CallWaitForSingleObject (hProcess pi);
                  CallGetExitCodeProcess (hProcess pi)]
              ++ cleanup_calls pi (Some line) env hDup hTok user)
        else
          (EXIT_SUCCESS_CODE,
           tr ++ calls ++ cleanup_calls pi (Some line) env hDup hTok user)
    end.
Proof.
  intros (Ht & Hd & He & Hm). cbv zeta.
  unfold launch, build_command_line, Codec.build_command_line, launch_calls,
    current_directory.
  unfold bind, call, ret. cbn [fst snd].
  rewrite Ht, Hd, He, Hm.
  assert (Hcwd : match match GetUserProfileDirectoryW os hDup with
                       | Some dir => dir
                       | None => []
                       end with
                 | [] => None
                 | _ :: _ => Some match GetUserProfileDirectoryW os hDup with
                                  | Some dir => dir
                                  | None => []
                                  end
                 end
                 = match GetUserProfileDirectoryW os hDup with
                   | Some (c :: dir) => Some (c :: dir)
                   | _ => None
                   end).
  { destruct (GetUserProfileDirectoryW os hDup) as [[|c dir]|]; reflexivity. }
  rewrite Hcwd.
  destruct (CreateProcessAsUserW os hDup (Codec.emit_args cmd) env _) as [pi|err].
  - destruct w.
    + destruct (GetExitCodeProcess os (hProcess pi));
        rewrite cleanup_spec, <- !app_assoc; reflexivity.
    + rewrite cleanup_spec, <- !app_assoc. reflexivity.
  - rewrite cleanup_spec, <- !app_assoc. reflexivity.
Qed.

(** *** The session argument *)

Lemma scan_digits_all ds : forall acc n,
  Forall (fun c => iswdigit c = true) ds ->
  scan_digits ds acc n
  = (fold_left (fun acc c => acc * 10 + (c - 48)) ds acc, (n + length ds)%nat).
Proof.
  induction ds as [|c ds IH]; intros acc n Hd.
  - cbn. f_equal. lia.
  - inversion Hd as [|? ? Hc Hds]; subst. cbn [scan_digits fold_left length].
    rewrite Hc, IH by exact Hds. f_equal. lia.
Qed.

Lemma scan_digits_prefix s : forall acc n,
  exists m,
    snd (scan_digits s acc n) = (n + m)%nat
    /\ (m <= length s)%nat
    /\ Forall (fun c => iswdigit c = true) (take m s)
    /\ fst (scan_digits s acc n)
       = fold_left (fun acc c => acc * 10 + (c - 48)) (take m s) acc.
Proof.
  induction s as [|c s IH]; intros acc n.
  - exists O. cbn. repeat split; auto; lia.
  - cbn [scan_digits]. destruct (iswdigit c) eqn:Hc.
    + destruct (IH (acc * 10 + (c - 48)) (S n)) as (m & H1 & H2 & H3 & H4).
      exists (S m). cbn [take length fold_left].
      repeat split; [lia | lia | constructor; assumption | exact H4].
    + exists O. cbn. repeat split; auto; lia.
Qed.

Lemma fold_digits_nonneg ds : forall acc,
  0 <= acc ->
  Forall (fun c => iswdigit c = true) ds ->
  0 <= fold_left (fun acc c => acc * 10 + (c - 48)) ds acc.
Proof.
  induction ds as [|c ds IH]; intros acc Ha Hd; [exact Ha|].
  inversion Hd as [|? ? Hc Hds]; subst. cbn [fold_left]. apply IH; [|exact Hds].
  unfold iswdigit in Hc. lia.
Qed.

Lemma session_value_DWORD negative ds :
  Forall (fun c => iswdigit c = true) ds ->
  to_DWORD (session_value negative ds) = session_value negative ds.
Proof.
  intros Hd. unfold session_value. cbv zeta.
  pose proof (fold_digits_nonneg ds 0 ltac:(lia) Hd) as Hv.
  fold (decimal_value ds) in Hv.
  destruct (ULONG_MAX <? decimal_value ds) eqn:Hmax.
  - reflexivity.
  - apply Z.ltb_ge in Hmax. unfold ULONG_MAX in Hmax. destruct negative.
    + unfold to_DWORD. apply Z.mod_mod. lia.
    + unfold to_DWORD. apply Z.mod_small. lia.
Qed.

Lemma skip_space_app ws rest :
  Forall (fun c => iswspace c = true) ws ->
  match rest with c :: _ => iswspace c = false | [] => True end ->
  skip_space (ws ++ rest) = length ws.
Proof.
  intros Hws Hr. induction Hws as [|c ws Hc _ IH].
  - destruct rest as [|c rest]; [reflexivity|]. cbn. rewrite Hr. reflexivity.
  - cbn. rewrite Hc, IH. reflexivity.
Qed.

Lemma skip_space_take s :
  Forall (fun c => iswspace c = true) (take (skip_space s) s).
Proof.
  induction s as [|c s IH]; [constructor|].
  cbn [skip_space]. destruct (iswspace c) eqn:Hc; cbn [take].
  - constructor; assumption.
  - constructor.
Qed.

Lemma digit_not_space c : iswdigit c = true -> iswspace c = false.
Proof. unfold iswdigit, iswspace. lia. Qed.

Lemma digit_not_sign c :
  iswdigit c = true -> (c =? MINUS) = false /\ (c =? PLUS) = false.
Proof. unfold iswdigit, MINUS, PLUS. lia. Qed.

(** A string of the session syntax is accepted with its value. *)
Lemma session_arg_accepts s negative ds :
  session_syntax s negative ds ->
  session_arg s = Some (session_value negative ds).
Proof.
  intros (ws & sign & -> & Hws & Hsign & Hne & Hds).
  destruct ds as [|d ds]; [done|].
  inversion Hds as [|? ? Hd Hds']; subst.
  destruct (digit_not_sign _ Hd) as [Hm Hp].
  assert (Hi : skip_space (ws ++ sign ++ d :: ds) = length ws).
  { apply skip_space_app; [exact Hws|].
    destruct Hsign as [[-> _] | [[-> _] | [-> _]]]; cbn;
      [apply digit_not_space, Hd | reflexivity | reflexivity]. }
  assert (Hj : skip_sign (sign ++ d :: ds) = (negative, length sign)).
  { destruct Hsign as [[-> ->] | [[-> ->] | [-> ->]]]; cbn.
    - rewrite Hm, Hp. reflexivity.
    - reflexivity.
    - reflexivity. }
  unfold session_arg, wcstoul. rewrite Hi.
  rewrite drop_app_length, Hj.
  replace (drop (length ws + length sign) (ws ++ sign ++ d :: ds))
    with (d :: ds).
  2:{ rewrite <- drop_drop, drop_app_length, drop_app_length. reflexivity. }
  rewrite (scan_digits_all (d :: ds) 0 0 Hds).
  cbn [length Nat.add].
  fold (decimal_value (d :: ds)).
  change (if ULONG_MAX <? decimal_value (d :: ds) then ULONG_MAX
          else if negative then to_DWORD (- decimal_value (d :: ds))
               else decimal_value (d :: ds))
    with (session_value negative (d :: ds)).
  replace (length ws + length sign + S (length ds))%nat
    with (length (ws ++ sign ++ d :: ds)).
  2:{ rewrite !length_app. cbn [length]. lia. }
  unfold deref. rewrite nth_overflow by lia.
  rewrite session_value_DWORD by exact Hds.
  destruct (length (ws ++ sign ++ d :: ds)) eqn:Hlen; [|reflexivity].
  rewrite !length_app in Hlen. cbn [length] in Hlen. lia.
Qed.

Lemma skip_sign_take s negative j :
  skip_sign s = (negative, j) ->
  (take j s = [] /\ negative = false)
  \/ (take j s = [PLUS] /\ negative = false)
  \/ (take j s = [MINUS] /\ negative = true).
Proof.
  unfold skip_sign. destruct s as [|c r].
  - intros [= <- <-]. left. auto.
  - destruct (c =? MINUS) eqn:Hm.
    + intros [= <- <-]. apply Z.eqb_eq in Hm. subst c. right; right. auto.
    + destruct (c =? PLUS) eqn:Hp.
      * intros [= <- <-]. apply Z.eqb_eq in Hp. subst c. right; left. auto.
      * intros [= <- <-]. left. auto.
Qed.

Lemma nth_nonzero (s : wstring) e :
  Forall (fun c => c <> 0) s -> nth e s 0 = 0 -> (length s <= e)%nat.
Proof.
  intros Hs He. destruct (Nat.le_gt_cases (length s) e) as [|Hlt]; [assumption|].
  exfalso. rewrite Forall_forall in Hs.
  apply (Hs (nth e s 0)); [|exact He].
  apply list_elem_of_In, nth_In, Hlt.
Qed.

(** An accepted string has the session syntax and is given its value. *)
Lemma session_arg_accepted (s : wstring) v :
  Forall (fun c => c <> 0) s ->
  session_arg s = Some v ->
  exists negative ds, session_syntax s negative ds
                      /\ v = session_value negative ds.
Proof.
  intros Hs. unfold session_arg, wcstoul.
  set (i := skip_space s).
  destruct (skip_sign (drop i s)) as [negative j] eqn:Hj.
  destruct (scan_digits_prefix (drop (i + j) s) 0 O) as (m & H1 & H2 & H3 & H4).
  destruct (scan_digits (drop (i + j) s) 0 O) as [val k].
  cbn [fst snd Nat.add] in H1, H4. subst k.
  destruct m as [|m]; [discriminate|].
  destruct (Nat.eqb (i + j + S m) 0) eqn:He; cbn [orb]; [discriminate|].
  destruct (deref s (i + j + S m) =? 0) eqn:Hd; cbn [negb]; [|discriminate].
  intros [= <-]. apply Z.eqb_eq in Hd.
  apply (nth_nonzero _ _ Hs) in Hd.
  rewrite length_drop in H2.
  assert (Hm : S m = (length s - (i + j))%nat) by lia.
  assert (Htake : take (S m) (drop (i + j) s) = drop (i + j) s).
  { apply take_ge. rewrite length_drop. lia. }
  rewrite Htake in H3, H4.
  exists negative, (drop (i + j) s). split.
  - exists (take i s), (take j (drop i s)). split; [|split; [|split; [|split]]].
    + rewrite <- drop_drop, take_drop, take_drop. reflexivity.
    + apply skip_space_take.
    + apply skip_sign_take, Hj.
    + intros Hnil. apply (f_equal length) in Hnil.
      rewrite length_drop in Hnil. cbn in Hnil. lia.
    + exact H3.
  - rewrite <- (session_value_DWORD negative _ H3).
    unfold session_value. cbv zeta. fold (decimal_value (drop (i + j) s)) in H4.
    rewrite H4. reflexivity.
Qed.

Example session_arg_minus_one : session_arg (L "-1") = Some 4294967295.
Proof. reflexivity. Qed.

Example session_arg_large : session_arg (L "99999999999") = Some 4294967295.
Proof. reflexivity. Qed.

Example session_arg_spaces : session_arg (L "  +12") = Some 12.
Proof. reflexivity. Qed.

Example session_arg_trailing : session_arg (L "12x") = None.
Proof. reflexivity. Qed.

Example session_arg_prefix : session_arg (L "x12") = None.
Proof. reflexivity. Qed.

Example session_arg_empty : session_arg [] = None.
Proof. reflexivity. Qed.

(** *** Runs with a resolved session *)

Lemma run_parsed os argv w ss sid cmd :
  parse_flags (tail argv) false false 0 = PCommand w ss sid cmd ->
  run os argv
  = (let (found, t0) := resolve_target os ss sid [] in
     match found with
     | None => (EXIT_NO_SESSION, t0)
     | Some target =>
         launch os w target (WTSQuerySessionInformationW os target) cmd
                (t0 ++ [CallQuerySessionInformation target])
     end).
Proof.
  intros Hp. unfold run. rewrite (wmain_parsed _ _ _ _ _ _ _ Hp).
  destruct (resolve_target os ss sid []) as [[target|] t0]; [reflexivity|].
  rewrite cleanup_spec. cbn. rewrite app_nil_r. reflexivity.
Qed.

(** The calls of [launch] start with the token query and contain no call of
    the session discovery. *)
Lemma launch_trace os w target user cmd tr :
  exists l, snd (launch os w target user cmd tr)
            = tr ++ CallQueryUserToken target :: l
            /\ existsb is_discovery l = false.
Proof.
  unfold launch, build_command_line, Codec.build_command_line.
  unfold bind, call, ret. cbn [fst snd].
  pose proof (fun pi c e d t =>
                proj1 (release_only _ (cleanup_calls_release pi c e d t user)))
    as Hrel.
  destruct (WTSQueryUserToken os target) as [hTok|];
    [destruct (DuplicateTokenEx os hTok) as [hDup|];
     [destruct (CreateEnvironmentBlock os hDup) as [env|];
      [destruct (malloc os _);
       [destruct (CreateProcessAsUserW os hDup _ env _) as [pi|];
        [destruct w; [destruct (GetExitCodeProcess os (hProcess pi))|]|]|]|]|]|];
    rewrite cleanup_spec; cbn [snd]; rewrite <- !app_assoc; cbn [app];
    (eexists; split; [reflexivity|]);
    cbn [existsb is_discovery orb]; apply Hrel.
Qed.

(** C8, as the program has it.  With a session given on the command line
    the session discovery is not called and the token is asked for that
    session.  An argument that is not a session identifier ends the program
    with the usage-error code 5, and a session for which the token query
    fails ends it with the token-failure code 3, without a process being
    created. *)
Theorem C8_explicit_session os argv w sid cmd :
  parse_flags (tail argv) false false 0 = PCommand w true sid cmd ->
  existsb is_discovery (snd (run os argv)) = false
  /\ In (CallQueryUserToken sid) (snd (run os argv))
  /\ (forall err, WTSQueryUserToken os sid = inr err ->
        fst (run os argv) = EXIT_TOKEN_FAILURE
        /\ existsb is_creation (snd (run os argv)) = false)
  /\ (forall prog id rest, session_arg id = None ->
        run os (prog :: L "--session" :: id :: rest) = (EXIT_USAGE_ERROR, [])).
Proof.
  intros Hp. rewrite (run_parsed _ _ _ _ _ _ Hp).
  cbn [resolve_target ret app].
  destruct (launch_trace os w sid (WTSQuerySessionInformationW os sid) cmd
              [CallQuerySessionInformation sid]) as (l & Hl & Hd).
  split; [|split; [|split]].
  - rewrite Hl. cbn [app existsb is_discovery orb]. exact Hd.
  - rewrite Hl. cbn. auto.
  - intros err Herr. rewrite (launch_token_failure _ _ _ _ _ _ _ Herr).
    cbn [fst snd]. split; [reflexivity|].
    cbn [app existsb is_creation orb].
    apply (release_only _ (cleanup_calls_release _ _ _ _ _ _)).
  - intros prog id rest Hid. unfold run, wmain. cbn [tail parse_flags].
    rewrite Hid. reflexivity.
Qed.

Lemma C8_witness :
  let os := sample_os 1 (fun _ => inr 2) true 0 in
  let argv := [L "runasuser"; L "--session"; L "999"; L "notepad.exe"] in
  existsb is_discovery (snd (run os argv)) = false
  /\ fst (run os argv) = EXIT_TOKEN_FAILURE.
Proof.
  cbv zeta.
  destruct (C8_explicit_session (sample_os 1 (fun _ => inr 2) true 0)
              [L "runasuser"; L "--session"; L "999"; L "notepad.exe"]
              false 999 [L "notepad.exe"] eq_refl) as (H1 & _ & H3 & _).
  split; [exact H1|]. apply (H3 2). reflexivity.
Defined.

(** C8 as stated fails: an unknown session and an argument that is not a
    number both end the program, but with the codes 3 and 5, not with the
    no-session code 2. *)
Lemma C8_counterexample :
  let os := sample_os 1 (fun _ => inr 2) true 0 in
  run os [L "runasuser"; L "--session"; L "999"; L "notepad.exe"]
  = (3, [CallQuerySessionInformation 999; CallQueryUserToken 999])
  /\ run os [L "runasuser"; L "--session"; L "abc"; L "notepad.exe"] = (5, [])
  /\ 3 <> EXIT_NO_SESSION /\ 5 <> EXIT_NO_SESSION.
Proof. cbv zeta. repeat split; try reflexivity; discriminate. Qed.

(** A word that is not an option starts the command. *)
Lemma parse_flags_command_word c rest w ss sid :
  is_option c = false ->
  parse_flags (c :: rest) w ss sid = PCommand w ss sid (c :: rest).
Proof.
  unfold is_option. intros H.
  apply orb_false_elim in H as [H H4]. apply orb_false_elim in H as [H H3].
  apply orb_false_elim in H as [H1 H2].
  apply bool_decide_eq_false in H1, H2, H3, H4.
  cbn [parse_flags].
  destruct (decide (c = L "--wait")); [contradiction|].
  destruct (decide (c = L "--session")); [contradiction|].
  destruct (decide (c = L "--help")); [contradiction|].
  destruct (decide (c = L "-h")); [contradiction|].
  reflexivity.
Qed.

(** Without a wait the exit code is one of the codes of steps 2 to 7. *)
Lemma launch_nowait_code os target user cmd tr :
  let code := fst (launch os false target user cmd tr) in
  code = EXIT_SUCCESS_CODE \/ code = EXIT_GENERAL_FAILURE
  \/ code = EXIT_TOKEN_FAILURE \/ code = EXIT_PROCESS_FAILURE.
Proof.
  cbv zeta. unfold launch, build_command_line, Codec.build_command_line.
  unfold bind, call, ret. cbn [fst snd].
  destruct (WTSQueryUserToken os target) as [hTok|];
    [destruct (DuplicateTokenEx os hTok) as [hDup|];
     [destruct (CreateEnvironmentBlock os hDup) as [env|];
      [destruct (malloc os _);
       [destruct (CreateProcessAsUserW os hDup _ env _) as [pi|]|]|]|]|];
    rewrite cleanup_spec; cbn [fst]; tauto.
Qed.

(** A run with an accepted session argument as its first flag and no wait
    flag: the token is asked for that session, and the exit code is not the
    usage-error code. *)
Lemma run_session_accepted os prog id v c rest :
  session_arg id = Some v ->
  is_option c = false ->
  parse_flags (L "--session" :: id :: c :: rest) false false 0
  = PCommand false true v (c :: rest)
  /\ (exists l,
        snd (run os (prog :: L "--session" :: id :: c :: rest))
        = CallQuerySessionInformation v :: CallQueryUserToken v :: l
        /\ existsb is_discovery l = false)
  /\ fst (run os (prog :: L "--session" :: id :: c :: rest))
     <> EXIT_USAGE_ERROR.
Proof.
  intros Hid Hc.
  assert (Hp : parse_flags (L "--session" :: id :: c :: rest) false false 0
               = PCommand false true v (c :: rest)).
  { change (parse_flags (L "--session" :: id :: c :: rest) false false 0)
      with (match session_arg id with
            | None => PReturn EXIT_USAGE_ERROR
            | Some val => parse_flags (c :: rest) false true val
            end).
    rewrite Hid. apply parse_flags_command_word, Hc. }
  split; [exact Hp|].
  rewrite (run_parsed os (prog :: L "--session" :: id :: c :: rest)
             false true v (c :: rest) Hp).
  cbn [resolve_target ret app]. split.
  - destruct (launch_trace os false v (WTSQuerySessionInformationW os v)
                (c :: rest) [CallQuerySessionInformation v]) as (l & Hl & Hd).
    exists l. rewrite Hl. split; [reflexivity | exact Hd].
  - pose proof (launch_nowait_code os v (WTSQuerySessionInformationW os v)
                  (c :: rest) [CallQuerySessionInformation v]) as H.
    cbv zeta in H. unfold EXIT_USAGE_ERROR.
    destruct H as [-> | [-> | [-> | ->]]]; discriminate.
Qed.

(** C10.  The argument of the session flag is accepted exactly when it is
    white space, an optional sign and decimal digits up to its end; the
    identifier is then the value of the digits, saturated at [ULONG_MAX]
    and negated modulo [2^32] after a minus sign, so [-1] gives 4294967295
    and so does a value too large for an unsigned long.  With an accepted
    argument the flag loop goes on and finds the command with that session
    identifier, and the program asks for the token of that session: for
    [-1] the token of session 4294967295; its exit code is then not the
    usage-error code.  Any other argument ends the program with the
    usage-error code 5 before any call is made. *)
Theorem C10_session_argument :
  (forall s negative ds,
      session_syntax s negative ds ->
      session_arg s = Some (session_value negative ds))
  /\ (forall (s : wstring) v,
        Forall (fun c => c <> 0) s ->
        session_arg s = Some v ->
        exists negative ds,
          session_syntax s negative ds /\ v = session_value negative ds)
  /\ session_arg (L "-1") = Some 4294967295
  /\ session_arg (L "99999999999") = Some 4294967295
  /\ (forall id v rest w ss sid,
        session_arg id = Some v ->
        parse_flags (L "--session" :: id :: rest) w ss sid
        = parse_flags rest w true v)
  /\ (forall os prog id rest,
        session_arg id = None ->
        run os (prog :: L "--session" :: id :: rest) = (EXIT_USAGE_ERROR, []))
  /\ (forall os prog s negative ds c rest,
        session_syntax s negative ds ->
        is_option c = false ->
        let v := session_value negative ds in
        let argv := prog :: L "--session" :: s :: c :: rest in
        parse_flags (tail argv) false false 0
        = PCommand false true v (c :: rest)
        /\ (exists l,
              snd (run os argv)
              = CallQuerySessionInformation v :: CallQueryUserToken v :: l
              /\ existsb is_discovery l = false)
        /\ fst (run os argv) <> EXIT_USAGE_ERROR)
  /\ (forall os prog c rest,
        is_option c = false ->
        let argv := prog :: L "--session" :: L "-1" :: c :: rest in
        parse_flags (tail argv) false false 0
        = PCommand false true 4294967295 (c :: rest)
        /\ In (CallQueryUserToken 4294967295) (snd (run os argv))
        /\ fst (run os argv) <> EXIT_USAGE_ERROR).
Proof.
  split; [exact session_arg_accepts|].
  split; [exact session_arg_accepted|].
  split; [reflexivity|]. split; [reflexivity|]. split; [|split; [|split]].
  - intros id v rest w ss sid Hid. cbn [parse_flags]. rewrite Hid. reflexivity.
  - intros os prog id rest Hid. unfold run, wmain. cbn [tail parse_flags].
    rewrite Hid. reflexivity.
  - intros os prog s negative ds c rest Hs Hc. cbv zeta. cbn [tail].
    apply run_session_accepted; [apply session_arg_accepts, Hs | exact Hc].
  - intros os prog c rest Hc. cbv zeta. cbn [tail].
    destruct (run_session_accepted os prog (L "-1") 4294967295 c rest
                eq_refl Hc) as (Hp & (l & Hl & _) & Hne).
    split; [exact Hp|]. split; [|exact Hne].
    rewrite Hl. right. left. reflexivity.
Qed.

(** C10 at the string [-1], which is accepted and makes the program ask for
    the token of session 4294967295, and at a string with a letter after
    the digits, which is rejected. *)
Lemma C10_witness :
  let os := sample_os 1 (fun _ => inl 8) true 0 in
  session_arg (L "-1") = Some (session_value true (L "1"))
  /\ In (CallQueryUserToken 4294967295)
        (snd (run os [L "runasuser"; L "--session"; L "-1"; L "notepad.exe"]))
  /\ fst (run os [L "runasuser"; L "--session"; L "-1"; L "notepad.exe"])
     <> EXIT_USAGE_ERROR
  /\ run os [L "runasuser"; L "--session"; L "12x"; L "notepad.exe"]
     = (EXIT_USAGE_ERROR, []).
Proof.
  cbv zeta.
  destruct C10_session_argument as (H1 & _ & _ & _ & _ & H6 & _ & H8). split.
  - apply H1. exists [], [MINUS]. split; [reflexivity|].
    split; [constructor|]. split; [auto|]. split; [discriminate|].
    repeat constructor.
  - destruct (H8 (sample_os 1 (fun _ => inl 8) true 0) (L "runasuser")
                (L "notepad.exe") [] eq_refl) as (_ & Hin & Hne).
    split; [exact Hin|]. split; [exact Hne|]. apply H6. reflexivity.
Defined.

(** *** The session discovery *)

Lemma find_active_session_trace os tr :
  exists l, snd (find_active_session os tr)
            = tr ++ CallGetActiveConsoleSessionId :: l
            /\ existsb is_token_query l = false
            /\ existsb is_transition l = false
            /\ existsb is_creation l = false.
Proof.
  unfold find_active_session, bind, call, ret. cbn [fst snd].
  destruct (negb (WTSGetActiveConsoleSessionId os =? 4294967295)).
  - exists []. auto.
  - destruct (WTSEnumerateSessionsW os).
    + exists [CallEnumerateSessions; CallWTSFreeMemory].
      rewrite <- !app_assoc. auto.
    + exists [CallEnumerateSessions]. rewrite <- !app_assoc. auto.
Qed.

Lemma run_token_failure os argv w ss sid cmd target t0 err :
  parse_flags (tail argv) false false 0 = PCommand w ss sid cmd ->
  resolve_target os ss sid [] = (Some target, t0) ->
  WTSQueryUserToken os target = inr err ->
  run os argv
  = (EXIT_TOKEN_FAILURE,
     t0 ++ [CallQuerySessionInformation target; CallQueryUserToken target]
        ++ cleanup_calls pi_zero None 0 0 0
             (WTSQuerySessionInformationW os target)).
Proof.
  intros Hp Hr Ht. rewrite (run_parsed _ _ _ _ _ _ Hp), Hr.
  rewrite (launch_token_failure _ _ _ _ _ _ _ Ht), <- !app_assoc.
  reflexivity.
Qed.

Lemma run_prepared os argv w ss sid cmd target t0 hTok hDup env :
  parse_flags (tail argv) false false 0 = PCommand w ss sid cmd ->
  resolve_target os ss sid [] = (Some target, t0) ->
  prepared os target cmd hTok hDup env ->
  run os argv
  = launch os w target (WTSQuerySessionInformationW os target) cmd
           (t0 ++ [CallQuerySessionInformation target]).
Proof.
  intros Hp Hr _. rewrite (run_parsed _ _ _ _ _ _ Hp), Hr. reflexivity.
Qed.

(** The discovery makes none of the later calls. *)
Lemma resolve_target_trace os ss sid found t0 :
  resolve_target os ss sid [] = (found, t0) ->
  existsb is_token_query t0 = false
  /\ existsb is_transition t0 = false
  /\ existsb is_creation t0 = false
  /\ existsb is_observation t0 = false
  /\ (ss = false -> exists l, t0 = CallGetActiveConsoleSessionId :: l).
Proof.
  unfold resolve_target. destruct ss.
  - intros [= <- <-]. repeat split; auto. discriminate.
  - unfold find_active_session, bind, call, ret. cbn [fst snd app].
    destruct (negb (WTSGetActiveConsoleSessionId os =? 4294967295)).
    + intros [= <- <-]. repeat split; eauto.
    + destruct (WTSEnumerateSessionsW os); intros [= <- <-];
        repeat split; eauto.
Qed.

End WindowsFacts.

(* --------------------------------------------------------------------- *)
(** ** Properties stated for both programs                                 *)
(* --------------------------------------------------------------------- *)

Module PlatformFacts.
Local Open Scope Z_scope.

(** The parent's outcome when it waits for the command. *)
Lemma macos_wait_outcome os argv env cmd uid pw intr status more :
  MacOS.resolved os argv true false cmd uid ->
  MacOS.getpwuid os uid = Some pw ->
  fst (MacOS.drop_privileges os pw (MacOS.st_entry uid env)) = 0 ->
  0 < MacOS.fork os ->
  MacOS.waitpid os (MacOS.fork os) = intr ++ MacOS.WaitReturns status :: more ->
  Forall MacOS.interrupted intr ->
  fst (MacOS.run os argv env) = MacOS.Exit (MacOS.status_code status).
Proof.
  intros Hres Hpw Hr Hf Hw Hi.
  destruct (MacOSFacts.run_fork_wait _ _ _ _ _ _ Hres Hpw Hr) as (v & _ & Hm).
  rewrite MacOSFacts.run_fst, Hm.
  assert (Hlt : (MacOS.fork os <? 0) = false) by (apply Z.ltb_ge; lia).
  assert (Hne : (MacOS.fork os =? 0) = false) by (apply Z.eqb_neq; lia).
  rewrite Hlt, Hne.
  rewrite (MacOSFacts.wait_for_returns _ _ _ _ _ _ Hw Hi). reflexivity.
Qed.

Lemma to_DWORD_to_int code :
  0 <= code < 2 ^ 32 -> to_DWORD (to_int code) = code.
Proof.
  intros Hc. unfold to_DWORD, to_int.
  rewrite Zminus_mod_idemp_l.
  replace (code + 2 ^ 31 - 2 ^ 31) with code by lia.
  apply Z.mod_small. exact Hc.
Qed.

(** C3, as the programs have it.  Waiting for the command, the
    credential-syscall program exits with [K] when the command exited with
    [K], for every [K] from 0 to 255, and with 128 plus the signal number
    when the command was killed by a signal: a value from 129 to 254, fixed
    by the signal, different from the code of every normal exit up to 128.
    The token-based program exits with the exit code of the process, as a
    32-bit value, whatever ended the process. *)
Theorem C3_wait_exit_code :
  (forall os argv env cmd uid pw intr status more,
      MacOS.resolved os argv true false cmd uid ->
      MacOS.getpwuid os uid = Some pw ->
      fst (MacOS.drop_privileges os pw (MacOS.st_entry uid env)) = 0 ->
      0 < MacOS.fork os ->
      MacOS.waitpid os (MacOS.fork os)
      = intr ++ MacOS.WaitReturns status :: more ->
      Forall MacOS.interrupted intr ->
      (forall K, 0 <= K <= 255 -> status = MacOS.W_EXITCODE K 0 ->
         fst (MacOS.run os argv env) = MacOS.Exit K)
      /\ (MacOS.WIFSIGNALED status = true ->
          fst (MacOS.run os argv env)
          = MacOS.Exit (128 + MacOS.WTERMSIG status)
          /\ 129 <= 128 + MacOS.WTERMSIG status <= 254
          /\ forall K, 0 <= K <= 128 ->
               MacOS.status_code (MacOS.W_EXITCODE K 0)
               <> 128 + MacOS.WTERMSIG status))
  /\ (forall os argv ss sid cmd target t0 hTok hDup env pi code,
        Windows.parse_flags (tail argv) false false 0
        = Windows.PCommand true ss sid cmd ->
        Windows.resolve_target os ss sid [] = (Some target, t0) ->
        Windows.prepared os target cmd hTok hDup env ->
        Windows.CreateProcessAsUserW os hDup (Codec.emit_args cmd) env
          (Windows.current_directory os hDup) = inl pi ->
        Windows.GetExitCodeProcess os (Windows.hProcess pi) = Some code ->
        0 <= code < 2 ^ 32 ->
        fst (Windows.run os argv) = to_int code
        /\ to_DWORD (fst (Windows.run os argv)) = code).
Proof.
  split.
  - intros os argv env cmd uid pw intr status more Hres Hpw Hr Hf Hw Hi.
    rewrite (macos_wait_outcome _ _ _ _ _ _ _ _ _ Hres Hpw Hr Hf Hw Hi).
    split.
    + intros K HK ->. rewrite MacOSFacts.status_code_exited by exact HK.
      reflexivity.
    + intros Hs. destruct (MacOSFacts.status_code_signaled _ Hs) as [Hc Hrange].
      rewrite Hc. split; [reflexivity|]. split; [lia|].
      intros K HK. rewrite MacOSFacts.status_code_exited by lia. lia.
  - intros os argv ss sid cmd target t0 hTok hDup env pi code
           Hp Hr Hprep Hc Hx Hcode.
    rewrite (WindowsFacts.run_prepared _ _ _ _ _ _ _ _ _ _ _ Hp Hr Hprep).
    rewrite (WindowsFacts.launch_prepared _ _ _ _ _ _ _ _ _ Hprep).
    cbv zeta. rewrite Hc, Hx. cbn [fst].
    split; [reflexivity | apply to_DWORD_to_int, Hcode].
Qed.

Lemma C3_witness :
  fst (MacOS.run
         (MacOS.sample_os 0 (-1) 77 true
            [MacOS.WaitFails MacOS.EINTR;
             MacOS.WaitReturns (MacOS.W_EXITCODE 7 0)])
         ["runasuser"; "--wait"; "id"]%string ∅)
  = MacOS.Exit 7
  /\ fst (Windows.run
            (Windows.sample_os 1 (fun _ => inl 8) true 3221225477)
            [L "runasuser"; L "--wait"; L "notepad.exe"])
     = to_int 3221225477.
Proof.
  destruct C3_wait_exit_code as [Hmac Hwin]. split.
  - destruct (Hmac (MacOS.sample_os 0 (-1) 77 true
                      [MacOS.WaitFails MacOS.EINTR;
                       MacOS.WaitReturns (MacOS.W_EXITCODE 7 0)])
                   ["runasuser"; "--wait"; "id"]%string ∅ ["id"]%string 501
                   MacOS.alice [MacOS.WaitFails MacOS.EINTR]
                   (MacOS.W_EXITCODE 7 0) []) as [HK _].
    + apply MacOSFacts.sample_resolved. reflexivity.
    + reflexivity.
    + apply MacOSFacts.sample_drop_ok.
    + reflexivity.
    + reflexivity.
    + repeat constructor.
    + apply HK; [lia | reflexivity].
  - destruct (Hwin (Windows.sample_os 1 (fun _ => inl 8) true 3221225477)
                   [L "runasuser"; L "--wait"; L "notepad.exe"]
                   false 0 [L "notepad.exe"] 1
                   [Windows.CallGetActiveConsoleSessionId] 8 9 4096
                   {| Windows.hProcess := 200; Windows.hThread := 204;
                      Windows.dwProcessId := 4242 |} 3221225477)
      as [H _].
    + reflexivity.
    + reflexivity.
    + repeat split.
    + reflexivity.
    + reflexivity.
    + lia.
    + exact H.
Defined.

(** C3 as stated fails: a command that exits normally with 137 and a
    command killed by signal 9 give the program the same exit code, so the
    code for a killed command is not distinct from every code of a normal
    exit. *)
Lemma C3_counterexample :
  let argv := ["runasuser"; "--wait"; "id"]%string in
  let exited := MacOS.W_EXITCODE 137 0 in
  let killed := MacOS.W_EXITCODE 0 9 in
  MacOS.WIFEXITED exited = true
  /\ MacOS.WIFSIGNALED killed = true
  /\ fst (MacOS.run (MacOS.sample_os 0 (-1) 77 true [MacOS.WaitReturns exited])
                    argv ∅) = MacOS.Exit 137
  /\ fst (MacOS.run (MacOS.sample_os 0 (-1) 77 true [MacOS.WaitReturns killed])
                    argv ∅) = MacOS.Exit 137.
Proof. cbv zeta. repeat split; vm_compute; reflexivity. Qed.

(** C4, as the programs have it.  The credential-syscall program exits
    with code 2 when there is no console user, when the user name cannot be
    read or when it is the login window, and it has then changed no identity
    and created no process.  The token-based program exits with code 2 when
    the session discovery finds no session, having asked for no token; when
    the token query answers that no user is logged into the session it exits
    with the token-failure code 3.  In both cases it has duplicated no token
    and created no process. *)
Theorem C4_no_session :
  (forall os argv env w s cmd,
      MacOS.parse_flags (tail argv) false false = MacOS.PCommand w s cmd ->
      MacOS.getuid os = 0 ->
      MacOS.SCDynamicStoreCopyConsoleUser os = None
      \/ MacOS.CFStringGetCString os = None
      \/ MacOS.CFStringGetCString os = Some "loginwindow"%string ->
      fst (MacOS.run os argv env) = MacOS.Exit MacOS.EXIT_NO_SESSION
      /\ existsb MacOS.is_transition (snd (MacOS.run os argv env)) = false
      /\ existsb MacOS.is_creation (snd (MacOS.run os argv env)) = false)
  /\ (forall os argv w sid cmd,
        Windows.parse_flags (tail argv) false false 0
        = Windows.PCommand w false sid cmd ->
        fst (Windows.find_active_session os []) = None ->
        fst (Windows.run os argv) = Windows.EXIT_NO_SESSION
        /\ existsb Windows.is_token_query (snd (Windows.run os argv)) = false
        /\ existsb Windows.is_transition (snd (Windows.run os argv)) = false
        /\ existsb Windows.is_creation (snd (Windows.run os argv)) = false)
  /\ (forall os argv w ss sid cmd target t0,
        Windows.parse_flags (tail argv) false false 0
        = Windows.PCommand w ss sid cmd ->
        Windows.resolve_target os ss sid [] = (Some target, t0) ->
        Windows.WTSQueryUserToken os target = inr Windows.ERROR_NO_TOKEN ->
        fst (Windows.run os argv) = Windows.EXIT_TOKEN_FAILURE
        /\ existsb Windows.is_transition (snd (Windows.run os argv)) = false
        /\ existsb Windows.is_creation (snd (Windows.run os argv)) = false).
Proof.
  split; [|split].
  - intros os argv env w s cmd Hp Hu Hc.
    destruct (MacOSFacts.run_no_console_user _ _ env _ _ _ Hp Hu Hc)
      as [Hx [Ht | Ht]]; rewrite Hx, Ht; auto.
  - intros os argv w sid cmd Hp Hf.
    rewrite (WindowsFacts.run_parsed _ _ _ _ _ _ Hp).
    cbn [Windows.resolve_target].
    destruct (WindowsFacts.find_active_session_trace os [])
      as (l & Hl & H1 & H2 & H3).
    destruct (Windows.find_active_session os []) as [found t0].
    cbn [fst snd] in *. subst found t0. cbn [fst snd app existsb].
    rewrite H1, H2, H3. auto.
  - intros os argv w ss sid cmd target t0 Hp Hr Ht.
    rewrite (WindowsFacts.run_token_failure _ _ _ _ _ _ _ _ _ Hp Hr Ht).
    cbn [fst snd]. split; [reflexivity|].
    destruct (WindowsFacts.resolve_target_trace _ _ _ _ _ Hr)
      as (_ & H2 & H3 & _).
    destruct (WindowsFacts.release_only _
                (WindowsFacts.cleanup_calls_release Windows.pi_zero None 0 0 0
                   (Windows.WTSQuerySessionInformationW os target)))
      as (_ & R2 & _ & R4 & _).
    rewrite !existsb_app, H2, H3, R2, R4. auto.
Qed.

Lemma C4_witness :
  fst (MacOS.run
         {| MacOS.getuid := 0;
            MacOS.SCDynamicStoreCopyConsoleUser := Some (0, 0);
            MacOS.CFStringGetCString := Some "loginwindow"%string;
            MacOS.getpwuid := fun _ => Some MacOS.alice;
            MacOS.initgroups := fun _ _ _ => 0;
            MacOS.setgid := fun _ _ => 0;
            MacOS.setuid := fun _ _ => 0;
            MacOS.NSGetExecutablePath := None;
            MacOS.malloc := true;
            MacOS.realpath := fun _ => None;
            MacOS.calloc := true;
            MacOS.fork := 77;
            MacOS.execvp := fun _ _ => true;
            MacOS.waitpid := fun _ => [] |}
         ["runasuser"; "id"]%string ∅)
  = MacOS.Exit 2
  /\ fst (Windows.run
            {| Windows.WTSGetActiveConsoleSessionId := 4294967295;
               Windows.WTSEnumerateSessionsW :=
                 Some [{| Windows.SessionId := 0;
                          Windows.State := Windows.WTSListen |}];
               Windows.WTSQuerySessionInformationW := fun _ => None;
               Windows.WTSQueryUserToken := fun _ => inl 8;
               Windows.DuplicateTokenEx := fun _ => inl 9;
               Windows.CreateEnvironmentBlock := fun _ => inl 4096;
               Windows.GetUserProfileDirectoryW := fun _ => None;
               Windows.malloc := fun _ => true;
               Windows.CreateProcessAsUserW := fun _ _ _ _ => inr 5;
               Windows.GetExitCodeProcess := fun _ => None |}
            [L "runasuser"; L "notepad.exe"])
     = 2
  /\ fst (Windows.run
            (Windows.sample_os 1 (fun _ => inr Windows.ERROR_NO_TOKEN) true 0)
            [L "runasuser"; L "notepad.exe"])
     = 3.
Proof.
  destruct C4_no_session as (Hmac & Hwin & Htok).
  split; [|split].
  - eapply Hmac; [reflexivity | reflexivity | right; right; reflexivity].
  - eapply Hwin; reflexivity.
  - eapply Htok; reflexivity.
Defined.

(** C4 as stated fails on the token-based program: the console session
    exists, the token query answers that no user is logged into it, and the
    program exits with 3, not with the no-session code 2. *)
Lemma C4_counterexample :
  Windows.run
    (Windows.sample_os 1 (fun _ => inr Windows.ERROR_NO_TOKEN) true 0)
    [L "runasuser"; L "notepad.exe"]
  = (3, [Windows.CallGetActiveConsoleSessionId;
         Windows.CallQuerySessionInformation 1;
         Windows.CallQueryUserToken 1])
  /\ 3 <> Windows.EXIT_NO_SESSION.
Proof. split; [reflexivity | discriminate]. Qed.

(** C5, as the programs have it.  Not run by root, the credential-syscall
    program exits with code 1 after the single call that reads its user
    identity, before the console user is asked for.  The token-based
    program has no check of its own: it resolves the session first, and
    when the one token query answers that the privilege is not held it
    exits with the token-failure code 3 without creating a process. *)
Theorem C5_privilege_required :
  (forall os argv env w s cmd,
      MacOS.parse_flags (tail argv) false false = MacOS.PCommand w s cmd ->
      MacOS.getuid os <> 0 ->
      MacOS.run os argv env = (MacOS.Exit MacOS.EXIT_GENERAL, [MacOS.CallGetuid]))
  /\ (forall os argv w ss sid cmd target t0,
        Windows.parse_flags (tail argv) false false 0
        = Windows.PCommand w ss sid cmd ->
        Windows.resolve_target os ss sid [] = (Some target, t0) ->
        Windows.WTSQueryUserToken os target
        = inr Windows.ERROR_PRIVILEGE_NOT_HELD ->
        Windows.run os argv
        = (Windows.EXIT_TOKEN_FAILURE,
           t0 ++ [Windows.CallQuerySessionInformation target;
                  Windows.CallQueryUserToken target]
              ++ Windows.cleanup_calls Windows.pi_zero None 0 0 0
                   (Windows.WTSQuerySessionInformationW os target))
        /\ (ss = false ->
            exists l, t0 = Windows.CallGetActiveConsoleSessionId :: l)
        /\ length (List.filter Windows.is_token_query
                     (snd (Windows.run os argv))) = 1%nat
        /\ existsb Windows.is_creation (snd (Windows.run os argv)) = false).
Proof.
  split.
  - intros os argv env w s cmd Hp Hu. apply (MacOSFacts.run_not_root _ _ _ _ _ _ Hp Hu).
  - intros os argv w ss sid cmd target t0 Hp Hr Ht.
    rewrite (WindowsFacts.run_token_failure _ _ _ _ _ _ _ _ _ Hp Hr Ht).
    destruct (WindowsFacts.resolve_target_trace _ _ _ _ _ Hr)
      as (H1 & _ & H3 & _ & H5).
    destruct (WindowsFacts.release_only _
                (WindowsFacts.cleanup_calls_release Windows.pi_zero None 0 0 0
                   (Windows.WTSQuerySessionInformationW os target)))
      as (_ & _ & R3 & R4 & _).
    split; [reflexivity|]. split; [exact H5|]. cbn [snd]. split.
    + assert (Hnone : forall l, existsb Windows.is_token_query l = false ->
                List.filter Windows.is_token_query l = []).
      { induction l as [|e l IH]; [reflexivity|].
        cbn [existsb List.filter]. intros H.
        apply orb_false_elim in H as [He Hl]. rewrite He. apply IH, Hl. }
      rewrite !List.filter_app, (Hnone _ H1), (Hnone _ R3). reflexivity.
    + rewrite !existsb_app, H3, R4. reflexivity.
Qed.

Lemma C5_witness :
  MacOS.run (MacOS.sample_os 501 (-1) 0 true []) ["runasuser"; "id"]%string ∅
  = (MacOS.Exit 1, [MacOS.CallGetuid])
  /\ fst (Windows.run
            (Windows.sample_os 1
               (fun _ => inr Windows.ERROR_PRIVILEGE_NOT_HELD) true 0)
            [L "runasuser"; L "notepad.exe"])
     = 3.
Proof.
  destruct C5_privilege_required as (Hmac & Hwin). split.
  - eapply Hmac; [reflexivity | discriminate].
  - destruct (Hwin (Windows.sample_os 1
                      (fun _ => inr Windows.ERROR_PRIVILEGE_NOT_HELD) true 0)
                   [L "runasuser"; L "notepad.exe"] false false 0
                   [L "notepad.exe"] 1 [Windows.CallGetActiveConsoleSessionId])
      as (H & _); [reflexivity | reflexivity | reflexivity|].
    rewrite H. reflexivity.
Defined.

(** C5 as stated fails on the token-based program: run without the
    privilege, it first asks for the console session and then exits with 3,
    not with code 1 before the session discovery. *)
Lemma C5_counterexample :
  Windows.run
    (Windows.sample_os 1 (fun _ => inr Windows.ERROR_PRIVILEGE_NOT_HELD) true 0)
    [L "runasuser"; L "notepad.exe"]
  = (3, [Windows.CallGetActiveConsoleSessionId;
         Windows.CallQuerySessionInformation 1;
         Windows.CallQueryUserToken 1])
  /\ 3 <> Windows.EXIT_GENERAL_FAILURE.
Proof. split; [reflexivity | discriminate]. Qed.

(** C9.  Without the wait flag (and without the session flag, which always
    waits), the credential-syscall program calls [execvp] on the command
    without forking: when the call succeeds the program's image is the
    command, when it returns the program exits with code 4.  The token-based
    program calls the process creation once and does not wait for or query
    the process: it exits with code 0 when the process was created and with
    code 4 when it was not. *)
Theorem C9_non_waiting_launch :
  (forall os argv env cmd uid pw,
      MacOS.resolved os argv false false cmd uid ->
      MacOS.getpwuid os uid = Some pw ->
      fst (MacOS.drop_privileges os pw (MacOS.st_entry uid env)) = 0 ->
      let file := hd EmptyString cmd in
      ~ In MacOS.CallFork (snd (MacOS.run os argv env))
      /\ (forall pid, ~ In (MacOS.CallWaitpid pid) (snd (MacOS.run os argv env)))
      /\ In (MacOS.CallExecvp file cmd) (snd (MacOS.run os argv env))
      /\ (MacOS.execvp os file cmd = true ->
          exists env', fst (MacOS.run os argv env) = MacOS.Exec file cmd env')
      /\ (MacOS.execvp os file cmd = false ->
          fst (MacOS.run os argv env) = MacOS.Exit MacOS.EXIT_EXEC_FAIL))
  /\ (forall os argv ss sid cmd target t0 hTok hDup env,
        Windows.parse_flags (tail argv) false false 0
        = Windows.PCommand false ss sid cmd ->
        Windows.resolve_target os ss sid [] = (Some target, t0) ->
        Windows.prepared os target cmd hTok hDup env ->
        let created :=
          Windows.CreateProcessAsUserW os hDup (Codec.emit_args cmd) env
            (Windows.current_directory os hDup) in
        length (List.filter Windows.is_creation (snd (Windows.run os argv)))
        = 1%nat
        /\ existsb Windows.is_observation (snd (Windows.run os argv)) = false
        /\ (forall pi, created = inl pi ->
              fst (Windows.run os argv) = Windows.EXIT_SUCCESS_CODE)
        /\ (forall err, created = inr err ->
              fst (Windows.run os argv) = Windows.EXIT_PROCESS_FAILURE)).
Proof.
  split.
  - intros os argv env cmd uid pw Hres Hpw Hr. cbv zeta.
    destruct (MacOSFacts.run_exec_nowait _ _ _ _ _ _ Hres Hpw Hr)
      as (v & _ & Hrun).
    cbv zeta in Hrun. rewrite Hrun. cbn [fst snd].
    split; [|split; [|split; [|split]]].
    + cbn [In]. intros H. repeat (destruct H as [H | H]; [discriminate|]).
      exact H.
    + intros pid. cbn [In]. intros H.
      repeat (destruct H as [H | H]; [discriminate|]). exact H.
    + cbn [In]. do 13 right. left. reflexivity.
    + intros ->. eauto.
    + intros ->. reflexivity.
  - intros os argv ss sid cmd target t0 hTok hDup env Hp Hr Hprep. cbv zeta.
    rewrite (WindowsFacts.run_prepared _ _ _ _ _ _ _ _ _ _ _ Hp Hr Hprep).
    rewrite (WindowsFacts.launch_prepared _ _ _ _ _ _ _ _ _ Hprep).
    cbv zeta.
    destruct (WindowsFacts.resolve_target_trace _ _ _ _ _ Hr)
      as (_ & _ & H3 & H4 & _).
    assert (Hnone : forall l, existsb Windows.is_creation l = false ->
              List.filter Windows.is_creation l = []).
    { induction l as [|e l IH]; [reflexivity|].
      cbn [existsb List.filter]. intros H.
      apply orb_false_elim in H as [He Hl]. rewrite He. apply IH, Hl. }
    destruct (Windows.CreateProcessAsUserW os hDup (Codec.emit_args cmd) env
                (Windows.current_directory os hDup)) as [pi|err];
      cbn [fst snd];
      match goal with
      | |- context [Windows.cleanup_calls ?a ?b ?c ?d ?e ?f] =>
          destruct (WindowsFacts.release_only _
                      (WindowsFacts.cleanup_calls_release a b c d e f))
            as (_ & _ & _ & R4 & R5)
      end;
      (split; [|split; [|split]]);
      try (intros; congruence); try reflexivity.
    + rewrite !List.filter_app, (Hnone _ H3), (Hnone _ R4). reflexivity.
    + rewrite !existsb_app, H4, R5. reflexivity.
    + rewrite !List.filter_app, (Hnone _ H3), (Hnone _ R4). reflexivity.
    + rewrite !existsb_app, H4, R5. reflexivity.
Qed.

Lemma C9_witness :
  fst (MacOS.run (MacOS.sample_os 0 (-1) 0 false []) ["runasuser"; "id"]%string ∅)
  = MacOS.Exit 4
  /\ fst (Windows.run (Windows.sample_os 1 (fun _ => inl 8) true 0)
            [L "runasuser"; L "notepad.exe"]) = 0
  /\ fst (Windows.run (Windows.sample_os 1 (fun _ => inl 8) false 0)
            [L "runasuser"; L "notepad.exe"]) = 4.
Proof.
  destruct C9_non_waiting_launch as (Hmac & Hwin). split; [|split].
  - destruct (Hmac (MacOS.sample_os 0 (-1) 0 false [])
                   ["runasuser"; "id"]%string ∅ ["id"]%string 501 MacOS.alice)
      as (_ & _ & _ & _ & H).
    + apply MacOSFacts.sample_resolved. reflexivity.
    + reflexivity.
    + apply MacOSFacts.sample_drop_ok.
    + apply H. reflexivity.
  - destruct (Hwin (Windows.sample_os 1 (fun _ => inl 8) true 0)
                   [L "runasuser"; L "notepad.exe"] false 0 [L "notepad.exe"]
                   1 [Windows.CallGetActiveConsoleSessionId] 8 9 4096)
      as (_ & _ & H & _); [reflexivity | reflexivity | repeat split|].
    eapply H. reflexivity.
  - destruct (Hwin (Windows.sample_os 1 (fun _ => inl 8) false 0)
                   [L "runasuser"; L "notepad.exe"] false 0 [L "notepad.exe"]
                   1 [Windows.CallGetActiveConsoleSessionId] 8 9 4096)
      as (_ & _ & _ & H); [reflexivity | reflexivity | repeat split|].
    eapply H. reflexivity.
Defined.

End PlatformFacts.

(* ===================================================================== *)
(** * Part III: further properties of the code                             *)
(* ===================================================================== *)

(* --------------------------------------------------------------------- *)
(** ** The command line and the diagnostics                                *)
(* --------------------------------------------------------------------- *)

Module CodecMore.
Import Codec.

(** X1.  Two argument vectors for which [build_command_line] returns the
    same string are the same vector: the command line determines the
    arguments. *)
Theorem build_command_line_injective m1 m2 argv1 argv2 line :
  build_command_line m1 argv1 = Some line ->
  build_command_line m2 argv2 = Some line ->
  argv1 = argv2.
Proof.
  unfold build_command_line. intros H1 H2.
  destruct (m1 _); [|discriminate]. destruct (m2 _); [|discriminate].
  injection H1 as H1. injection H2 as H2.
  rewrite <- (CodecFacts.split_emit_args argv1),
          <- (CodecFacts.split_emit_args argv2).
  congruence.
Qed.

Lemma build_command_line_injective_witness :
  [L "a b"; [92; 34]%Z] = [L "a b"; [92; 34]%Z].
Proof.
  apply (build_command_line_injective (fun _ => true) (fun _ => true)
           [L "a b"; [92; 34]%Z] [L "a b"; [92; 34]%Z]
           [34; 97; 32; 98; 34; 32; 34; 92; 92; 92; 34; 34]%Z);
    reflexivity.
Defined.

(** *** The line ends of the system message *)






Example strip_line_ends_crlf :
  Windows.strip_line_ends (L "Access is denied." ++ [13; 10]%Z)
  = L "Access is denied.".
Proof. reflexivity. Qed.

End CodecMore.

(* --------------------------------------------------------------------- *)
(** ** More of the credential-syscall program                              *)
(* --------------------------------------------------------------------- *)

Module MacOSMore.
Import MacOS.
Local Open Scope Z_scope.

(** *** The flag loop *)

Lemma parse_flags_own_flags flags : forall w0 s0 cmd args,
  Forall (fun a => is_own_flag a = true) flags ->
  is_option cmd = false ->
  parse_flags (flags ++ cmd :: args) w0 s0
  = PCommand (w0 || existsb (String.eqb "--wait") flags)
             (s0 || existsb (String.eqb "--session") flags)
             (cmd :: args).
Proof.
  induction flags as [|a flags IH]; intros w0 s0 cmd args Hf Hc.
  - cbn [app existsb]. rewrite !orb_false_r.
    unfold is_option, is_own_flag in Hc.
    apply orb_false_elim in Hc as [Hc Hh].
    apply orb_false_elim in Hc as [Hc Hhelp].
    apply orb_false_elim in Hc as [Hw Hs].
    cbn [parse_flags]. rewrite Hw, Hs, Hhelp, Hh. reflexivity.
  - inversion Hf as [|? ? Ha Hf']; subst. unfold is_own_flag in Ha.
    cbn [app parse_flags existsb].
    destruct (String.eqb a "--wait") eqn:Hw.
    + apply String.eqb_eq in Hw. subst a. rewrite IH by assumption.
      cbn. rewrite !orb_true_r. reflexivity.
    + cbn [orb] in Ha. rewrite Ha. apply String.eqb_eq in Ha. subst a.
      rewrite IH by assumption. cbn. rewrite !orb_true_r. reflexivity.
Qed.

(** X3.  The flag loop stops at the first word that is not one of the
    program's options: the wait and session flags before it are collected,
    in any order and number, and the command keeps every argument after it,
    also those that look like the program's own flags. *)
Theorem parse_flags_stops_at_command flags cmd args :
  Forall (fun a => is_own_flag a = true) flags ->
  is_option cmd = false ->
  parse_flags (flags ++ cmd :: args) false false
  = PCommand (existsb (String.eqb "--wait") flags)
             (existsb (String.eqb "--session") flags)
             (cmd :: args).
Proof. intros Hf Hc. apply (parse_flags_own_flags flags false false); assumption. Qed.

Lemma parse_flags_stops_at_command_witness :
  parse_flags ["--wait"; "--wait"; "tool"; "--session"; "--help"]%string
              false false
  = PCommand true false ["tool"; "--session"; "--help"]%string.
Proof.
  apply (parse_flags_stops_at_command ["--wait"; "--wait"]%string
           "tool"%string ["--session"; "--help"]%string).
  - repeat constructor.
  - reflexivity.
Defined.

(** *** The exit code of a wait status *)

(** X4.  Whatever the status word, the exit code computed from it is
    between 0 and 255, and a status that is neither a normal exit nor a
    death by signal gives the general failure code 1. *)
Theorem status_code_range status :
  0 <= status_code status <= 255
  /\ (WSTATUS status = 127 -> status_code status = EXIT_GENERAL).
Proof.
  unfold status_code, WIFEXITED, WIFSIGNALED, WTERMSIG, WEXITSTATUS.
  pose proof (MacOSFacts.WSTATUS_range status) as Hr. split.
  - destruct (WSTATUS status =? 0) eqn:H0.
    + pose proof (Z.land_ones (status ≫ 8) 8 ltac:(lia)) as HL.
      change (Z.ones 8) with 255 in HL. rewrite HL.
      pose proof (Z.mod_pos_bound (status ≫ 8) (2 ^ 8)). lia.
    + destruct (WSTATUS status =? 127) eqn:H127; cbn [negb andb].
      * unfold EXIT_GENERAL. lia.
      * apply Z.eqb_neq in H127. lia.
  - intros H. rewrite H. reflexivity.
Qed.

(** *** The wait loop *)

Lemma wait_loop_fails pid intr errno more st :
  Forall interrupted intr ->
  errno <> EINTR ->
  wait_loop pid (intr ++ WaitFails errno :: more) st
  = (WaitError,
     {| st_trace := st_trace st ++ replicate (S (length intr)) (CallWaitpid pid);
        st_env := st_env st |}).
Proof.
  intros Hi He. revert st. induction Hi as [|a intr Ha _ IH]; intros st.
  - cbn [app wait_loop length replicate]. unfold bind, call, ret.
    apply Z.eqb_neq in He. rewrite He. reflexivity.
  - rewrite Ha. cbn [app wait_loop]. unfold bind at 1. unfold call at 1.
    change (negb (EINTR =? EINTR)) with false. cbv iota.
    rewrite IH. cbn [st_trace st_env length]. f_equal. f_equal.
    rewrite <- app_assoc. reflexivity.
Qed.

Lemma filter_waitpid_replicate n pid :
  length (List.filter is_waitpid (replicate n (CallWaitpid pid))) = n.
Proof. induction n as [|n IH]; [reflexivity|]. cbn. rewrite IH. reflexivity. Qed.

(** X5.  Waiting for the command, the program repeats every interrupted
    [waitpid]: with [n] interruptions it makes exactly [n + 1] calls.  The
    answer after them decides the exit code: a status gives the code of that
    status, an error other than the interruption gives the general failure
    code 1. *)
Theorem wait_retries_and_errors os argv env cmd uid pw intr final more :
  resolved os argv true false cmd uid ->
  getpwuid os uid = Some pw ->
  fst (drop_privileges os pw (st_entry uid env)) = 0 ->
  0 < fork os ->
  waitpid os (fork os) = intr ++ final :: more ->
  Forall interrupted intr ->
  final <> WaitFails EINTR ->
  length (List.filter is_waitpid (snd (run os argv env))) = S (length intr)
  /\ fst (run os argv env)
     = match final with
       | WaitReturns status => Exit (status_code status)
       | WaitFails _ => Exit EXIT_GENERAL
       end.
Proof.
  intros Hres Hpw Hr Hf Hw Hi Hfin.
  destruct (MacOSFacts.run_fork_wait _ _ _ _ _ _ Hres Hpw Hr) as (v & _ & Hm).
  rewrite MacOSFacts.run_fst, MacOSFacts.run_snd, Hm.
  assert (Hlt : (fork os <? 0) = false) by (apply Z.ltb_ge; lia).
  assert (Hne : (fork os =? 0) = false) by (apply Z.eqb_neq; lia).
  rewrite Hlt, Hne. unfold wait_for, bind. rewrite Hw.
  destruct final as [status | errno].
  - rewrite (MacOSFacts.wait_loop_returns _ _ _ _ _ Hi).
    cbn [fst snd st_trace ret]. split; [|reflexivity].
    rewrite List.filter_app, length_app, filter_waitpid_replicate.
    reflexivity.
  - assert (He : errno <> EINTR) by congruence.
    rewrite (wait_loop_fails _ _ _ _ _ Hi He).
    cbn [fst snd st_trace ret]. split; [|reflexivity].
    rewrite List.filter_app, length_app, filter_waitpid_replicate.
    reflexivity.
Qed.

Lemma wait_retries_and_errors_witness :
  let os := sample_os 0 (-1) 77 true
              [WaitFails EINTR; WaitFails EINTR; WaitFails 10] in
  let argv := ["runasuser"; "--wait"; "id"]%string in
  length (List.filter is_waitpid (snd (run os argv ∅))) = 3%nat
  /\ fst (run os argv ∅) = Exit EXIT_GENERAL.
Proof.
  cbv zeta.
  apply (wait_retries_and_errors
           (sample_os 0 (-1) 77 true
              [WaitFails EINTR; WaitFails EINTR; WaitFails 10])
           ["runasuser"; "--wait"; "id"]%string ∅ ["id"]%string 501 alice
           [WaitFails EINTR; WaitFails EINTR] (WaitFails 10) []).
  - apply MacOSFacts.sample_resolved. reflexivity.
  - reflexivity.
  - apply MacOSFacts.sample_drop_ok.
  - reflexivity.
  - reflexivity.
  - repeat constructor.
  - discriminate.
Defined.

(** *** Failures between the session checks and the launch *)

Lemma run_getpwuid_none os argv env w cmd uid :
  resolved os argv w false cmd uid ->
  getpwuid os uid = None ->
  run os argv env = (Exit EXIT_GENERAL, st_trace (st_entry uid env)).
Proof.
  intros Hres Hpw. unfold run.
  rewrite (MacOSFacts.main_resolved _ _ _ _ _ _ _ Hres).
  unfold bind, call, ret. cbn [fst snd st_resolved st_trace st_env app].
  rewrite Hpw. reflexivity.
Qed.

Lemma drop_privileges_events os pw st :
  exists l,
    st_trace (snd (drop_privileges os pw st)) = st_trace st ++ l
    /\ forallb is_transition l = true.
Proof.
  destruct (MacOSFacts.drop_privileges_inv os pw st) as [_ Hc].
  cbv zeta in Hc.
  destruct Hc as
    [(v & _ & _ & Ht) | [(v & _ & _ & Ht) | [(v & _ & _ & Ht)
     | [(_ & Ht) | (v & _ & _ & Ht)]]]];
    (eexists; split; [exact Ht | reflexivity]).
Qed.

(** X6.  When the console user has no password entry the program exits with
    the general failure code 1 right after the lookup: no credential call,
    no change of the environment, no fork and no exec. *)
Theorem getpwuid_failure os argv env w cmd uid :
  resolved os argv w false cmd uid ->
  getpwuid os uid = None ->
  run os argv env
  = (Exit EXIT_GENERAL,
     [CallGetuid; CallCopyConsoleUser; CallCFStringGetCString;
      CallGetpwuid uid]).
Proof. intros Hres Hpw. apply (run_getpwuid_none _ _ _ _ _ _ Hres Hpw). Qed.

Lemma getpwuid_failure_witness :
  run {| getuid := 0;
         SCDynamicStoreCopyConsoleUser := Some (502, 20);
         CFStringGetCString := Some "bob"%string;
         getpwuid := fun _ => None;
         initgroups := fun _ _ _ => 0;
         setgid := fun _ _ => 0;
         setuid := fun _ _ => 0;
         NSGetExecutablePath := None;
         malloc := true;
         realpath := fun _ => None;
         calloc := true;
         fork := 77;
         execvp := fun _ _ => true;
         waitpid := fun _ => [] |}
      ["runasuser"; "id"]%string ∅
  = (Exit 1,
     [CallGetuid; CallCopyConsoleUser; CallCFStringGetCString;
      CallGetpwuid 502]).
Proof.
  apply (getpwuid_failure _ _ _ false ["id"]%string 502).
  - split; [reflexivity|]. split; [reflexivity|]. split.
    + exists 20. reflexivity.
    + exists "bob"%string. split; reflexivity.
  - reflexivity.
Defined.

(** X7.  With the wait flag, after a successful drop: when [fork] fails the
    program exits with code 4 without an exec and without a wait; in the
    forked child, when [execvp] returns, the child exits with code 4 and
    does not wait either. *)
Theorem wait_mode_launch_failures os argv env cmd uid pw :
  resolved os argv true false cmd uid ->
  getpwuid os uid = Some pw ->
  fst (drop_privileges os pw (st_entry uid env)) = 0 ->
  (fork os < 0 ->
     fst (run os argv env) = Exit EXIT_EXEC_FAIL
     /\ (forall file args, ~ In (CallExecvp file args) (snd (run os argv env)))
     /\ existsb is_waitpid (snd (run os argv env)) = false)
  /\ (fork os = 0 ->
      execvp os (hd EmptyString cmd) cmd = false ->
      fst (run os argv env) = Exit EXIT_EXEC_FAIL
      /\ In (CallExecvp (hd EmptyString cmd) cmd) (snd (run os argv env))
      /\ existsb is_waitpid (snd (run os argv env)) = false).
Proof.
  intros Hres Hpw Hr.
  destruct (MacOSFacts.run_fork_wait _ _ _ _ _ _ Hres Hpw Hr) as (v & _ & Hm).
  rewrite MacOSFacts.run_fst, MacOSFacts.run_snd, Hm. split.
  - intros Hf. apply Z.ltb_lt in Hf. rewrite Hf.
    cbn [ret fst snd st_trace]. split; [reflexivity|]. split; [|reflexivity].
    intros file args H. cbn [In] in H.
    repeat (destruct H as [H | H]; [discriminate|]). exact H.
  - intros Hf Hx. rewrite Hf. cbn [Z.ltb Z.eqb Z.compare].
    unfold sys_execvp. rewrite Hx. unfold call.
    cbn [fst snd st_trace app]. split; [reflexivity|]. split; [|reflexivity].
    cbn [In]. do 14 right. left. reflexivity.
Qed.

Lemma wait_mode_launch_failures_witness :
  fst (run (sample_os 0 (-1) (-1) true []) ["runasuser"; "--wait"; "id"]%string ∅)
  = Exit EXIT_EXEC_FAIL
  /\ fst (run (sample_os 0 (-1) 0 false []) ["runasuser"; "--wait"; "id"]%string ∅)
     = Exit EXIT_EXEC_FAIL.
Proof.
  split.
  - destruct (wait_mode_launch_failures (sample_os 0 (-1) (-1) true [])
                ["runasuser"; "--wait"; "id"]%string ∅ ["id"]%string 501 alice)
      as [H _].
    + apply MacOSFacts.sample_resolved. reflexivity.
    + reflexivity.
    + apply MacOSFacts.sample_drop_ok.
    + apply H. reflexivity.
  - destruct (wait_mode_launch_failures (sample_os 0 (-1) 0 false [])
                ["runasuser"; "--wait"; "id"]%string ∅ ["id"]%string 501 alice)
      as [_ H].
    + apply MacOSFacts.sample_resolved. reflexivity.
    + reflexivity.
    + apply MacOSFacts.sample_drop_ok.
    + apply H; reflexivity.
Defined.

(** *** The privilege drop and the environment, on their own *)

(** X8.  [drop_privileges] stops at the first call that fails: it makes at
    most four calls, [setgid] is called only after [initgroups] answered 0
    and [setuid] only after [setgid] answered 0 as well, and the environment
    is not touched. *)
Theorem drop_privileges_stops_at_failure os pw st :
  exists l,
    st_trace (snd (drop_privileges os pw st)) = st_trace st ++ l
    /\ st_env (snd (drop_privileges os pw st)) = st_env st
    /\ (length l <= 4)%nat
    /\ forallb is_transition l = true
    /\ (forall g r, In (CallSetgid g r) l ->
          In (CallInitgroups (pw_name pw) (pw_gid pw) 0) l)
    /\ (forall u r, In (CallSetuid u r) l ->
          In (CallInitgroups (pw_name pw) (pw_gid pw) 0) l
          /\ In (CallSetgid (pw_gid pw) 0) l).
Proof.
  destruct (MacOSFacts.drop_privileges_inv os pw st) as [He Hc].
  cbv zeta in He, Hc.
  destruct Hc as
    [(v & Hv & _ & Ht) | [(v & Hv & _ & Ht) | [(v & Hv & _ & Ht)
     | [(_ & Ht) | (v & Hv & _ & Ht)]]]];
    (eexists; split; [exact Ht|]; split; [exact He|]; split; [cbn; lia|];
     split; [reflexivity|]; split;
     [ intros g r H; cbn [In] in H |- *;
       repeat (destruct H as [H | H]; [try discriminate; auto|]);
       try contradiction
     | intros u r H; cbn [In] in H |- *;
       repeat (destruct H as [H | H]; [try discriminate; auto|]);
       try contradiction ]).
Qed.

(** X9.  [setup_environment] makes five [setenv] calls and changes the five
    variables only: every other variable keeps its value, the set of
    variables grows by at most those five, and a second run changes
    nothing. *)
Theorem setup_environment_effect pw st :
  let st' := snd (setup_environment pw st) in
  st_env st' = reset_env pw (st_env st)
  /\ length (List.filter is_setenv (st_trace st'))
     = (length (List.filter is_setenv (st_trace st)) + 5)%nat
  /\ (forall name, name ∉ reset_vars -> st_env st' !! name = st_env st !! name)
  /\ dom (st_env st') = dom (st_env st) ∪ list_to_set reset_vars
  /\ st_env (snd (setup_environment pw st')) = st_env st'.
Proof.
  cbv zeta.
  destruct (MacOSFacts.setup_environment_env pw st) as [He Ht].
  destruct (MacOSFacts.setup_environment_env pw (snd (setup_environment pw st)))
    as [He2 _].
  rewrite He2, He, Ht. split; [reflexivity|]. split; [|split; [|split]].
  - rewrite List.filter_app, length_app. reflexivity.
  - intros name Hn. apply MacOSFacts.reset_env_other, Hn.
  - unfold reset_env, reset_vars. rewrite !dom_insert_L.
    cbn [list_to_set]. apply set_eq. intros name.
    rewrite !elem_of_union, !elem_of_singleton, elem_of_empty. tauto.
  - apply map_eq. intros name.
    destruct (decide (name ∈ reset_vars)) as [Hin | Hout].
    + destruct (MacOSFacts.reset_env_lookup pw (st_env st))
        as (H1 & H2 & H3 & H4 & H5).
      destruct (MacOSFacts.reset_env_lookup pw (reset_env pw (st_env st)))
        as (G1 & G2 & G3 & G4 & G5).
      unfold reset_vars in Hin.
      repeat (apply elem_of_cons in Hin as [-> | Hin]; [congruence|]).
      by apply elem_of_nil in Hin.
    + apply MacOSFacts.reset_env_other, Hout.
Qed.

(** *** The session flag *)

Lemma wait_loop_trace pid answers : forall st,
  exists l,
    st_trace (snd (wait_loop pid answers st)) = st_trace st ++ l
    /\ st_env (snd (wait_loop pid answers st)) = st_env st
    /\ Forall (fun e => e = CallWaitpid pid) l.
Proof.
  induction answers as [|a rest IH]; intros st.
  - exists [CallWaitpid pid]. repeat split. repeat constructor.
  - cbn [wait_loop]. unfold bind at 1 2. unfold call at 1 2.
    destruct a as [status | errno].
    + exists [CallWaitpid pid]. repeat split. repeat constructor.
    + destruct (negb (errno =? EINTR)).
      * exists [CallWaitpid pid]. repeat split. repeat constructor.
      * destruct (IH {| st_trace := st_trace st ++ [CallWaitpid pid];
                        st_env := st_env st |}) as (l & Hl & He & Hf).
        exists (CallWaitpid pid :: l). rewrite Hl, He. cbn [st_trace st_env].
        rewrite <- app_assoc. repeat split. constructor; [reflexivity|exact Hf].
Qed.

Lemma wait_for_trace os pid st :
  exists l,
    st_trace (snd (wait_for os pid st)) = st_trace st ++ l
    /\ Forall (fun e => e = CallWaitpid pid) l
    /\ forall file args env, fst (wait_for os pid st) <> Exec file args env.
Proof.
  destruct (wait_loop_trace pid (waitpid os pid) st) as (l & Hl & _ & Hf).
  exists l. unfold wait_for, bind.
  destruct (wait_loop pid (waitpid os pid) st) as [[status| |] st'];
    cbn [fst snd ret] in *; repeat split; try assumption; discriminate.
Qed.

Lemma only_waitpid pid l :
  Forall (fun e => e = CallWaitpid pid) l ->
  existsb is_transition l = false
  /\ existsb is_setenv l = false
  /\ existsb is_creation l = false
  /\ (forall u, ~ In (CallGetpwuid u) l)
  /\ (forall file args, ~ In (CallExecvp file args) l).
Proof.
  intros Hf. induction Hf as [|e l He _ IH]; [cbn; repeat split; tauto|].
  destruct IH as (H1 & H2 & H3 & H4 & H5). subst e.
  cbn [existsb is_transition is_setenv is_creation orb In].
  repeat split; try assumption.
  - intros u [H | H]; [discriminate | exact (H4 u H)].
  - intros f a [H | H]; [discriminate | exact (H5 f a H)].
Qed.

Lemma In_app_cases {A} (x : A) l1 l2 : In x (l1 ++ l2) -> In x l1 \/ In x l2.
Proof. apply in_app_or. Qed.

(** X10.  With the session flag the program itself never changes identity:
    on every path it makes no credential call, reads no password entry and
    sets no variable, and when the process becomes another image, that
    image is launchctl with the caller's environment as it was. *)
Theorem session_keeps_identity os argv env w cmd uid :
  resolved os argv w true cmd uid ->
  existsb is_transition (snd (run os argv env)) = false
  /\ existsb is_setenv (snd (run os argv env)) = false
  /\ (forall u, ~ In (CallGetpwuid u) (snd (run os argv env)))
  /\ (forall file args e,
        fst (run os argv env) = Exec file args e ->
        file = "launchctl"%string /\ e = env).
Proof.
  intros Hres. rewrite MacOSFacts.run_fst, MacOSFacts.run_snd.
  rewrite (MacOSFacts.main_resolved _ _ _ _ _ _ env Hres). cbv iota.
  unfold handle_session, get_self_path.
  unfold bind, call, ret. cbn [fst snd st_resolved st_trace st_env app].
  assert (Hshort : forall (o : outcome) (t : list event),
            (forall f a e, o <> Exec f a e) ->
            existsb is_transition t = false ->
            existsb is_setenv t = false ->
            (forall u, ~ In (CallGetpwuid u) t) ->
            existsb is_transition t = false
            /\ existsb is_setenv t = false
            /\ (forall u, ~ In (CallGetpwuid u) t)
            /\ (forall file args e, o = Exec file args e ->
                  file = "launchctl"%string /\ e = env)).
  { intros o t Ho H1 H2 H3. repeat split; try assumption;
      intros; exfalso; eapply Ho; eassumption. }
  assert (Hnot : forall (t : list event) u,
            forallb (fun e => negb match e with CallGetpwuid _ => true
                                           | _ => false end) t = true ->
            ~ In (CallGetpwuid u) t).
  { induction t as [|e t IH]; intros u Hf H; [destruct H|].
    cbn in Hf. apply andb_prop in Hf as [He Ht].
    destruct H as [H | H]; [subst e; discriminate He | exact (IH u Ht H)]. }
  destruct (malloc os); cbn [negb fst snd st_trace st_env];
    [|apply Hshort; [discriminate | reflexivity | reflexivity
                    | intros u; apply Hnot; reflexivity]].
  destruct (NSGetExecutablePath os) as [buf|]; cbn [fst snd st_trace st_env];
    [|apply Hshort; [discriminate | reflexivity | reflexivity
                    | intros u; apply Hnot; reflexivity]].
  destruct (realpath os buf) as [self|]; cbn [fst snd st_trace st_env];
    [|apply Hshort; [discriminate | reflexivity | reflexivity
                    | intros u; apply Hnot; reflexivity]].
  destruct (calloc os); cbn [negb fst snd st_trace st_env];
    [|apply Hshort; [discriminate | reflexivity | reflexivity
                    | intros u; apply Hnot; reflexivity]].
  destruct (fork os <? 0); cbn [fst snd st_trace st_env];
    [apply Hshort; [discriminate | reflexivity | reflexivity
                   | intros u; apply Hnot; reflexivity]|].
  destruct (fork os =? 0).
  - unfold sys_execvp, call. cbn [fst snd st_trace st_env].
    destruct (execvp os _ _); cbn [fst snd st_trace].
    + split; [reflexivity|]. split; [reflexivity|]. split.
      * intros u. apply Hnot. reflexivity.
      * intros file args e [= <- <- <-]. auto.
    + apply Hshort; [discriminate | reflexivity | reflexivity
                    | intros u; apply Hnot; reflexivity].
  - match goal with
    | |- context [wait_for os (fork os) ?st0] =>
        destruct (wait_for_trace os (fork os) st0) as (l & Hl & Hf & Hx)
    end.
    destruct (only_waitpid _ _ Hf) as (W1 & W2 & _ & W4 & _).
    rewrite Hl. cbn [st_trace]. rewrite !existsb_app, W1, W2.
    split; [reflexivity|]. split; [reflexivity|]. split.
    + intros u H. apply in_app_or in H as [H | H]; [|exact (W4 u H)].
      revert H. apply Hnot. reflexivity.
    + intros file args e H. exfalso. exact (Hx _ _ _ H).
Qed.

Lemma session_keeps_identity_witness :
  let os := sample_os 0 (-1) 0 true [] in
  let argv := ["runasuser"; "--session"; "open"; "-a"; "Safari"]%string in
  existsb is_transition (snd (run os argv {["HOME" := "/var/root"]})) = false
  /\ existsb is_setenv (snd (run os argv {["HOME" := "/var/root"]})) = false.
Proof.
  cbv zeta.
  destruct (session_keeps_identity (sample_os 0 (-1) 0 true [])
              ["runasuser"; "--session"; "open"; "-a"; "Safari"]%string
              {["HOME" := "/var/root"]} false
              ["open"; "-a"; "Safari"]%string 501) as (H1 & H2 & _).
  - apply MacOSFacts.sample_resolved. reflexivity.
  - split; assumption.
Defined.

(** X11.  With the session flag: when the program's own path cannot be
    determined (the buffer cannot be allocated, the path cannot be read or
    cannot be resolved) or the argument vector cannot be allocated, the
    program exits with the general failure code 1 and has not forked; when
    [fork] fails it exits with code 4 without an exec and without a wait;
    and the forked child exits with code 4 when launchctl cannot be
    exec'd. *)
Theorem session_failures os argv env w cmd uid :
  resolved os argv w true cmd uid ->
  (malloc os = false
   \/ NSGetExecutablePath os = None
   \/ (exists buf, NSGetExecutablePath os = Some buf /\ realpath os buf = None) ->
   fst (run os argv env) = Exit EXIT_GENERAL
   /\ existsb is_creation (snd (run os argv env)) = false)
  /\ (forall buf self,
        malloc os = true ->
        NSGetExecutablePath os = Some buf ->
        realpath os buf = Some self ->
        (calloc os = false ->
         fst (run os argv env) = Exit EXIT_GENERAL
         /\ existsb is_creation (snd (run os argv env)) = false)
        /\ (calloc os = true -> fork os < 0 ->
            fst (run os argv env) = Exit EXIT_EXEC_FAIL
            /\ (forall f a, ~ In (CallExecvp f a) (snd (run os argv env)))
            /\ existsb is_waitpid (snd (run os argv env)) = false)
        /\ (calloc os = true -> fork os = 0 ->
            execvp os "launchctl" (session_args uid self w cmd) = false ->
            fst (run os argv env) = Exit EXIT_EXEC_FAIL
            /\ existsb is_waitpid (snd (run os argv env)) = false)).
Proof.
  intros Hres. rewrite MacOSFacts.run_fst, MacOSFacts.run_snd.
  rewrite (MacOSFacts.main_resolved _ _ _ _ _ _ env Hres). cbv iota. split.
  - unfold handle_session, get_self_path.
    unfold bind, call, ret. cbn [fst snd st_resolved st_trace st_env app].
    intros [Hm | [Hp | (buf & Hp & Hr)]].
    + rewrite Hm. cbn. auto.
    + destruct (malloc os); cbn [negb fst snd st_trace st_env];
        [rewrite Hp|]; cbn; auto.
    + destruct (malloc os); cbn [negb fst snd st_trace st_env];
        [rewrite Hp; cbn [fst snd st_trace st_env]; rewrite Hr|]; cbn; auto.
  - intros buf self Hm Hp Hr.
    split; [|split].
    + intros Hc. unfold handle_session, get_self_path.
      unfold bind, call, ret. cbn [fst snd st_resolved st_trace st_env app].
      rewrite Hm. cbn [negb]. rewrite Hp. cbn [fst snd st_trace st_env].
      rewrite Hr, Hc. cbn. auto.
    + intros Hc Hf.
      rewrite (MacOSFacts.handle_session_forks _ _ _ _ _ _ _ Hm Hp Hr Hc).
      apply Z.ltb_lt in Hf. rewrite Hf. cbn [ret fst snd st_trace st_resolved app].
      split; [reflexivity|]. split; [|reflexivity].
      intros f a H. cbn [In] in H.
      repeat (destruct H as [H | H]; [discriminate|]). exact H.
    + intros Hc Hf Hx.
      rewrite (MacOSFacts.handle_session_forks _ _ _ _ _ _ _ Hm Hp Hr Hc).
      rewrite Hf. cbn [Z.ltb Z.eqb Z.compare]. unfold sys_execvp.
      rewrite Hx. unfold call. cbn. auto.
Qed.

Lemma session_failures_witness :
  fst (run (sample_os 0 (-1) (-1) true [])
         ["runasuser"; "--session"; "open"]%string ∅) = Exit EXIT_EXEC_FAIL.
Proof.
  destruct (session_failures (sample_os 0 (-1) (-1) true [])
              ["runasuser"; "--session"; "open"]%string ∅ false
              ["open"]%string 501) as [_ H].
  - apply MacOSFacts.sample_resolved. reflexivity.
  - destruct (H "/usr/local/bin/runasuser"%string
                "/usr/local/bin/runasuser"%string) as (_ & Hf & _);
      [reflexivity | reflexivity | reflexivity | apply Hf; reflexivity].
Defined.

(** *** The command is exec'd only after the drop *)

(** X12.  Without the session flag, whatever the operating system answers,
    an [execvp] on the trace is the exec of the command with its own
    arguments, it is the last call, and it comes after the whole
    transition: the program ran as root, the console-user query named a
    logged-in user, the password entry read is the one of that user's
    identity, the four credential calls were made for that entry with the
    first three answering 0 and the attempt to regain root not answering 0,
    and the five variables were set from that entry; between them and the
    exec there is only the [fork] of the wait mode. *)
Theorem exec_only_after_drop os argv env w cmd file args :
  parse_flags (tail argv) false false = PCommand w false cmd ->
  In (CallExecvp file args) (snd (run os argv env)) ->
  file = hd EmptyString cmd /\ args = cmd
  /\ getuid os = 0
  /\ exists uid gid name pw v,
       SCDynamicStoreCopyConsoleUser os = Some (uid, gid)
       /\ CFStringGetCString os = Some name
       /\ name <> "loginwindow"%string
       /\ getpwuid os uid = Some pw /\ v <> 0
       /\ snd (run os argv env)
          = [CallGetuid; CallCopyConsoleUser; CallCFStringGetCString;
             CallGetpwuid uid] ++ transition_calls pw v
            ++ (if w then [CallFork] else [])
            ++ [CallExecvp file args].
Proof.
  intros Hp Hin.
  destruct (Z.eq_dec (getuid os) 0) as [Hu | Hu].
  2:{ rewrite (MacOSFacts.run_not_root _ _ env _ _ _ Hp Hu) in Hin.
      cbn in Hin. destruct Hin as [H | []]. discriminate. }
  destruct (SCDynamicStoreCopyConsoleUser os) as [[uid gid]|] eqn:Hs.
  2:{ destruct (MacOSFacts.run_no_console_user _ _ env _ _ _ Hp Hu
                  (or_introl Hs)) as [_ [Ht | Ht]];
        rewrite Ht in Hin; cbn [In] in Hin;
        repeat (destruct Hin as [Hin | Hin]; [discriminate|]); contradiction. }
  destruct (CFStringGetCString os) as [name|] eqn:Hn.
  2:{ destruct (MacOSFacts.run_no_console_user _ _ env _ _ _ Hp Hu
                  (or_intror (or_introl Hn))) as [_ [Ht | Ht]];
        rewrite Ht in Hin; cbn [In] in Hin;
        repeat (destruct Hin as [Hin | Hin]; [discriminate|]); contradiction. }
  destruct (String.eqb name "loginwindow") eqn:Hl.
  { apply String.eqb_eq in Hl. subst name.
    destruct (MacOSFacts.run_no_console_user _ _ env _ _ _ Hp Hu
                (or_intror (or_intror Hn))) as [_ [Ht | Ht]];
      rewrite Ht in Hin; cbn [In] in Hin;
      repeat (destruct Hin as [Hin | Hin]; [discriminate|]); contradiction. }
  assert (Hne : name <> "loginwindow"%string).
  { intros ->. discriminate Hl. }
  assert (Hres : resolved os argv w false cmd uid).
  { split; [exact Hp|]. split; [exact Hu|]. split; [eauto|]. eauto. }
  destruct (getpwuid os uid) as [pw|] eqn:Hpw.
  2:{ rewrite (run_getpwuid_none _ _ _ _ _ _ Hres Hpw) in Hin.
      cbn [snd st_entry st_trace In] in Hin.
      repeat (destruct Hin as [Hin | Hin]; [discriminate|]). contradiction. }
  destruct (Z.eq_dec (fst (drop_privileges os pw (st_entry uid env))) 0)
    as [Hr | Hr].
  2:{ rewrite (MacOSFacts.main_priv_drop_failed _ _ _ _ _ _ _ Hres Hpw Hr) in Hin.
      cbn [snd] in Hin.
      destruct (drop_privileges_events os pw (st_entry uid env))
        as (l & Hl' & Hall).
      rewrite Hl' in Hin. apply in_app_or in Hin as [Hin | Hin].
      - cbn [st_entry st_trace In] in Hin.
        repeat (destruct Hin as [Hin | Hin]; [discriminate|]). contradiction.
      - rewrite forallb_forall in Hall. apply Hall in Hin. discriminate. }
  destruct w.
  - destruct (MacOSFacts.run_fork_wait _ _ _ _ _ _ Hres Hpw Hr)
      as (v & Hv & Hm).
    rewrite MacOSFacts.run_snd, Hm in Hin.
    destruct (fork os <? 0).
    { cbn [ret snd st_trace In] in Hin.
      repeat (destruct Hin as [Hin | Hin]; [discriminate|]). contradiction. }
    destruct (fork os =? 0).
    + unfold sys_execvp, call in Hin. cbn [fst snd st_trace] in Hin.
      assert (Ht : st_trace (snd (main os argv {| st_trace := []; st_env := env |}))
                   = [CallGetuid; CallCopyConsoleUser; CallCFStringGetCString;
                      CallGetpwuid uid] ++ transition_calls pw v
                     ++ [CallFork; CallExecvp (hd EmptyString cmd) cmd]).
      { rewrite Hm. unfold sys_execvp, call. cbn [fst snd st_trace].
        destruct (execvp os _ _); reflexivity. }
      assert (Hin' : In (CallExecvp file args)
                (([CallGetuid; CallCopyConsoleUser; CallCFStringGetCString;
                   CallGetpwuid uid] ++ transition_calls pw v ++ [CallFork])
                 ++ [CallExecvp (hd EmptyString cmd) cmd])).
      { destruct (execvp os _ _); exact Hin. }
      apply in_app_or in Hin' as [Hin' | Hin'].
      { cbn [app transition_calls In] in Hin'.
        repeat (destruct Hin' as [Hin' | Hin']; [discriminate|]). contradiction. }
      destruct Hin' as [[= <- <-] | []].
      split; [reflexivity|]. split; [reflexivity|]. split; [exact Hu|].
      exists uid, gid, name, pw, v.
      rewrite MacOSFacts.run_snd.
      do 5 (split; [first [reflexivity | assumption]|]). exact Ht.
    + match type of Hin with
      | context [wait_for os (fork os) ?st0] =>
          destruct (wait_for_trace os (fork os) st0) as (l & Hl' & Hf & _)
      end.
      rewrite Hl' in Hin. apply in_app_or in Hin as [Hin | Hin].
      * cbn [st_trace In] in Hin.
        repeat (destruct Hin as [Hin | Hin]; [discriminate|]). contradiction.
      * destruct (only_waitpid _ _ Hf) as (_ & _ & _ & _ & W5).
        destruct (W5 _ _ Hin).
  - destruct (MacOSFacts.run_exec_nowait _ _ _ _ _ _ Hres Hpw Hr)
      as (v & Hv & Hm).
    cbv zeta in Hm. rewrite Hm in Hin |- *. cbn [snd] in Hin |- *.
    cbn [In] in Hin.
    repeat (destruct Hin as [Hin | Hin]; [try discriminate|]);
      [|contradiction].
    injection Hin as <- <-.
    split; [reflexivity|]. split; [reflexivity|]. split; [exact Hu|].
    exists uid, gid, name, pw, v.
    do 5 (split; [first [reflexivity | assumption]|]). reflexivity.
Qed.

Lemma exec_only_after_drop_witness :
  let os := sample_os 0 (-1) 0 true [] in
  getuid os = 0
  /\ exists uid gid name pw v,
       SCDynamicStoreCopyConsoleUser os = Some (uid, gid)
       /\ CFStringGetCString os = Some name
       /\ name <> "loginwindow"%string
       /\ getpwuid os uid = Some pw /\ v <> 0
       /\ snd (run os ["runasuser"; "id"]%string ∅)
          = [CallGetuid; CallCopyConsoleUser; CallCFStringGetCString;
             CallGetpwuid uid] ++ transition_calls pw v
            ++ [] ++ [CallExecvp "id" ["id"]%string].
Proof.
  cbv zeta.
  destruct (exec_only_after_drop (sample_os 0 (-1) 0 true [])
              ["runasuser"; "id"]%string ∅ false ["id"]%string
              "id"%string ["id"]%string) as (_ & _ & H).
  - reflexivity.
  - vm_compute. do 13 right. left. reflexivity.
  - exact H.
Defined.

End MacOSMore.

(* --------------------------------------------------------------------- *)
(** ** More of the token-based program                                     *)
(* --------------------------------------------------------------------- *)

Module WindowsMore.
Import Windows.
Local Open Scope Z_scope.

(** *** The session discovery *)

Lemma first_active_Some sessions id :
  first_active sessions = Some id <->
  exists pre s post,
    sessions = pre ++ s :: post
    /\ Forall (fun x => is_WTSActive (State x) = false) pre
    /\ State s = WTSActive /\ SessionId s = id.
Proof.
  induction sessions as [|x rest IH]; cbn [first_active].
  - split; [discriminate|]. intros (pre & s & post & H & _).
    destruct pre; discriminate.
  - destruct (is_WTSActive (State x)) eqn:Hx.
    + split.
      * intros [= <-]. exists [], x, rest. repeat split; [constructor|].
        destruct (State x); try discriminate. reflexivity.
      * intros (pre & s & post & H & Hpre & Hs & Hid).
        destruct pre as [|y pre].
        -- injection H as -> ->. congruence.
        -- injection H as -> ->. inversion Hpre; congruence.
    + rewrite IH. split.
      * intros (pre & s & post & -> & Hpre & Hs & Hid).
        exists (x :: pre), s, post. repeat split; try assumption.
        constructor; assumption.
      * intros (pre & s & post & H & Hpre & Hs & Hid).
        destruct pre as [|y pre].
        -- injection H as -> ->. rewrite Hs in Hx. discriminate.
        -- injection H as -> ->. inversion Hpre; subst.
           exists pre, s, post. auto.
Qed.

(** X13.  [find_active_session] answers with the console session when there
    is one, without enumerating; otherwise with the first session, in the
    order of the enumeration, whose state is active, and with no session
    when the enumeration fails or holds no active session.  The session
    buffer is released exactly when the enumeration succeeded. *)
Theorem find_active_session_first_active os tr :
  (forall id,
      fst (find_active_session os tr) = Some id <->
      (WTSGetActiveConsoleSessionId os <> 4294967295
       /\ id = WTSGetActiveConsoleSessionId os)
      \/ (WTSGetActiveConsoleSessionId os = 4294967295
          /\ exists pre s post,
               WTSEnumerateSessionsW os = Some (pre ++ s :: post)
               /\ Forall (fun x => is_WTSActive (State x) = false) pre
               /\ State s = WTSActive /\ SessionId s = id))
  /\ snd (find_active_session os tr)
     = tr ++ CallGetActiveConsoleSessionId ::
         (if WTSGetActiveConsoleSessionId os =? 4294967295
          then CallEnumerateSessions ::
               match WTSEnumerateSessionsW os with
               | Some _ => [CallWTSFreeMemory]
               | None => []
               end
          else []).
Proof.
  unfold find_active_session, bind, call, ret. cbn [fst snd].
  destruct (WTSGetActiveConsoleSessionId os =? 4294967295) eqn:Hc;
    cbn [negb fst snd].
  - apply Z.eqb_eq in Hc.
    destruct (WTSEnumerateSessionsW os) as [sessions|] eqn:He; cbn [fst snd].
    + split; [|rewrite <- !app_assoc; reflexivity].
      intros id. rewrite first_active_Some. split.
      * intros (pre & s & post & -> & H). right. split; [exact Hc|].
        exists pre, s, post. auto.
      * intros [[Hne _] | (_ & pre & s & post & [= ->] & H)]; [congruence|].
        exists pre, s, post. auto.
    + split; [|rewrite <- !app_assoc; reflexivity].
      intros id. split; [discriminate|].
      intros [[Hne _] | (_ & pre & s & post & H & _)]; congruence.
  - apply Z.eqb_neq in Hc. split; [|reflexivity].
    intros id. split.
    + intros [= <-]. left. auto.
    + intros [[_ ->] | [Heq _]]; [reflexivity | congruence].
Qed.

Example find_active_session_rdp :
  find_active_session
    {| WTSGetActiveConsoleSessionId := 4294967295;
       WTSEnumerateSessionsW :=
         Some [{| SessionId := 0; State := WTSDisconnected |};
               {| SessionId := 3; State := WTSActive |};
               {| SessionId := 5; State := WTSActive |}];
       WTSQuerySessionInformationW := fun _ => None;
       WTSQueryUserToken := fun _ => inr 5;
       DuplicateTokenEx := fun _ => inr 5;
       CreateEnvironmentBlock := fun _ => inr 5;
       GetUserProfileDirectoryW := fun _ => None;
       malloc := fun _ => true;
       CreateProcessAsUserW := fun _ _ _ _ => inr 5;
       GetExitCodeProcess := fun _ => None |} []
  = (Some 3, [CallGetActiveConsoleSessionId; CallEnumerateSessions;
              CallWTSFreeMemory]).
Proof. reflexivity. Qed.

(** *** What the cleanup label releases *)

Lemma cleanup_calls_eq pi cmdLine env hDup hTok user :
  cleanup_calls pi cmdLine env hDup hTok user
  = (if hThread pi =? 0 then [] else [CallCloseHandle (hThread pi)])
    ++ (if hProcess pi =? 0 then [] else [CallCloseHandle (hProcess pi)])
    ++ (match cmdLine with None => [] | Some _ => [CallFree] end)
    ++ (if env =? 0 then [] else [CallDestroyEnvironmentBlock env])
    ++ (if hDup =? 0 then [] else [CallCloseHandle hDup])
    ++ (if hTok =? 0 then [] else [CallCloseHandle hTok])
    ++ (match user with None => [] | Some _ => [CallWTSFreeMemory] end).
Proof.
  unfold cleanup_calls, cleanup, bind, ret, call.
  destruct (hThread pi =? 0), (hProcess pi =? 0), cmdLine, (env =? 0),
    (hDup =? 0), (hTok =? 0), user; reflexivity.
Qed.

Lemma cleanup_closes pi cmdLine env hDup hTok user h :
  h <> 0 ->
  h = hThread pi \/ h = hProcess pi \/ h = hDup \/ h = hTok ->
  In (CallCloseHandle h) (cleanup_calls pi cmdLine env hDup hTok user).
Proof.
  intros Hh Hc. rewrite cleanup_calls_eq. apply Z.eqb_neq in Hh.
  destruct Hc as [-> | [-> | [-> | ->]]]; rewrite Hh;
    repeat (apply in_or_app; first [left; left; reflexivity | right]).
Qed.

Lemma cleanup_destroys pi cmdLine env hDup hTok user :
  env <> 0 ->
  In (CallDestroyEnvironmentBlock env)
     (cleanup_calls pi cmdLine env hDup hTok user).
Proof.
  intros Hh. rewrite cleanup_calls_eq. apply Z.eqb_neq in Hh. rewrite Hh.
  repeat (apply in_or_app; first [left; left; reflexivity | right]).
Qed.

Lemma cleanup_frees pi line env hDup hTok user :
  In CallFree (cleanup_calls pi (Some line) env hDup hTok user).
Proof.
  rewrite cleanup_calls_eq.
  repeat (apply in_or_app; first [left; left; reflexivity | right]).
Qed.

Lemma cleanup_frees_user pi cmdLine env hDup hTok name :
  In CallWTSFreeMemory (cleanup_calls pi cmdLine env hDup hTok (Some name)).
Proof.
  rewrite cleanup_calls_eq.
  repeat (apply in_or_app; first [left; left; reflexivity | right]).
  left. reflexivity.
Qed.

Lemma cleanup_only_releases pi cmdLine env hDup hTok user e :
  In e (cleanup_calls pi cmdLine env hDup hTok user) -> is_release e = true.
Proof.
  intros H.
  pose proof (WindowsFacts.cleanup_calls_release pi cmdLine env hDup hTok user)
    as Hr.
  rewrite forallb_forall in Hr. apply Hr, H.
Qed.

Lemma cleanup_free_inv pi cmdLine env hDup hTok user :
  In CallFree (cleanup_calls pi cmdLine env hDup hTok user) ->
  cmdLine <> None.
Proof.
  rewrite cleanup_calls_eq. intros H Hc. subst cmdLine.
  destruct (hThread pi =? 0), (hProcess pi =? 0), (env =? 0),
    (hDup =? 0), (hTok =? 0), user; cbn in H;
    repeat (destruct H as [H | H]; [discriminate|]); exact H.
Qed.

Lemma cleanup_destroy_inv pi cmdLine env hDup hTok user e :
  In (CallDestroyEnvironmentBlock e)
     (cleanup_calls pi cmdLine env hDup hTok user) ->
  e = env /\ env <> 0.
Proof.
  rewrite cleanup_calls_eq. intros H.
  destruct (env =? 0) eqn:He.
  - exfalso.
    destruct (hThread pi =? 0), (hProcess pi =? 0), cmdLine,
      (hDup =? 0), (hTok =? 0), user; cbn in H;
      repeat (destruct H as [H | H]; [discriminate|]); exact H.
  - apply Z.eqb_neq in He. split; [|exact He].
    destruct (hThread pi =? 0), (hProcess pi =? 0), cmdLine,
      (hDup =? 0), (hTok =? 0), user; cbn in H;
      repeat (destruct H as [H | H]; [try discriminate; try congruence|]);
      contradiction.
Qed.

Ltac launch_paths os w target :=
  unfold launch, build_command_line, Codec.build_command_line;
  unfold bind, call, ret; cbn [fst snd];
  let E1 := fresh "Etok" in
  let E2 := fresh "Edup" in
  let E3 := fresh "Eenv" in
  let E4 := fresh "Emem" in
  let E5 := fresh "Enew" in
  let E6 := fresh "Ecode" in
  destruct (WTSQueryUserToken os target) as [?hTok|?err] eqn:E1;
  [ match goal with
    | |- context [DuplicateTokenEx os ?h] =>
        destruct (DuplicateTokenEx os h) as [?hDup|?err] eqn:E2
    end;
    [ match goal with
      | |- context [CreateEnvironmentBlock os ?h] =>
          destruct (CreateEnvironmentBlock os h) as [?env|?err] eqn:E3
      end;
      [ match goal with
        | |- context [malloc os ?n] => destruct (malloc os n) eqn:E4
        end;
        [ match goal with
          | |- context [CreateProcessAsUserW os ?h ?l ?e ?c] =>
              destruct (CreateProcessAsUserW os h l e c) as [?pi|?err] eqn:E5
          end;
          [ destruct w;
            [ match goal with
              | |- context [GetExitCodeProcess os ?h] =>
                  destruct (GetExitCodeProcess os h) eqn:E6
              end | ] | ] | ] | ] | ] | ];
  rewrite WindowsFacts.cleanup_spec; cbn [fst snd];
  rewrite <- ?app_assoc; cbn [app].

Ltac same_answers :=
  repeat match goal with
         | H : inl _ = inl _ |- _ => injection H as H; subst
         | H : inl _ = inr _ |- _ => discriminate H
         | H : inr _ = inl _ |- _ => discriminate H
         | H : true = false |- _ => discriminate H
         | H : false = true |- _ => discriminate H
         | E : ?x = _, H : ?x = _ |- _ => rewrite E in H
         end.

Ltac past_calls :=
  cbn [In]; repeat match goal with |- _ = _ \/ _ => right end.

Ltac in_calls H :=
  cbn [In] in H;
  repeat (destruct H as [H | H]; [try discriminate H|]).

(** X14.  Steps 2 to 8 release what they acquired on every path: a token,
    duplicated token, environment block, command-line buffer, process or
    thread handle that was obtained (and is not NULL) is closed, destroyed
    or freed before the program returns, and so is the user name.
    Conversely the buffer is freed only if it was allocated, and an
    environment block is destroyed only if it was created. *)
Theorem launch_releases_what_it_acquired os w target user cmd tr :
  exists l,
    snd (launch os w target user cmd tr) = tr ++ l
    /\ (forall hTok,
          WTSQueryUserToken os target = inl hTok -> hTok <> 0 ->
          In (CallCloseHandle hTok) l)
    /\ (forall hTok hDup,
          WTSQueryUserToken os target = inl hTok ->
          DuplicateTokenEx os hTok = inl hDup -> hDup <> 0 ->
          In (CallCloseHandle hDup) l)
    /\ (forall hTok hDup env,
          WTSQueryUserToken os target = inl hTok ->
          DuplicateTokenEx os hTok = inl hDup ->
          CreateEnvironmentBlock os hDup = inl env -> env <> 0 ->
          In (CallDestroyEnvironmentBlock env) l)
    /\ (forall n, In (CallMalloc n) l -> malloc os n = true -> In CallFree l)
    /\ (forall h line env cwd pi,
          In (CallCreateProcessAsUser h line env cwd) l ->
          CreateProcessAsUserW os h line env cwd = inl pi ->
          (hProcess pi <> 0 -> In (CallCloseHandle (hProcess pi)) l)
          /\ (hThread pi <> 0 -> In (CallCloseHandle (hThread pi)) l))
    /\ (user <> None -> In CallWTSFreeMemory l)
    /\ (In CallFree l -> exists n, In (CallMalloc n) l /\ malloc os n = true)
    /\ (forall env,
          In (CallDestroyEnvironmentBlock env) l ->
          exists h, In (CallCreateEnvironmentBlock h) l
                    /\ CreateEnvironmentBlock os h = inl env).
Proof.
  launch_paths os w target;
    (eexists; split; [reflexivity|]);
    (split; [intros; same_answers; past_calls; apply cleanup_closes; auto|]);
    (split; [intros; same_answers; past_calls; apply cleanup_closes; auto|]);
    (split; [intros; same_answers; past_calls; apply cleanup_destroys; auto|]);
    (split; [intros n Hin Hn; in_calls Hin;
             try (apply cleanup_only_releases in Hin; discriminate Hin);
             try (injection Hin as <-; congruence);
             past_calls; apply cleanup_frees|]);
    (split; [intros h line e cwd pi' Hin Hn; in_calls Hin;
             try (apply cleanup_only_releases in Hin; discriminate Hin);
             try (injection Hin as <- <- <- <-; same_answers;
                  split; intros; past_calls; apply cleanup_closes; auto;
                  fail)|]);
    (split; [intros Hu; destruct user; [|congruence]; past_calls;
             apply cleanup_frees_user|]);
    (split; [intros Hin; in_calls Hin;
             apply cleanup_free_inv in Hin;
             first [ exfalso; apply Hin; reflexivity
                   | eexists; split;
                     [cbn [In]; do 4 right; left; reflexivity | assumption] ]|]);
    (intros e Hin; in_calls Hin;
     apply cleanup_destroy_inv in Hin as [-> Hne];
     first [ exfalso; apply Hne; reflexivity
           | eexists; split;
             [cbn [In]; do 2 right; left; reflexivity | assumption] ]).
Qed.

Ltac calls_before l :=
  lazymatch l with
  | ?e :: ?r => let p := calls_before r in constr:(e :: p)
  | _ => constr:(@nil event)
  end.

(** X15.  In steps 2 to 8 every release comes after every other call: the
    calls made are first the queries, the creation and the wait, none of
    them a release, and then the releases of the cleanup label, so nothing
    is used after it was released. *)
Theorem launch_releases_last os w target user cmd tr :
  exists body released,
    snd (launch os w target user cmd tr) = tr ++ body ++ released
    /\ existsb is_release body = false
    /\ forallb is_release released = true.
Proof.
  launch_paths os w target;
    match goal with
    | |- context [tr ++ ?l] =>
        match l with
        | context [cleanup_calls ?a ?b ?c ?d ?e ?f] =>
            let p := calls_before l in
            exists p, (cleanup_calls a b c d e f)
        end
    end;
    (split; [reflexivity|]); (split; [reflexivity|]);
    apply WindowsFacts.cleanup_calls_release.
Qed.

(** *** Failures of the single steps *)

Lemma existsb_false_In {A} (f : A -> bool) l x :
  existsb f l = false -> In x l -> f x = false.
Proof.
  induction l as [|y l IH]; [intros _ []|].
  cbn [existsb In]. intros H [-> | Hin];
    apply orb_false_elim in H as [Hy Hl]; auto.
Qed.

Ltac no_creation t0 :=
  rewrite ?existsb_app; cbn [existsb is_creation orb app];
  match goal with
  | H : existsb is_creation t0 = false |- _ => rewrite ?H
  end;
  match goal with
  | |- context [cleanup_calls ?a ?b ?c ?d ?e ?f] =>
      rewrite (proj1 (proj2 (proj2 (proj2
                 (WindowsFacts.release_only _
                    (WindowsFacts.cleanup_calls_release a b c d e f))))))
  end;
  reflexivity.

(** X16.  Once the session is resolved and its token obtained: when the
    token cannot be duplicated the program exits with the token-failure code
    3; when the environment block cannot be created or the command line
    cannot be allocated it exits with the general failure code 1; in none of
    these cases is a process created.  With the wait flag, when the exit
    code of the created process cannot be read the program exits with 1. *)
Theorem acquisition_failures os argv w ss sid cmd target t0 hTok :
  parse_flags (tail argv) false false 0 = PCommand w ss sid cmd ->
  resolve_target os ss sid [] = (Some target, t0) ->
  WTSQueryUserToken os target = inl hTok ->
  (forall err,
      DuplicateTokenEx os hTok = inr err ->
      fst (run os argv) = EXIT_TOKEN_FAILURE
      /\ existsb is_creation (snd (run os argv)) = false)
  /\ (forall hDup err,
        DuplicateTokenEx os hTok = inl hDup ->
        CreateEnvironmentBlock os hDup = inr err ->
        fst (run os argv) = EXIT_GENERAL_FAILURE
        /\ existsb is_creation (snd (run os argv)) = false)
  /\ (forall hDup env,
        DuplicateTokenEx os hTok = inl hDup ->
        CreateEnvironmentBlock os hDup = inl env ->
        malloc os (Codec.totalLen cmd * 2) = false ->
        fst (run os argv) = EXIT_GENERAL_FAILURE
        /\ existsb is_creation (snd (run os argv)) = false)
  /\ (forall hDup env pi,
        prepared os target cmd hTok hDup env ->
        CreateProcessAsUserW os hDup (Codec.emit_args cmd) env
          (current_directory os hDup) = inl pi ->
        w = true ->
        GetExitCodeProcess os (hProcess pi) = None ->
        fst (run os argv) = EXIT_GENERAL_FAILURE).
Proof.
  intros Hp Hr Ht.
  rewrite (WindowsFacts.run_parsed _ _ _ _ _ _ Hp), Hr.
  destruct (WindowsFacts.resolve_target_trace _ _ _ _ _ Hr)
    as (_ & _ & H3 & _).
  split; [|split; [|split]].
  - intros err Hd. launch_paths os w target; same_answers.
    split; [reflexivity | no_creation t0].
  - intros hDup err Hd He. launch_paths os w target; same_answers.
    split; [reflexivity | no_creation t0].
  - intros hDup env Hd He Hm. launch_paths os w target; same_answers.
    split; [reflexivity | no_creation t0].
  - intros hDup env pi Hprep Hc -> Hx.
    rewrite (WindowsFacts.launch_prepared _ _ _ _ _ _ _ _ _ Hprep).
    cbv zeta. rewrite Hc, Hx. reflexivity.
Qed.

Lemma acquisition_failures_witness :
  fst (run {| WTSGetActiveConsoleSessionId := 1;
              WTSEnumerateSessionsW := None;
              WTSQuerySessionInformationW := fun _ => Some (L "alice");
              WTSQueryUserToken := fun _ => inl 8;
              DuplicateTokenEx := fun _ => inr 5;
              CreateEnvironmentBlock := fun _ => inl 4096;
              GetUserProfileDirectoryW := fun _ => None;
              malloc := fun _ => true;
              CreateProcessAsUserW := fun _ _ _ _ => inr 5;
              GetExitCodeProcess := fun _ => None |}
           [L "runasuser"; L "notepad.exe"])
  = EXIT_TOKEN_FAILURE.
Proof.
  destruct (acquisition_failures
              {| WTSGetActiveConsoleSessionId := 1;
                 WTSEnumerateSessionsW := None;
                 WTSQuerySessionInformationW := fun _ => Some (L "alice");
                 WTSQueryUserToken := fun _ => inl 8;
                 DuplicateTokenEx := fun _ => inr 5;
                 CreateEnvironmentBlock := fun _ => inl 4096;
                 GetUserProfileDirectoryW := fun _ => None;
                 malloc := fun _ => true;
                 CreateProcessAsUserW := fun _ _ _ _ => inr 5;
                 GetExitCodeProcess := fun _ => None |}
              [L "runasuser"; L "notepad.exe"] false false 0
              [L "notepad.exe"] 1 [CallGetActiveConsoleSessionId] 8)
    as (H & _); [reflexivity | reflexivity | reflexivity |].
  apply (H 5). reflexivity.
Defined.

(** *** What a process is created with *)

Lemma cwd_current_directory os h :
  match match GetUserProfileDirectoryW os h with
        | Some dir => dir
        | None => []
        end with
  | [] => None
  | _ :: _ => Some match GetUserProfileDirectoryW os h with
                   | Some dir => dir
                   | None => []
                   end
  end = current_directory os h.
Proof.
  unfold current_directory.
  destruct (GetUserProfileDirectoryW os h) as [[|c dir]|]; reflexivity.
Qed.

(** X17.  Whatever the operating system answers, a process creation on the
    trace uses the duplicate of the token obtained for the queried session,
    the environment block created from that duplicate, the command line
    built from the command, and the user's profile directory (or none) as
    working directory; with a session given on the command line the token
    is the one of that session. *)
Theorem creation_only_with_user_token os argv w ss sid cmd h line env cwd :
  parse_flags (tail argv) false false 0 = PCommand w ss sid cmd ->
  In (CallCreateProcessAsUser h line env cwd) (snd (run os argv)) ->
  exists target hTok,
    In (CallQueryUserToken target) (snd (run os argv))
    /\ WTSQueryUserToken os target = inl hTok
    /\ DuplicateTokenEx os hTok = inl h
    /\ CreateEnvironmentBlock os h = inl env
    /\ line = Codec.emit_args cmd
    /\ cwd = current_directory os h
    /\ (ss = true -> target = sid).
Proof.
  intros Hp. rewrite (WindowsFacts.run_parsed _ _ _ _ _ _ Hp).
  destruct (resolve_target os ss sid []) as [[target|] t0] eqn:Hr.
  2:{ cbn [snd]. intros Hin.
      destruct (WindowsFacts.resolve_target_trace _ _ _ _ _ Hr)
        as (_ & _ & H3 & _).
      pose proof (existsb_false_In _ _ _ H3 Hin) as Hc. discriminate Hc. }
  destruct (WindowsFacts.resolve_target_trace _ _ _ _ _ Hr)
    as (_ & _ & H3 & _).
  assert (Hss : ss = true -> target = sid).
  { intros ->. unfold resolve_target, ret in Hr. congruence. }
  launch_paths os w target;
    intros Hin; apply in_app_or in Hin as [Hin | Hin];
    try (pose proof (existsb_false_In _ _ _ H3 Hin) as Hc; discriminate Hc);
    in_calls Hin;
    try (apply cleanup_only_releases in Hin; discriminate Hin);
    injection Hin as <- <- <- <-;
    exists target, hTok;
    (split; [apply in_or_app; right; cbn [In]; auto|]);
    repeat (split; [first [assumption | reflexivity]|]);
    (split; [apply cwd_current_directory | exact Hss]).
Qed.

Lemma creation_only_with_user_token_witness :
  exists target hTok,
    In (CallQueryUserToken target)
       (snd (run (sample_os 1 (fun _ => inl 8) true 0)
                 [L "runasuser"; L "--session"; L "2"; L "notepad.exe"]))
    /\ WTSQueryUserToken (sample_os 1 (fun _ => inl 8) true 0) target = inl hTok
    /\ DuplicateTokenEx (sample_os 1 (fun _ => inl 8) true 0) hTok = inl 9
    /\ CreateEnvironmentBlock (sample_os 1 (fun _ => inl 8) true 0) 9 = inl 4096
    /\ L "notepad.exe" = Codec.emit_args [L "notepad.exe"]
    /\ Some (L "C:\Users\alice")
       = current_directory (sample_os 1 (fun _ => inl 8) true 0) 9
    /\ (true = true -> target = 2).
Proof.
  apply (creation_only_with_user_token (sample_os 1 (fun _ => inl 8) true 0)
           [L "runasuser"; L "--session"; L "2"; L "notepad.exe"]
           false true 2 [L "notepad.exe"] 9 (L "notepad.exe") 4096
           (Some (L "C:\Users\alice"))).
  - reflexivity.
  - vm_compute. do 6 right. left. reflexivity.
Defined.

(** X18.  When the profile directory of the user cannot be read, or is
    empty, the program goes on: the process creation is still called, with
    no working directory. *)
Theorem profile_directory_best_effort
    os argv w ss sid cmd target t0 hTok hDup env :
  parse_flags (tail argv) false false 0 = PCommand w ss sid cmd ->
  resolve_target os ss sid [] = (Some target, t0) ->
  prepared os target cmd hTok hDup env ->
  GetUserProfileDirectoryW os hDup = None
  \/ GetUserProfileDirectoryW os hDup = Some [] ->
  In (CallCreateProcessAsUser hDup (Codec.emit_args cmd) env None)
     (snd (run os argv)).
Proof.
  intros Hp Hr Hprep Hdir.
  rewrite (WindowsFacts.run_prepared _ _ _ _ _ _ _ _ _ _ _ Hp Hr Hprep).
  rewrite (WindowsFacts.launch_prepared _ _ _ _ _ _ _ _ _ Hprep). cbv zeta.
  assert (Hcwd : current_directory os hDup = None).
  { unfold current_directory. destruct Hdir as [-> | ->]; reflexivity. }
  assert (Hin : forall rest,
            In (CallCreateProcessAsUser hDup (Codec.emit_args cmd) env None)
               ((t0 ++ [CallQuerySessionInformation target])
                ++ launch_calls os target cmd hTok hDup env ++ rest)).
  { intros rest. apply in_or_app. right. apply in_or_app. left.
    unfold launch_calls. rewrite Hcwd. cbn [In]. do 5 right. left.
    reflexivity. }
  destruct (CreateProcessAsUserW os hDup _ env _) as [pi|err];
    [destruct w|]; cbn [snd]; apply Hin.
Qed.

Lemma profile_directory_best_effort_witness :
  In (CallCreateProcessAsUser 9 (L "notepad.exe") 4096 None)
     (snd (run {| WTSGetActiveConsoleSessionId := 1;
                  WTSEnumerateSessionsW := None;
                  WTSQuerySessionInformationW := fun _ => None;
                  WTSQueryUserToken := fun _ => inl 8;
                  DuplicateTokenEx := fun _ => inl 9;
                  CreateEnvironmentBlock := fun _ => inl 4096;
                  GetUserProfileDirectoryW := fun _ => None;
                  malloc := fun _ => true;
                  CreateProcessAsUserW := fun _ _ _ _ => inr 5;
                  GetExitCodeProcess := fun _ => None |}
               [L "runasuser"; L "notepad.exe"])).
Proof.
  apply (profile_directory_best_effort _ _ false false 0 [L "notepad.exe"] 1
           [CallGetActiveConsoleSessionId] 8 9 4096).
  - reflexivity.
  - reflexivity.
  - repeat split.
  - left. reflexivity.
Defined.

(** X19.  The user name of the session is informational: with any other
    answer to the user-name query the program ends with the same exit
    code. *)
Theorem session_username_informational os answer argv :
  fst (run {| WTSGetActiveConsoleSessionId := WTSGetActiveConsoleSessionId os;
              WTSEnumerateSessionsW := WTSEnumerateSessionsW os;
              WTSQuerySessionInformationW := answer;
              WTSQueryUserToken := WTSQueryUserToken os;
              DuplicateTokenEx := DuplicateTokenEx os;
              CreateEnvironmentBlock := CreateEnvironmentBlock os;
              GetUserProfileDirectoryW := GetUserProfileDirectoryW os;
              malloc := malloc os;
              CreateProcessAsUserW := CreateProcessAsUserW os;
              GetExitCodeProcess := GetExitCodeProcess os |} argv)
  = fst (run os argv).
Proof.
  unfold run, wmain.
  destruct (parse_flags (tail argv) false false 0) as [code | w ss sid cmd];
    [reflexivity|].
  unfold bind at 1 3.
  unfold resolve_target, find_active_session, get_session_username.
  unfold bind, call, ret.
  cbn [fst snd WTSGetActiveConsoleSessionId WTSEnumerateSessionsW
       WTSQuerySessionInformationW].
  assert (Hlaunch : forall os' target user user' tr tr',
            WTSQueryUserToken os' = WTSQueryUserToken os ->
            DuplicateTokenEx os' = DuplicateTokenEx os ->
            CreateEnvironmentBlock os' = CreateEnvironmentBlock os ->
            GetUserProfileDirectoryW os' = GetUserProfileDirectoryW os ->
            malloc os' = malloc os ->
            CreateProcessAsUserW os' = CreateProcessAsUserW os ->
            GetExitCodeProcess os' = GetExitCodeProcess os ->
            fst (launch os' w target user cmd tr)
            = fst (launch os w target user' cmd tr')).
  { intros os' target user user' tr tr' E1 E2 E3 E4 E5 E6 E7.
    unfold launch, build_command_line, Codec.build_command_line.
    unfold bind, call, ret. cbn [fst snd].
    rewrite E1, E2, E3, E4, E5, E6, E7.
    destruct (WTSQueryUserToken os target) as [hTok|];
      [destruct (DuplicateTokenEx os hTok) as [hDup|];
       [destruct (CreateEnvironmentBlock os hDup) as [env|];
        [destruct (malloc os _);
         [destruct (CreateProcessAsUserW os hDup _ env _) as [pi|];
          [destruct w; [destruct (GetExitCodeProcess os (hProcess pi))|]|]|]|]|]|];
      rewrite !WindowsFacts.cleanup_spec; reflexivity. }
  destruct ss.
  - apply Hlaunch; reflexivity.
  - destruct (negb (WTSGetActiveConsoleSessionId os =? 4294967295));
      cbn [fst snd].
    + apply Hlaunch; reflexivity.
    + destruct (WTSEnumerateSessionsW os) as [sessions|]; cbn [fst snd].
      * destruct (first_active sessions);
          [apply Hlaunch; reflexivity
          | rewrite !WindowsFacts.cleanup_spec; reflexivity].
      * rewrite !WindowsFacts.cleanup_spec. reflexivity.
Qed.

(** *** The flag loop *)

Lemma session_arg_range id v : session_arg id = Some v -> 0 <= v < 2 ^ 32.
Proof.
  unfold session_arg. destruct (wcstoul id) as [val endPtr].
  destruct (_ || _); [discriminate|]. intros [= <-].
  unfold to_DWORD. apply Z.mod_pos_bound. lia.
Qed.

Lemma parse_flags_result_le n : forall args w ss sid,
  (length args <= n)%nat ->
  (forall w' ss' sid' cmd,
      parse_flags args w ss sid = PCommand w' ss' sid' cmd ->
      (0 <= sid < 2 ^ 32 -> 0 <= sid' < 2 ^ 32)
      /\ (exists pre, args = pre ++ cmd)
      /\ (exists c rest, cmd = c :: rest /\ is_option c = false)
      /\ (w = true -> w' = true)
      /\ (ss = true -> ss' = true))
  /\ (forall code,
        parse_flags args w ss sid = PReturn code ->
        code = EXIT_SUCCESS_CODE \/ code = EXIT_USAGE_ERROR).
Proof.
  induction n as [|n IH]; intros args w ss sid Hlen.
  - destruct args; [|cbn in Hlen; lia]. cbn [parse_flags].
    split; [discriminate|]. intros code [= <-]. auto.
  - destruct args as [|a rest].
    { cbn [parse_flags]. split; [discriminate|]. intros code [= <-]. auto. }
    cbn [length] in Hlen. cbn [parse_flags].
    destruct (decide (a = L "--wait")) as [Hw | Hw].
    { destruct (IH rest true ss sid ltac:(lia)) as [Hc Hr]. split; [|exact Hr].
      intros w' ss' sid' cmd Hp.
      destruct (Hc _ _ _ _ Hp) as (H1 & (pre & H2) & H3 & H4 & H5).
      split; [exact H1|]. split; [exists (a :: pre); rewrite H2; reflexivity|].
      split; [exact H3|]. split; [intros _; apply H4; reflexivity | exact H5]. }
    destruct (decide (a = L "--session")) as [Hs | Hs].
    { destruct rest as [|id rest'].
      { split; [discriminate|]. intros code [= <-]. auto. }
      destruct (session_arg id) as [val|] eqn:Hid.
      2:{ split; [discriminate|]. intros code [= <-]. auto. }
      cbn [length] in Hlen.
      destruct (IH rest' w true val ltac:(lia)) as [Hc Hr]. split; [|exact Hr].
      intros w' ss' sid' cmd Hp.
      destruct (Hc _ _ _ _ Hp) as (H1 & (pre & H2) & H3 & H4 & H5).
      split; [intros _; apply H1, (session_arg_range _ _ Hid)|].
      split; [exists (a :: id :: pre); rewrite H2; reflexivity|].
      split; [exact H3|]. split; [exact H4 | intros _; apply H5; reflexivity]. }
    destruct (decide (a = L "--help")) as [Hh | Hh].
    { split; [discriminate|]. intros code [= <-]. auto. }
    destruct (decide (a = L "-h")) as [Hh' | Hh'].
    { split; [discriminate|]. intros code [= <-]. auto. }
    split; [|discriminate].
    intros w' ss' sid' cmd [= <- <- <- <-].
    split; [auto|]. split; [exists []; reflexivity|].
    split; [|auto].
    exists a, rest. split; [reflexivity|]. unfold is_option.
    rewrite !bool_decide_eq_false_2 by assumption. reflexivity.
Qed.

(** The flag loop goes past every flag whose session word, if any, is an
    identifier. *)
Lemma parse_flags_flags flags : forall rest w ss sid,
  forallb flag_ok flags = true ->
  parse_flags (flags_words flags ++ rest) w ss sid
  = parse_flags rest (w || existsb is_FWait flags)
                (ss || existsb is_FSession flags)
                (default sid (last (session_ids flags))).
Proof.
  induction flags as [|f flags IH]; intros rest w ss sid Hok.
  - cbn. rewrite !orb_false_r. reflexivity.
  - cbn [forallb] in Hok. apply andb_prop in Hok as [Hf Hok].
    destruct f as [|id].
    + change (flags_words (FWait :: flags) ++ rest)
        with (L "--wait" :: (flags_words flags ++ rest)).
      change (parse_flags (L "--wait" :: (flags_words flags ++ rest)) w ss sid)
        with (parse_flags (flags_words flags ++ rest) true ss sid).
      rewrite (IH rest true ss sid Hok).
      cbn [existsb is_FWait is_FSession orb session_ids omap list_omap].
      rewrite orb_true_r. reflexivity.
    + cbn [flag_ok] in Hf. apply bool_decide_eq_true in Hf as [v Hv].
      change (flags_words (FSession id :: flags) ++ rest)
        with (L "--session" :: id :: (flags_words flags ++ rest)).
      change (parse_flags (L "--session" :: id :: (flags_words flags ++ rest))
                w ss sid)
        with (match session_arg id with
              | None => PReturn EXIT_USAGE_ERROR
              | Some val => parse_flags (flags_words flags ++ rest) w true val
              end).
      rewrite Hv, (IH rest w true v Hok).
      cbn [existsb is_FWait is_FSession orb session_ids omap list_omap].
      rewrite Hv, last_cons, orb_true_r. fold (session_ids flags).
      destruct (last (session_ids flags)); reflexivity.
Qed.

(** A command found by the flag loop follows flags of that kind. *)
Lemma parse_flags_command_inv n : forall args w ss sid w' ss' sid' cmd,
  (length args <= n)%nat ->
  parse_flags args w ss sid = PCommand w' ss' sid' cmd ->
  exists flags c rest,
    forallb flag_ok flags = true
    /\ is_option c = false
    /\ cmd = c :: rest
    /\ args = flags_words flags ++ cmd.
Proof.
  induction n as [|n IH]; intros args w ss sid w' ss' sid' cmd Hlen Hp.
  - destruct args; [discriminate Hp | cbn in Hlen; lia].
  - destruct args as [|a rest]; [discriminate Hp|].
    cbn [length] in Hlen. cbn [parse_flags] in Hp.
    destruct (decide (a = L "--wait")) as [Hw | Hw].
    { destruct (IH rest true ss sid w' ss' sid' cmd ltac:(lia) Hp)
        as (flags & c & r & Hok & Hc & Hcmd & Hargs).
      exists (FWait :: flags), c, r. subst a.
      split; [exact Hok|]. split; [exact Hc|]. split; [exact Hcmd|].
      rewrite Hargs. reflexivity. }
    destruct (decide (a = L "--session")) as [Hs | Hs].
    { destruct rest as [|id rest']; [discriminate Hp|].
      destruct (session_arg id) as [val|] eqn:Hid; [|discriminate Hp].
      cbn [length] in Hlen.
      destruct (IH rest' w true val w' ss' sid' cmd ltac:(lia) Hp)
        as (flags & c & r & Hok & Hc & Hcmd & Hargs).
      exists (FSession id :: flags), c, r. subst a.
      split.
      { cbn [forallb flag_ok]. rewrite Hok, andb_true_r.
        apply bool_decide_eq_true. rewrite Hid. eauto. }
      split; [exact Hc|]. split; [exact Hcmd|].
      rewrite Hargs. reflexivity. }
    destruct (decide (a = L "--help")) as [Hh | Hh]; [discriminate Hp|].
    destruct (decide (a = L "-h")) as [Hh' | Hh']; [discriminate Hp|].
    injection Hp as <- <- <- <-.
    exists [], a, rest. split; [reflexivity|]. split; [|auto].
    unfold is_option. rewrite !bool_decide_eq_false_2 by assumption.
    reflexivity.
Qed.

(** X20.  The flag loop of [wmain] stops at the first word that is not an
    option.  After any wait flags and session flags with an identifier, in
    any order and number, it returns the command from that word on, with
    every later argument, the wait flag set when a wait flag was read, the
    session marked as given when a session flag was read, and the identifier
    of the last session flag.  Every command it returns is found in this
    way, after flags only; its session identifier is a 32-bit value and a
    flag set before stays set.  When the loop returns instead, the code is
    0 or the usage-error code 5. *)
Theorem parse_flags_result :
  (forall flags c rest w ss sid,
      forallb flag_ok flags = true ->
      is_option c = false ->
      parse_flags (flags_words flags ++ c :: rest) w ss sid
      = PCommand (w || existsb is_FWait flags)
                 (ss || existsb is_FSession flags)
                 (default sid (last (session_ids flags)))
                 (c :: rest))
  /\ (forall args w ss sid w' ss' sid' cmd,
        parse_flags args w ss sid = PCommand w' ss' sid' cmd ->
        (exists flags c rest,
            forallb flag_ok flags = true
            /\ is_option c = false
            /\ cmd = c :: rest
            /\ args = flags_words flags ++ cmd
            /\ w' = w || existsb is_FWait flags
            /\ ss' = ss || existsb is_FSession flags
            /\ sid' = default sid (last (session_ids flags)))
        /\ (0 <= sid < 2 ^ 32 -> 0 <= sid' < 2 ^ 32)
        /\ (w = true -> w' = true)
        /\ (ss = true -> ss' = true))
  /\ (forall args w ss sid code,
        parse_flags args w ss sid = PReturn code ->
        code = EXIT_SUCCESS_CODE \/ code = EXIT_USAGE_ERROR).
Proof.
  split; [|split].
  - intros flags c rest w ss sid Hok Hc.
    rewrite (parse_flags_flags flags (c :: rest) w ss sid Hok).
    apply WindowsFacts.parse_flags_command_word, Hc.
  - intros args w ss sid w' ss' sid' cmd Hp.
    destruct (parse_flags_result_le (length args) args w ss sid (le_n _))
      as [Hc _].
    destruct (Hc _ _ _ _ Hp) as (H1 & _ & _ & H4 & H5).
    split; [|auto].
    destruct (parse_flags_command_inv (length args) _ _ _ _ _ _ _ _ (le_n _) Hp)
      as (flags & c & rest & Hok & Hnc & Hcmd & Hargs).
    exists flags, c, rest.
    do 4 (split; [assumption|]).
    rewrite Hargs, Hcmd, (parse_flags_flags flags (c :: rest) w ss sid Hok),
      (WindowsFacts.parse_flags_command_word _ _ _ _ _ Hnc) in Hp.
    injection Hp as <- <- <-. auto.
  - intros args w ss sid code Hp.
    destruct (parse_flags_result_le (length args) args w ss sid (le_n _))
      as [_ Hr].
    exact (Hr code Hp).
Qed.

Example parse_flags_last_session :
  parse_flags [L "--session"; L "2"; L "--wait"; L "--session"; L "7";
               L "cmd"; L "--wait"] false false 0
  = PCommand true true 7 [L "cmd"; L "--wait"].
Proof. reflexivity. Qed.

End WindowsMore.

(* --------------------------------------------------------------------- *)
(** ** Help and usage, in both programs                                    *)
(* --------------------------------------------------------------------- *)

Module PlatformMore.
Local Open Scope Z_scope.

Lemma macos_flags_then_help flags : forall h rest w s,
  Forall (fun a => MacOS.is_own_flag a = true) flags ->
  h = "--help"%string \/ h = "-h"%string ->
  MacOS.parse_flags (flags ++ h :: rest) w s = MacOS.PReturn 0.
Proof.
  induction flags as [|a flags IH]; intros h rest w s Hf Hh.
  - destruct Hh as [-> | ->]; reflexivity.
  - inversion Hf as [|? ? Ha Hf']; subst. unfold MacOS.is_own_flag in Ha.
    cbn [app MacOS.parse_flags].
    destruct (String.eqb a "--wait"); [apply IH; assumption|].
    cbn [orb] in Ha. rewrite Ha. apply IH; assumption.
Qed.

Lemma macos_flags_only flags : forall w s,
  Forall (fun a => MacOS.is_own_flag a = true) flags ->
  MacOS.parse_flags flags w s = MacOS.PReturn MacOS.EXIT_USAGE.
Proof.
  induction flags as [|a flags IH]; intros w s Hf; [reflexivity|].
  inversion Hf as [|? ? Ha Hf']; subst. unfold MacOS.is_own_flag in Ha.
  cbn [MacOS.parse_flags].
  destruct (String.eqb a "--wait"); [apply IH; assumption|].
  cbn [orb] in Ha. rewrite Ha. apply IH; assumption.
Qed.

(** X21.  Asked for help, after any wait or session flags, either program
    returns 0 without having made a single call; given no command (no
    arguments at all, flags only, or on the token platform a session flag
    without its identifier or with a word that is not one) it returns the
    usage-error code 5, again without a call. *)
Theorem help_and_usage_make_no_call :
  (forall os env prog flags rest,
      Forall (fun a => MacOS.is_own_flag a = true) flags ->
      MacOS.run os (prog :: flags ++ "--help"%string :: rest) env
      = (MacOS.Exit 0, [])
      /\ MacOS.run os (prog :: flags ++ "-h"%string :: rest) env
         = (MacOS.Exit 0, [])
      /\ MacOS.run os (prog :: flags) env = (MacOS.Exit MacOS.EXIT_USAGE, []))
  /\ (forall os env, MacOS.run os [] env = (MacOS.Exit MacOS.EXIT_USAGE, []))
  /\ (forall os prog flags rest,
        forallb Windows.flag_ok flags = true ->
        Windows.run os (prog :: Windows.flags_words flags ++ L "--help" :: rest)
        = (Windows.EXIT_SUCCESS_CODE, [])
        /\ Windows.run os (prog :: Windows.flags_words flags ++ L "-h" :: rest)
           = (Windows.EXIT_SUCCESS_CODE, [])
        /\ Windows.run os (prog :: Windows.flags_words flags)
           = (Windows.EXIT_USAGE_ERROR, [])
        /\ Windows.run os (prog :: Windows.flags_words flags ++ [L "--session"])
           = (Windows.EXIT_USAGE_ERROR, [])
        /\ (forall id,
              Windows.session_arg id = None ->
              Windows.run os (prog :: Windows.flags_words flags
                                ++ L "--session" :: id :: rest)
              = (Windows.EXIT_USAGE_ERROR, [])))
  /\ (forall os, Windows.run os [] = (Windows.EXIT_USAGE_ERROR, [])).
Proof.
  split; [|split; [|split]].
  - intros os env prog flags rest Hf. unfold MacOS.run, MacOS.main.
    cbn [tail].
    rewrite (macos_flags_then_help flags _ rest false false Hf (or_introl eq_refl)).
    rewrite (macos_flags_then_help flags _ rest false false Hf (or_intror eq_refl)).
    rewrite (macos_flags_only flags false false Hf). auto.
  - reflexivity.
  - intros os prog flags rest Hok. unfold Windows.run, Windows.wmain.
    cbn [tail].
    rewrite !(WindowsMore.parse_flags_flags flags _ false false 0 Hok).
    split; [reflexivity|]. split; [reflexivity|]. split.
    { rewrite <- (app_nil_r (Windows.flags_words flags)).
      rewrite (WindowsMore.parse_flags_flags flags [] false false 0 Hok).
      reflexivity. }
    split; [reflexivity|].
    intros id Hid.
    rewrite (WindowsMore.parse_flags_flags flags _ false false 0 Hok).
    cbn [Windows.parse_flags].
    destruct (decide (L "--session" = L "--wait")) as [E | _];
      [discriminate E|].
    destruct (decide (L "--session" = L "--session")) as [_ | E];
      [|contradiction].
    rewrite Hid. reflexivity.
  - reflexivity.
Qed.

(** On the token platform: help after a wait flag and a session flag. *)
Example windows_help_after_flags :
  Windows.run (Windows.sample_os 1 (fun _ => inl 8) true 0)
    [L "runasuser"; L "--wait"; L "--session"; L "3"; L "--help"; L "x"]
  = (Windows.EXIT_SUCCESS_CODE, []).
Proof. reflexivity. Qed.

End PlatformMore.
